(** * FM transmitter monitoring core: metric parser, poller, trap receiver, store

  A shallow embedding of the TypeScript sources
    - server/services/database-service.ts  (DatabaseService)
    - server/services/snmp-poller.ts       (SNMPPoller)
    - server/services/snmp-trap-manager.ts (SNMPTrapManager)
    - shared/schema.ts                     (table layout)
  together with the properties of the monitoring core that are stated in the
  specification.

  Conventions.  A JavaScript number is an IEEE-754 binary64 value and is
  modelled by Rocq's primitive [float]; [===] on numbers is [PrimFloat.eqb].
  A JavaScript string is modelled by [string]; the OIDs, host names and
  JSON texts handled here are ASCII.  A JavaScript object used as a map is
  an association list in property (insertion) order, because the code
  iterates [Object.entries].  Storage round-trips can throw, so the code of
  the services is written in a small state-and-exception monad. *)

From Stdlib Require Import ZArith List String Ascii Bool Lia.
From Stdlib Require Import Permutation Sorted.
From Stdlib Require Import PrimFloat.

#[local] Set Warnings "-register-all".
#[local] Set Warnings "-inexact-float".
Import ListNotations.
Open Scope string_scope.
Open Scope list_scope.

(* ================================================================== *)
(** ** JavaScript strings *)
(* ================================================================== *)

Module JsString.

(** [s.startsWith(p)] *)
Fixpoint startsWith (s p : string) {struct p} : bool :=
  match p, s with
  | EmptyString, _ => true
  | String c p', String d s' => Ascii.eqb c d && startsWith s' p'
  | String _ _, EmptyString => false
  end.

(** [s.substring(n)] for [0 <= n] *)
Fixpoint drop (n : nat) (s : string) : string :=
  match n, s with
  | O, _ => s
  | S n', String _ s' => drop n' s'
  | S _, EmptyString => EmptyString
  end.

(** [s.substring(0, n)] for [0 <= n] *)
Fixpoint take (n : nat) (s : string) : string :=
  match n, s with
  | O, _ => EmptyString
  | S n', String c s' => String c (take n' s')
  | S _, EmptyString => EmptyString
  end.

(** [s.endsWith(suffix)] *)
Definition endsWith (s suffix : string) : bool :=
  (length suffix <=? length s)%nat
  && String.eqb (drop (length s - length suffix) s) suffix.

(** [s.slice(0, -2)] *)
Definition slice_0_m2 (s : string) : string := take (length s - 2) s.

(** [s.lastIndexOf('.')]: [None] stands for [-1]. *)
Fixpoint lastIndexOfDot (s : string) : option nat :=
  match s with
  | EmptyString => None
  | String c s' =>
      match lastIndexOfDot s' with
      | Some i => Some (S i)
      | None => if Ascii.eqb c "." then Some O else None
      end
  end.

(** [s.split('.')]; the result is never empty. *)
Fixpoint splitDot (s : string) : list string :=
  match s with
  | EmptyString => [EmptyString]
  | String c s' =>
      if Ascii.eqb c "." then EmptyString :: splitDot s'
      else match splitDot s' with
           | p :: ps => String c p :: ps
           | [] => [String c EmptyString]
           end
  end.

(** [parts.join('.')] *)
Fixpoint joinDot (parts : list string) : string :=
  match parts with
  | [] => EmptyString
  | [p] => p
  | p :: ps => p ++ "." ++ joinDot ps
  end.

Definition isDigit (c : ascii) : bool :=
  let n := nat_of_ascii c in (48 <=? n)%nat && (n <=? 57)%nat.

Fixpoint allDigits (s : string) : bool :=
  match s with
  | EmptyString => true
  | String c s' => isDigit c && allDigits s'
  end.

(** The regular expression [/^\d+$/]. *)
Definition re_digits (s : string) : bool :=
  negb (String.eqb s "") && allDigits s.

(** Longest prefix of decimal digits, and what follows it. *)
Fixpoint spanDigits (s : string) : string * string :=
  match s with
  | EmptyString => (EmptyString, EmptyString)
  | String c s' =>
      if isDigit c
      then let (ds, r) := spanDigits s' in (String c ds, r)
      else (EmptyString, s)
  end.

(** The regular expression [/^\d+(\.0)?$/]. *)
Definition re_digits_opt_dot0 (s : string) : bool :=
  let (ds, r) := spanDigits s in
  negb (String.eqb ds "") && (String.eqb r "" || String.eqb r ".0").

(** White space and line terminators removed by [String.prototype.trim],
    on the UTF-8 encoding of the string: the ASCII ones, U+00A0, U+1680,
    U+2000..U+200A, U+2028, U+2029, U+202F, U+205F, U+3000 and U+FEFF. *)
Definition isAsciiSpace (c : ascii) : bool :=
  let n := nat_of_ascii c in
  ((9 <=? n)%nat && (n <=? 13)%nat) || (n =? 32)%nat.

Definition wsTail3 (a b c : nat) : bool :=
  match a with
  | 225 => (b =? 154)%nat && (c =? 128)%nat
  | 226 =>
      ((b =? 128)%nat
       && (((128 <=? c)%nat && (c <=? 138)%nat)
           || (c =? 168)%nat || (c =? 169)%nat || (c =? 175)%nat))
      || ((b =? 129)%nat && (c =? 159)%nat)
  | 227 => (b =? 128)%nat && (c =? 128)%nat
  | 239 => (b =? 187)%nat && (c =? 191)%nat
  | _ => false
  end.

Fixpoint trimStartL (l : list ascii) : list ascii :=
  match l with
  | a :: l1 =>
      if isAsciiSpace a then trimStartL l1
      else match l1 with
           | b :: l2 =>
               if ((nat_of_ascii a =? 194) && (nat_of_ascii b =? 160))%nat
               then trimStartL l2
               else match l2 with
                    | c :: l3 =>
                        if wsTail3 (nat_of_ascii a) (nat_of_ascii b)
                                   (nat_of_ascii c)
                        then trimStartL l3 else l
                    | [] => l
                    end
           | [] => l
           end
  | [] => []
  end.

(** The same scan on the reversed string; the byte patterns are reversed. *)
Fixpoint trimEndRevL (l : list ascii) : list ascii :=
  match l with
  | c :: l1 =>
      if isAsciiSpace c then trimEndRevL l1
      else match l1 with
           | b :: l2 =>
               if ((nat_of_ascii b =? 194) && (nat_of_ascii c =? 160))%nat
               then trimEndRevL l2
               else match l2 with
                    | a :: l3 =>
                        if wsTail3 (nat_of_ascii a) (nat_of_ascii b)
                                   (nat_of_ascii c)
                        then trimEndRevL l3 else l
                    | [] => l
                    end
           | [] => l
           end
  | [] => []
  end.

(** [s.trim()] *)
Definition trim (s : string) : string :=
  string_of_list_ascii
    (rev (trimEndRevL (rev (trimStartL (list_ascii_of_string s))))).

End JsString.

(* ================================================================== *)
(** ** JavaScript values *)
(* ================================================================== *)

Module Js.

(** The values that reach the core: SNMP varbind values (numbers, strings,
    byte buffers), stored columns and parsed JSON. *)
Inductive JsValue : Type :=
| VUndefined
| VNull
| VBool (b : bool)
| VNum (f : float)
| VStr (s : string)
| VBuffer (bytes : list ascii)
| VArr (items : list JsValue)
| VObj (props : list (string * JsValue)).

(** A plain object used as a map from strings, in property order. *)
Definition JsObject := list (string * JsValue).

(** ToBoolean *)
Definition truthy (v : JsValue) : bool :=
  match v with
  | VUndefined | VNull => false
  | VBool b => b
  | VNum f => negb (PrimFloat.is_zero f || PrimFloat.is_nan f)
  | VStr s => negb (String.eqb s "")
  | VBuffer _ | VArr _ | VObj _ => true
  end.

(** [typeof v === 'number'] *)
Definition asNumber (v : JsValue) : option float :=
  match v with VNum f => Some f | _ => None end.

(** [typeof v === 'object'] (this includes [null], arrays and buffers) *)
Definition typeofObject (v : JsValue) : bool :=
  match v with
  | VNull | VBuffer _ | VArr _ | VObj _ => true
  | _ => false
  end.

(** [d[k]]: [None] is [undefined]. *)
Fixpoint get (d : JsObject) (k : string) : option JsValue :=
  match d with
  | [] => None
  | (k', v) :: d' => if String.eqb k' k then Some v else get d' k
  end.

(** [d[k] = v]: an existing property keeps its place. *)
Fixpoint set (d : JsObject) (k : string) (v : JsValue) : JsObject :=
  match d with
  | [] => [(k, v)]
  | (k', v') :: d' =>
      if String.eqb k' k then (k', v) :: d' else (k', v') :: set d' k v
  end.

(** [Object.entries(d)] *)
Definition entries (d : JsObject) : list (string * JsValue) := d.

Definition keys (d : JsObject) : list string := map fst d.

(** Truthiness of an optional numeric field such as [metrics.vswr]. *)
Definition truthyNum (o : option float) : bool :=
  match o with
  | Some f => truthy (VNum f)
  | None => false
  end.

End Js.

Import Js.

(** [a || b] on optional results: first hit wins. *)
Definition orElse {A : Type} (a : option A) (b : option A) : option A :=
  match a with Some _ => a | None => b end.

Notation "a <|> b" := (orElse a b) (at level 52, left associativity).

(* ================================================================== *)
(** ** Poll results (snmp-poller.ts, interface DeviceResult) *)
(* ================================================================== *)

Record DeviceResult : Type := mkDeviceResult {
  deviceId : string;
  timestamp : Z;                     (* Date, in milliseconds *)
  success : bool;
  data : option JsObject;
  error : option string
}.

(* ================================================================== *)
(** ** Metric parser (database-service.ts, parseSnmpData) *)
(* ================================================================== *)

Module MetricParser.

(** [Partial<TransmitterMetricData>]: the fields the parser can set. *)
Record Metrics : Type := mkMetrics {
  powerOutput : option float;
  frequency : option float;
  vswr : option float;
  temperature : option float;
  forwardPower : option float;
  reflectedPower : option float;
  status : option string
}.

Definition emptyMetrics : Metrics :=
  mkMetrics None None None None None None None.

Inductive MetricName : Type :=
| ForwardPower | ReflectedPower | Frequency | PowerOutput.

Definition oidBaseMappings (oid : string) : option MetricName :=
  if String.eqb oid "1.3.6.1.4.1.31946.4.2.6.10.1" then Some ForwardPower
  else if String.eqb oid "1.3.6.1.4.1.31946.4.2.6.10.2" then Some ReflectedPower
  else if String.eqb oid "1.3.6.1.4.1.31946.4.2.6.10.14" then Some Frequency
  else None.

Definition directOidMappings (oid : string) : option MetricName :=
  if String.eqb oid "1.3.6.1.2.1.1.3.0" then Some PowerOutput else None.

Definition parentOf (s : string) : option string :=
  match JsString.lastIndexOfDot s with
  | Some lastDot => Some (JsString.take lastDot s)
  | None => None
  end.

Definition resolveMetricName (oid : string) : option MetricName :=
  let withoutZero :=
    if JsString.endsWith oid ".0" then JsString.slice_0_m2 oid else oid in
  directOidMappings oid
  <|> oidBaseMappings oid
  <|> oidBaseMappings withoutZero
  <|> match parentOf withoutZero with
      | Some parent => oidBaseMappings parent
      | None => None
      end
  <|> (if JsString.endsWith oid ".0"
       then match parentOf (JsString.slice_0_m2 oid) with
            | Some parent2 => oidBaseMappings parent2
            | None => None
            end
       else None).

Definition statusBase13 : string := "1.3.6.1.4.1.31946.4.2.6.10.13".
Definition statusBase12 : string := "1.3.6.1.4.1.31946.4.2.6.10.12".

(** The [for] loop of [getNumericValueForBase]: first entry with a numeric
    value whose key is [base.<n>] or [base.<n>.0]. *)
Fixpoint findOffset (base : string) (es : list (string * JsValue))
  : option float :=
  match es with
  | [] => None
  | (k, v) :: es' =>
      match asNumber v with
      | None => findOffset base es'
      | Some f =>
          if JsString.startsWith k (base ++ ".")
             && JsString.re_digits_opt_dot0
                  (JsString.drop (String.length base + 1) k)
          then Some f
          else findOffset base es'
      end
  end.

Definition getNumericValueForBase (d : JsObject) (base : string)
  : option float :=
  match get d base with
  | Some (VNum direct) => Some direct
  | _ =>
      match get d (base ++ ".0") with
      | Some (VNum scalar) => Some scalar
      | _ => findOffset base (entries d)
      end
  end.

Definition deriveStatus (d : JsObject) : string :=
  let v13 := getNumericValueForBase d statusBase13 in
  let v12 := getNumericValueForBase d statusBase12 in
  match v13, v12 with
  | Some v, _ => if PrimFloat.eqb v 1 then "active" else "standby"
  | None, Some v => if PrimFloat.eqb v 2 then "active" else "standby"
  | None, None => "offline"
  end.

Definition setMetric (m : Metrics) (name : MetricName) (v : float) : Metrics :=
  match name with
  | ForwardPower =>
      mkMetrics (powerOutput m) (frequency m) (vswr m) (temperature m)
                (Some v) (reflectedPower m) (status m)
  | ReflectedPower =>
      mkMetrics (powerOutput m) (frequency m) (vswr m) (temperature m)
                (forwardPower m) (Some v) (status m)
  | Frequency =>
      mkMetrics (powerOutput m) (Some v) (vswr m) (temperature m)
                (forwardPower m) (reflectedPower m) (status m)
  | PowerOutput =>
      mkMetrics (Some v) (frequency m) (vswr m) (temperature m)
                (forwardPower m) (reflectedPower m) (status m)
  end.

(** Body of the loop over [Object.entries(result.data)]. *)
Definition assignEntry (m : Metrics) (e : string * JsValue) : Metrics :=
  match resolveMetricName (fst e), snd e with
  | Some Frequency, VNum value => setMetric m Frequency (value / 100)%float
  | Some name, VNum value => setMetric m name value
  | _, _ => m
  end.

Definition reflectionVswr (fwd refl : float) : float :=
  let reflectionCoeff := PrimFloat.sqrt (refl / fwd)%float in
  ((1 + reflectionCoeff) / (1 - reflectionCoeff))%float.

(** "Calculate VSWR from forward and reflected power if not directly
    available". *)
Definition deriveVswr (m : Metrics) : Metrics :=
  match forwardPower m, reflectedPower m with
  | Some fwd, Some refl =>
      if truthy (VNum fwd) && truthy (VNum refl) && negb (truthyNum (vswr m))
      then mkMetrics (powerOutput m) (frequency m)
                     (Some (reflectionVswr fwd refl)) (temperature m)
                     (forwardPower m) (reflectedPower m) (status m)
      else m
  | _, _ => m
  end.

Definition withStatus (m : Metrics) (s : string) : Metrics :=
  mkMetrics (powerOutput m) (frequency m) (vswr m) (temperature m)
            (forwardPower m) (reflectedPower m) (Some s).

Definition parseSnmpData (result : DeviceResult) : Metrics :=
  match success result, data result with
  | true, Some d =>
      let m0 := withStatus emptyMetrics (deriveStatus d) in
      let m1 := fold_left assignEntry (entries d) m0 in
      deriveVswr m1
  | _, _ => emptyMetrics
  end.

End MetricParser.

(* ================================================================== *)
(** ** Rows of the persistence schema (shared/schema.ts) *)
(* ================================================================== *)

(** [sites]; the columns the core reads.  [contactInfo] is whatever the row
    object carries: [normalizeSite] is written for [any]. *)
Module Site.
Record t : Type := mk {
  id : string;
  name : string;
  contactInfo : JsValue;
  isActive : option bool              (* boolean, nullable, default true *)
}.
End Site.

(** [transmitters]; the columns the core reads. *)
Module Transmitter.
Record t : Type := mk {
  id : string;
  siteId : string;                    (* not null *)
  name : string;
  displayOrder : option Z;            (* integer, nullable, default 0 *)
  snmpHost : string;                  (* not null *)
  isActive : option bool              (* boolean, nullable, default true *)
}.

Definition withName (tx : t) (n : string) : t :=
  mk (id tx) (siteId tx) n (displayOrder tx) (snmpHost tx) (isActive tx).
End Transmitter.

(** [transmitter_metrics]; primary key [(transmitterId, timestamp)]. *)
Module MetricRow.
Record t : Type := mk {
  transmitterId : string;
  timestamp : Z;
  powerOutput : option float;
  frequency : option float;
  vswr : option float;
  temperature : option float;
  forwardPower : option float;
  reflectedPower : option float;
  status : string;                    (* not null *)
  snmpData : option JsObject;
  errorMessage : option string
}.
End MetricRow.

(** A normalized varbind [{oid, type, value}]. *)
Record Varbind : Type := mkVarbind {
  vb_oid : string;
  vb_type : option string;
  vb_value : JsValue
}.

(** The argument of [storeSnmpTrap]. *)
Module Trap.
Record t : Type := mk {
  transmitterId : option string;
  siteId : option string;
  sourceHost : string;
  sourcePort : Z;
  community : option string;
  version : Z;                        (* 0 = v1, 1 = v2c *)
  trapOid : option string;
  enterpriseOid : option string;
  varbinds : list Varbind
}.
End Trap.

(** [snmp_traps]: a stored trap with its [created_at] (default [NOW()]). *)
Module TrapRow.
Record t : Type := mk {
  trap : Trap.t;
  createdAt : Z
}.
Definition transmitterId (r : t) := Trap.transmitterId (trap r).
Definition siteId (r : t) := Trap.siteId (trap r).
Definition sourceHost (r : t) := Trap.sourceHost (trap r).
End TrapRow.

(* ================================================================== *)
(** ** The store and the effects of a storage round-trip *)
(* ================================================================== *)

(** The statements the services send to the database. *)
Inductive Query : Type :=
| SelectTransmitter (id : string)
| SelectSite (id : string)
| SelectAllTransmitters
| UpdateTransmitter (id : string)
| InsertTransmitter
| InsertMetric (transmitterId : string) (timestamp : Z)
| InsertTrap
| SelectLatestTraps.

(** What happened to a statement: it was answered, or the round-trip threw. *)
Inductive Event : Type :=
| Answered (q : Query)
| Threw (q : Query).

(** The tables, the clock, the outcome of the coming round-trips ([true]: the
    round-trip throws a storage error; none left: all succeed) and the journal
    of the statements sent so far. *)
Record World : Type := mkWorld {
  transmitters : list Transmitter.t;
  sites : list Site.t;
  transmitterMetrics : list MetricRow.t;
  snmpTraps : list TrapRow.t;
  now : Z;
  faults : list bool;
  journal : list Event
}.

Inductive Outcome (A : Type) : Type :=
| Ok (a : A)
| Thrown (e : string).
Arguments Ok {A} a.
Arguments Thrown {A} e.

(** Computations of the services: they read and write the world and either
    return or throw. *)
Definition Io (A : Type) : Type := World -> Outcome A * World.

Definition ret {A : Type} (a : A) : Io A := fun w => (Ok a, w).

Definition throw {A : Type} (e : string) : Io A := fun w => (Thrown e, w).

Definition bind {A B : Type} (m : Io A) (k : A -> Io B) : Io B :=
  fun w =>
    match m w with
    | (Ok a, w') => k a w'
    | (Thrown e, w') => (Thrown e, w')
    end.

(** [try { m } catch (e) { h e }] *)
Definition tryCatch {A : Type} (m : Io A) (h : string -> Io A) : Io A :=
  fun w =>
    match m w with
    | (Ok a, w') => (Ok a, w')
    | (Thrown e, w') => h e w'
    end.

Definition getWorld : Io World := fun w => (Ok w, w).

Definition putWorld (w' : World) : Io unit := fun _ => (Ok tt, w').

Notation "x <- m ;; k" := (bind m (fun x => k))
  (at level 61, m at next level, right associativity).
Notation "m ;;; k" := (bind m (fun _ => k))
  (at level 61, right associativity).

Definition withFaults (w : World) (fs : list bool) (e : Event) : World :=
  mkWorld (transmitters w) (sites w) (transmitterMetrics w) (snmpTraps w)
          (now w) fs (journal w ++ [e]).

(** One round-trip to the database for statement [q]. *)
Definition roundtrip (q : Query) : Io unit :=
  fun w =>
    match faults w with
    | true :: fs => (Thrown "storage error", withFaults w fs (Threw q))
    | false :: fs => (Ok tt, withFaults w fs (Answered q))
    | [] => (Ok tt, withFaults w [] (Answered q))
    end.

Definition setTransmitters (l : list Transmitter.t) : Io unit :=
  fun w => (Ok tt, mkWorld l (sites w) (transmitterMetrics w) (snmpTraps w)
                           (now w) (faults w) (journal w)).

Definition setTransmitterMetrics (l : list MetricRow.t) : Io unit :=
  fun w => (Ok tt, mkWorld (transmitters w) (sites w) l (snmpTraps w)
                           (now w) (faults w) (journal w)).

Definition setSnmpTraps (l : list TrapRow.t) : Io unit :=
  fun w => (Ok tt, mkWorld (transmitters w) (sites w) (transmitterMetrics w) l
                           (now w) (faults w) (journal w)).

(** Built-ins of the JavaScript runtime and of net-snmp that the services
    call and whose code is not part of the repository. *)
Record Runtime : Type := mkRuntime {
  (** [JSON.parse(text)]; [None] when it throws a SyntaxError. *)
  JSON_parse : string -> option JsValue;
  (** [buffer.toString('utf8')] *)
  Buffer_toString : list ascii -> string;
  (** [Buffer.from(array)]; [None] when it throws. *)
  Buffer_from : list JsValue -> option (list ascii);
  (** [snmp.ObjectType[type]]: the readable name of a varbind type. *)
  ObjectType : Z -> option string
}.

(** Stable insertion sort: the order that [Array.prototype.sort] and an
    [ORDER BY] over the rows in table order produce.  [le x y] says that [x]
    may stand before [y]. *)
Fixpoint insertBy {A : Type} (le : A -> A -> bool) (x : A) (l : list A)
  : list A :=
  match l with
  | [] => [x]
  | y :: l' => if le x y then x :: l else y :: insertBy le x l'
  end.

Definition sortBy {A : Type} (le : A -> A -> bool) (l : list A) : list A :=
  fold_right (insertBy le) [] l.

(** Truthiness of an optional string such as [params.siteId]. *)
Definition truthyStr (o : option string) : bool :=
  match o with
  | Some s => negb (String.eqb s "")
  | None => false
  end.

(** [a === b] for a nullable column [a] and a string [b]. *)
Definition strictEqOpt (a : option string) (b : string) : bool :=
  match a with
  | Some s => String.eqb s b
  | None => false
  end.

(* ================================================================== *)
(** ** DatabaseService (database-service.ts) *)
(* ================================================================== *)

Section DatabaseService.

Variable rt : Runtime.

(** [{ technician: '', phone: '', email: contact }] *)
Definition legacyContact (contact : JsValue) : JsValue :=
  VObj [("technician", VStr ""); ("phone", VStr ""); ("email", contact)].

(** The [contact] variable of [normalizeSite] once the branches have run. *)
Definition normalizeContact (contact : JsValue) : JsValue :=
  if truthy contact then
    match contact with
    | VStr s =>
        let trimmed := JsString.trim s in
        match JSON_parse rt trimmed with
        | Some parsed =>
            if truthy parsed && typeofObject parsed then parsed
            else legacyContact contact
        | None => legacyContact contact
        end
    | _ => contact
    end
  else VNull.

Definition normalizeSite (row : Site.t) : Site.t :=
  Site.mk (Site.id row) (Site.name row)
          (normalizeContact (Site.contactInfo row)) (Site.isActive row).

(** [try { m } catch (error) { console.error(...); throw error; }] *)
Definition rethrow {A : Type} (m : Io A) : Io A :=
  tryCatch m (fun e => throw e).

(** [rows[0] || null] of the select by id. *)
Definition getTransmitterById (transmitterId : string)
  : Io (option Transmitter.t) :=
  rethrow
    (roundtrip (SelectTransmitter transmitterId) ;;;
     w <- getWorld ;;
     ret (find (fun tx => String.eqb (Transmitter.id tx) transmitterId)
               (transmitters w))).

(** [row ? this.normalizeSite(row) : null] *)
Definition getSiteById (siteId : string) : Io (option Site.t) :=
  rethrow
    (roundtrip (SelectSite siteId) ;;;
     w <- getWorld ;;
     ret (option_map normalizeSite
            (find (fun s => String.eqb (Site.id s) siteId) (sites w)))).

(** [ORDER BY display_order]: ascending, NULLs last. *)
Definition displayOrderLe (a b : Transmitter.t) : bool :=
  match Transmitter.displayOrder a, Transmitter.displayOrder b with
  | Some x, Some y => (x <=? y)%Z
  | Some _, None => true
  | None, Some _ => false
  | None, None => true
  end.

Definition getAllTransmitters : Io (list Transmitter.t) :=
  rethrow
    (roundtrip SelectAllTransmitters ;;;
     w <- getWorld ;;
     ret (sortBy displayOrderLe (transmitters w))).

(** [upsertTransmitter({ id, name })], the only shape the core passes.  The
    insert branch has no value for the NOT NULL columns and is refused. *)
Definition upsertTransmitterName (id name : string) : Io Transmitter.t :=
  rethrow
    (existing <-
       (if negb (String.eqb id "") then
          roundtrip (SelectTransmitter id) ;;;
          w <- getWorld ;;
          ret (find (fun tx => String.eqb (Transmitter.id tx) id)
                    (transmitters w))
        else ret None) ;;
     match existing with
     | Some tx =>
         roundtrip (UpdateTransmitter id) ;;;
         w <- getWorld ;;
         setTransmitters
           (map (fun t => if String.eqb (Transmitter.id t) id
                          then Transmitter.withName t name else t)
                (transmitters w)) ;;;
         ret (Transmitter.withName tx name)
     | None =>
         roundtrip InsertTransmitter ;;;
         throw "null value violates not-null constraint"
     end).

Definition radioNameOid : string := "1.3.6.1.4.1.31946.3.1.7".
Definition radioNameOidScalar : string := "1.3.6.1.4.1.31946.3.1.7.0".

(** [a ?? b] on property reads *)
Definition nullish (a b : option JsValue) : option JsValue :=
  match a with
  | None | Some VUndefined | Some VNull => b
  | Some _ => a
  end.

Definition rawRadioName (result : DeviceResult) : option JsValue :=
  match data result with
  | Some d => nullish (get d radioNameOid) (get d radioNameOidScalar)
  | None => None
  end.

Definition radioName (result : DeviceResult) : option string :=
  match rawRadioName result with
  | Some raw =>
      if truthy raw then
        match raw with
        | VStr s => Some (JsString.trim s)
        | VBuffer b => Some (JsString.trim (Buffer_toString rt b))
        | VObj props =>
            match get props "type", get props "data" with
            | Some (VStr ty), Some (VArr items) =>
                if String.eqb ty "Buffer" then
                  option_map (fun b => JsString.trim (Buffer_toString rt b))
                             (Buffer_from rt items)
                else None
            | _, _ => None
            end
        | _ => None
        end
      else None
  | None => None
  end.

(** The values handed to [db.insert(transmitterMetrics)]. *)
Definition metricValues (deviceId : string) (result : DeviceResult)
  : MetricRow.t :=
  let metrics := MetricParser.parseSnmpData result in
  MetricRow.mk deviceId (timestamp result)
    (MetricParser.powerOutput metrics)
    (MetricParser.frequency metrics)
    (MetricParser.vswr metrics)
    (MetricParser.temperature metrics)
    (MetricParser.forwardPower metrics)
    (MetricParser.reflectedPower metrics)
    (match MetricParser.status metrics with
     | Some s => s
     | None => "offline"
     end)
    (data result)
    (error result).

(** [primaryKey({ columns: [transmitterId, timestamp] })] *)
Definition samePrimaryKey (a b : MetricRow.t) : bool :=
  String.eqb (MetricRow.transmitterId a) (MetricRow.transmitterId b)
  && (MetricRow.timestamp a =? MetricRow.timestamp b)%Z.

(** [db.insert(transmitterMetrics).values(row)]: the row is appended, and
    refused when a row with its primary key is stored already. *)
Definition insertMetric (row : MetricRow.t) : Io unit :=
  roundtrip (InsertMetric (MetricRow.transmitterId row)
                          (MetricRow.timestamp row)) ;;;
  w <- getWorld ;;
  if existsb (samePrimaryKey row) (transmitterMetrics w)
  then throw "duplicate key value violates unique constraint"
  else setTransmitterMetrics (transmitterMetrics w ++ [row]).

(** [storeTransmitterMetrics(deviceId, result)]: nothing is written when the
    transmitter is unknown; otherwise the radio name, if the result carries a
    new one, is written to the transmitter, and the metric row is inserted. *)
Definition storeTransmitterMetrics (deviceId : string) (result : DeviceResult)
  : Io unit :=
  rethrow
    (roundtrip (SelectTransmitter deviceId) ;;;
     w <- getWorld ;;
     match find (fun tx => String.eqb (Transmitter.id tx) deviceId)
                (transmitters w) with
     | None => ret tt
     | Some tx0 =>
         (match radioName result with
          | Some rn =>
              if negb (String.eqb rn "")
                 && negb (String.eqb (Transmitter.name tx0) rn)
              then upsertTransmitterName deviceId rn ;;; ret tt
              else ret tt
          | None => ret tt
          end) ;;;
         insertMetric (metricValues deviceId result)
     end).

(** [storeSnmpTrap(trap)]; [created_at] takes its default, [NOW()]. *)
Definition storeSnmpTrap (trap : Trap.t) : Io unit :=
  rethrow
    (roundtrip InsertTrap ;;;
     w <- getWorld ;;
     setSnmpTraps (snmpTraps w ++ [TrapRow.mk trap (now w)])).

(** The [params] of [getLatestTraps]. *)
Record TrapParams : Type := mkTrapParams {
  p_limit : option Z;
  p_transmitterId : option string;
  p_siteId : option string;
  p_sourceHost : option string
}.

(** [params.limit && params.limit > 0 ? params.limit : 100] *)
Definition effectiveLimit (params : TrapParams) : Z :=
  match p_limit params with
  | Some l => if (0 <? l)%Z then l else 100%Z
  | None => 100%Z
  end.

(** [ORDER BY created_at DESC] *)
Definition createdAtDesc (a b : TrapRow.t) : bool :=
  (TrapRow.createdAt b <=? TrapRow.createdAt a)%Z.

(** The predicate of [rows.filter]: a filter that is missing or empty lets
    every row pass. *)
Definition trapMatches (params : TrapParams) (r : TrapRow.t) : bool :=
  (negb (truthyStr (p_transmitterId params))
   || match p_transmitterId params with
      | Some x => strictEqOpt (TrapRow.transmitterId r) x
      | None => false
      end)
  && (negb (truthyStr (p_siteId params))
      || match p_siteId params with
         | Some x => strictEqOpt (TrapRow.siteId r) x
         | None => false
         end)
  && (negb (truthyStr (p_sourceHost params))
      || match p_sourceHost params with
         | Some x => String.eqb (TrapRow.sourceHost r) x
         | None => false
         end).

(** [getLatestTraps(params)]: the select orders and limits, the filters run
    afterwards on the rows it returned. *)
Definition getLatestTraps (params : TrapParams) : Io (list TrapRow.t) :=
  rethrow
    (let limit := effectiveLimit params in
     roundtrip SelectLatestTraps ;;;
     w <- getWorld ;;
     let rows := firstn (Z.to_nat limit) (sortBy createdAtDesc (snmpTraps w)) in
     ret (filter (trapMatches params) rows)).

End DatabaseService.

(* ================================================================== *)
(** ** SNMPPoller (snmp-poller.ts) *)
(* ================================================================== *)

Record SNMPDevice : Type := mkSNMPDevice {
  dev_id : string;
  dev_host : string;
  dev_port : Z;
  dev_community : string;
  dev_version : Z;
  dev_oids : list string;
  dev_pollInterval : Z;
  dev_isActive : bool
}.

Module OidExpansion.

(** [.map(oid => oid.trim()).filter(oid => !!oid)] *)
Definition normalizedOids (oids : list string) : list string :=
  filter (fun oid => negb (String.eqb oid ""))
         (map JsString.trim oids).

(** "Helper to strip a single trailing instance index (e.g., .0 or .4)" *)
Definition stripInstance (oid : string) : string :=
  let parts := JsString.splitDot oid in
  let last := List.last parts "" in
  if JsString.re_digits last
  then JsString.joinDot (removelast parts)
  else oid.

(** [expandedSet.add(x)]: a [Set] keeps the first insertion of a value. *)
Definition setAdd (s : list string) (x : string) : list string :=
  if existsb (String.eqb x) s then s else s ++ [x].

Definition elenosPrefix : string := "1.3.6.1.4.1.31946.4.2.6.10.".

(** [/^1\.3\.6\.1\.4\.1\.31946\.4\.2\.6\.10\.(1|2|12|13|14)$/] *)
Definition isElenosMetricBase (base : string) : bool :=
  existsb (fun k => String.eqb base (elenosPrefix ++ k))
          ["1"; "2"; "12"; "13"; "14"].

(** [for (const idx of [1, 2, 3, 4]) expandedSet.add(`${base}.${idx}`)] *)
Definition addIndices (s : list string) (base : string) : list string :=
  fold_left (fun acc idx => setAdd acc (base ++ "." ++ idx))
            ["1"; "2"; "3"; "4"] s.

(** Body of the loop over [normalizedOids]. *)
Definition expandOne (s : list string) (oid : string) : list string :=
  let base := stripInstance oid in
  let s1 := setAdd s oid in
  let s2 := if negb (JsString.endsWith oid ".0")
            then setAdd s1 (base ++ ".0") else s1 in
  if isElenosMetricBase base then addIndices s2 base else s2.

Definition hasAnyElenos (oids : list string) : bool :=
  existsb (fun o => JsString.startsWith (stripInstance o) elenosPrefix) oids.

Definition coreBases : list string :=
  [ "1.3.6.1.4.1.31946.4.2.6.10.1";
    "1.3.6.1.4.1.31946.4.2.6.10.2";
    "1.3.6.1.4.1.31946.4.2.6.10.12";
    "1.3.6.1.4.1.31946.4.2.6.10.14" ].

Definition addCore (s : list string) (base : string) : list string :=
  addIndices (setAdd (setAdd s base) (base ++ ".0")) base.

(** [expandedOids]: the OID list that [pollDevice] hands to the GET, computed
    from [device.oids]. *)
Definition expandedOids (oids : list string) : list string :=
  let normalized := normalizedOids oids in
  let expandedSet := fold_left expandOne normalized [] in
  if hasAnyElenos normalized
  then fold_left addCore coreBases expandedSet
  else expandedSet.

(** Two OID lists denote the same set. *)
Definition sameSet (a b : list string) : Prop :=
  forall o, In o a <-> In o b.

Definition subsetb (a b : list string) : bool :=
  forallb (fun o => existsb (String.eqb o) b) a.

Definition sameSetb (a b : list string) : bool :=
  subsetb a b && subsetb b a.

End OidExpansion.

Module Poller.

(** The part of the poller state that holds results. *)
Record t : Type := mk {
  results : list DeviceResult;
  maxResults : nat
}.

(** [new SNMPPoller()]: [results = []], [maxResults = 1000]. *)
Definition init : t := mk [] 1000.

(** [results.slice(-n)] for [n > 0] *)
Definition sliceLast {A : Type} (n : nat) (l : list A) : list A :=
  skipn (List.length l - n) l.

(** The in-memory part of [recordResult]; [now] is [new Date()].  The result
    is also handed to [storeTransmitterMetrics], see [DatabaseService]. *)
Definition recordResult (now : Z) (deviceId : string) (success : bool)
  (data : option JsObject) (error : option string) (p : t) : t :=
  let result := mkDeviceResult deviceId now success data error in
  let pushed := results p ++ [result] in
  if (maxResults p <? List.length pushed)%nat
  then mk (sliceLast (maxResults p) pushed) (maxResults p)
  else mk pushed (maxResults p).

(** The comparator [(a, b) => b.timestamp - a.timestamp]. *)
Definition newestFirst (a b : DeviceResult) : bool :=
  (timestamp b <=? timestamp a)%Z.

(** [array.slice(0, limit)] *)
Definition slice0 {A : Type} (limit : Z) (l : list A) : list A :=
  if (limit <? 0)%Z
  then firstn (List.length l - Z.to_nat (- limit)) l
  else firstn (Z.to_nat limit) l.

(** [getResults(deviceId, limit)].  Without a (truthy) device id [filtered] is
    the array [this.results] itself, and [sort] sorts that array in place:
    the poller's own list is reordered.  With a device id [filter] makes a
    fresh array and the poller's list is left as it was. *)
Definition getResults (deviceId' : option string) (limit : Z) (p : t)
  : list DeviceResult * t :=
  if truthyStr deviceId' then
    let filtered :=
      filter (fun r => match deviceId' with
                       | Some d => String.eqb (deviceId r) d
                       | None => false
                       end)
             (results p) in
    (slice0 limit (sortBy newestFirst filtered), p)
  else
    let sorted := sortBy newestFirst (results p) in
    (slice0 limit sorted, mk sorted (maxResults p)).

(** What the poller does to its result list, as seen from outside. *)
Inductive Op : Type :=
| Record (now : Z) (deviceId : string) (success : bool)
         (data : option JsObject) (error : option string)
| Query (deviceId : option string) (limit : Z).

Definition step (p : t) (op : Op) : t :=
  match op with
  | Record now d s dat e => recordResult now d s dat e p
  | Query d l => snd (getResults d l p)
  end.

Definition run (ops : list Op) (p : t) : t := fold_left step ops p.

(** How many results a run records. *)
Definition recordings (ops : list Op) : nat :=
  List.length (filter (fun op => match op with
                                 | Record _ _ _ _ _ => true
                                 | Query _ _ => false
                                 end) ops).

(** Recording a result that is already built. *)
Definition recordOp (r : DeviceResult) : Op :=
  Record (timestamp r) (deviceId r) (success r) (data r) (error r).

(** [count] successful polls of one device, one per millisecond from
    [from]. *)
Definition polls (from count : nat) : list Op :=
  map (fun i => Record (Z.of_nat i) "tx-1" true None None) (seq from count).

(** A thousand polls, one status request ([getResults()] without a device
    id, as the routes [/status] and [/events] issue it), one more poll. *)
Definition pollsAroundQuery : list Op :=
  polls 1 1000 ++ [Query None 100] ++ polls 1001 1.

End Poller.

Section Gating.

Variable rt : Runtime.

(** [shouldPollDevice(device)]: the gate consulted before a GET. *)
Definition shouldPollDevice (device : SNMPDevice) : Io bool :=
  if negb (dev_isActive device) then ret false
  else
    tryCatch
      (transmitter <- getTransmitterById (dev_id device) ;;
       match transmitter with
       | Some tx =>
           match Transmitter.isActive tx with
           | Some false => ret false
           | _ =>
               if negb (String.eqb (Transmitter.siteId tx) "") then
                 site <- getSiteById rt (Transmitter.siteId tx) ;;
                 match site with
                 | Some s =>
                     match Site.isActive s with
                     | Some false => ret false
                     | _ => ret true
                     end
                 | None => ret true
                 end
               else ret true
           end
       | None => ret true
       end)
      (fun _ => ret true).

End Gating.

(* ================================================================== *)
(** ** SNMPTrapManager (snmp-trap-manager.ts) *)
(* ================================================================== *)

(** A varbind as net-snmp delivers it. *)
Record RawVarbind : Type := mkRawVarbind {
  raw_oid : string;
  raw_type : option Z;
  raw_value : JsValue
}.

(** [data.rinfo] / [data.source] *)
Record RInfo : Type := mkRInfo {
  ri_address : option string;
  ri_host : option string;
  ri_port : option Z
}.

(** [data.pdu] *)
Record Pdu : Type := mkPdu {
  pdu_varbinds : option (list RawVarbind);
  pdu_community : option string
}.

(** The notification object passed to the receiver callback. *)
Record Notification : Type := mkNotification {
  n_rinfo : option RInfo;
  n_source : option RInfo;
  n_pdu : option Pdu;
  n_varbinds : option (list RawVarbind);
  n_port : option Z;
  n_community : option string;
  n_securityName : option string;
  n_version : option Z
}.

Section TrapManager.

Variable rt : Runtime.

Definition typeNameFromVarbindType (type : option Z) : option string :=
  match type with
  | Some n => ObjectType rt n
  | None => None
  end.

Definition normalizeVarbinds (varbinds : list RawVarbind) : list Varbind :=
  map (fun vb => mkVarbind (raw_oid vb)
                           (typeNameFromVarbindType (raw_type vb))
                           (raw_value vb))
      varbinds.

Definition stringValue (vb : option Varbind) : option string :=
  match vb with
  | Some v => match vb_value v with VStr s => Some s | _ => None end
  | None => None
  end.

Definition extractTrapOids (varbinds : list Varbind)
  : option string * option string :=
  let trapOidV2 :=
    find (fun vb => String.eqb (vb_oid vb) "1.3.6.1.6.3.1.1.4.1.0") varbinds in
  let enterpriseOidV1 :=
    find (fun vb => String.eqb (vb_oid vb) "1.3.6.1.4.1.0") varbinds in
  (stringValue trapOidV2, stringValue enterpriseOidV1).

(** [a || b] on optional strings *)
Definition orStr (a b : option string) : option string :=
  if truthyStr a then a else b.

(** [snmp.Version1] and [snmp.Version2c] *)
Definition Version1 : Z := 0.
Definition Version2c : Z := 1.

(** The lookup of the sending transmitter; a storage failure is "non-fatal". *)
Definition attribute (sourceHost : string)
  : Io (option string * option string) :=
  tryCatch
    (allTx <- getAllTransmitters ;;
     match find (fun tx => String.eqb (Transmitter.snmpHost tx) sourceHost)
                allTx with
     | Some matched =>
         ret (Some (Transmitter.id matched), Some (Transmitter.siteId matched))
     | None => ret (None, None)
     end)
    (fun _ => ret (None, None)).

(** [data?.rinfo || data?.source || {}] *)
Definition rinfoOf (data : Notification) : RInfo :=
  match n_rinfo data with
  | Some r => r
  | None => match n_source data with
            | Some r => r
            | None => mkRInfo None None None
            end
  end.

(** [data?.pdu?.varbinds || data?.varbinds || []] *)
Definition varbindsRawOf (data : Notification) : list RawVarbind :=
  match n_pdu data with
  | Some (mkPdu (Some vbs) _) => vbs
  | _ => match n_varbinds data with
         | Some vbs => vbs
         | None => []
         end
  end.

(** [rinfo?.address || rinfo?.host || 'unknown'] *)
Definition sourceHostOf (data : Notification) : string :=
  match orStr (ri_address (rinfoOf data)) (ri_host (rinfoOf data)) with
  | Some h => if negb (String.eqb h "") then h else "unknown"
  | None => "unknown"
  end.

Definition sourcePortOf (data : Notification) (fallbackPort : Z) : Z :=
  match ri_port (rinfoOf data) with
  | Some p => p
  | None => match n_port data with
            | Some p => p
            | None => fallbackPort
            end
  end.

(** [data?.pdu?.community || data?.community || data?.securityName
     || undefined] *)
Definition communityOf (data : Notification) : option string :=
  let c := orStr (orStr (match n_pdu data with
                         | Some pdu => pdu_community pdu
                         | None => None
                         end)
                        (n_community data))
                 (n_securityName data) in
  if truthyStr c then c else None.

Definition versionNumOf (data : Notification) : Z :=
  match n_version data with
  | Some v => if (v =? Version1)%Z then 0%Z else 1%Z
  | None => 1%Z
  end.

Definition handleNotification (data : Notification) (fallbackPort : Z)
  : Io unit :=
  let varbinds := normalizeVarbinds (varbindsRawOf data) in
  let (trapOid, enterpriseOid) := extractTrapOids varbinds in
  let sourceHost := sourceHostOf data in
  let sourcePort := sourcePortOf data fallbackPort in
  let community := communityOf data in
  let versionNum := versionNumOf data in
  ids <- attribute sourceHost ;;
  storeSnmpTrap (Trap.mk (fst ids) (snd ids) sourceHost sourcePort community
                         versionNum trapOid enterpriseOid varbinds).

End TrapManager.

(* ================================================================== *)
(** ** A runtime to evaluate the services on examples *)
(* ================================================================== *)

(** A reader for JSON texts made of objects, arrays, strings with the simple
    escapes, the three literals and integers of at most fifteen digits.  On
    such texts, and on texts that are not JSON, it agrees with [JSON.parse];
    other JSON texts (fractions, exponents, [\u] escapes) are outside of it
    and the properties below never rely on it for them. *)
Module Json.

Definition code (c : ascii) : nat := nat_of_ascii c.

Definition isWs (c : ascii) : bool :=
  (code c =? 32)%nat || (code c =? 9)%nat || (code c =? 10)%nat
  || (code c =? 13)%nat.

Fixpoint skipWs (l : list ascii) : list ascii :=
  match l with
  | c :: l' => if isWs c then skipWs l' else l
  | [] => []
  end.

Fixpoint stripPrefix (p l : list ascii) : option (list ascii) :=
  match p, l with
  | [], _ => Some l
  | a :: p', b :: l' => if Ascii.eqb a b then stripPrefix p' l' else None
  | _ :: _, [] => None
  end.

Definition unescape (e : ascii) : option ascii :=
  match code e with
  | 34 => Some e
  | 92 => Some e
  | 47 => Some e
  | 98 => Some (ascii_of_nat 8)
  | 102 => Some (ascii_of_nat 12)
  | 110 => Some (ascii_of_nat 10)
  | 114 => Some (ascii_of_nat 13)
  | 116 => Some (ascii_of_nat 9)
  | _ => None
  end.

(** The characters after an opening quote, up to the closing one. *)
Fixpoint stringBody (l acc : list ascii) : option (string * list ascii) :=
  match l with
  | [] => None
  | c :: l' =>
      if (code c =? 34)%nat then Some (string_of_list_ascii (rev acc), l')
      else if (code c =? 92)%nat then
        match l' with
        | e :: l'' =>
            match unescape e with
            | Some x => stringBody l'' (x :: acc)
            | None => None
            end
        | [] => None
        end
      else if (code c <? 32)%nat then None
      else stringBody l' (c :: acc)
  end.

Definition digitFloat (c : ascii) : float :=
  match code c with
  | 49 => 1 | 50 => 2 | 51 => 3 | 52 => 4 | 53 => 5
  | 54 => 6 | 55 => 7 | 56 => 8 | 57 => 9 | _ => 0
  end%float.

Fixpoint digits (l : list ascii) (acc : float) (n : nat)
  : float * nat * list ascii :=
  match l with
  | c :: l' =>
      if JsString.isDigit c
      then digits l' (acc * 10 + digitFloat c)%float (S n)
      else (acc, n, l)
  | [] => (acc, n, [])
  end.

Definition startsFraction (l : list ascii) : bool :=
  match l with
  | c :: _ => (code c =? 46)%nat || (code c =? 101)%nat || (code c =? 69)%nat
  | [] => false
  end.

Definition unsignedInt (l : list ascii) : option (float * list ascii) :=
  match l with
  | c :: l' =>
      if (code c =? 48)%nat then
        match l' with
        | d :: _ => if JsString.isDigit d || startsFraction l' then None
                    else Some (0%float, l')
        | [] => Some (0%float, l')
        end
      else if JsString.isDigit c then
        match digits l 0%float 0 with
        | (f, n, r) =>
            if (n <=? 15)%nat && negb (startsFraction r) then Some (f, r)
            else None
        end
      else None
  | [] => None
  end.

Definition number (l : list ascii) : option (JsValue * list ascii) :=
  match l with
  | c :: l' =>
      if (code c =? 45)%nat then
        match unsignedInt l' with
        | Some (f, r) => Some (VNum (- f)%float, r)
        | None => None
        end
      else
        match unsignedInt l with
        | Some (f, r) => Some (VNum f, r)
        | None => None
        end
  | [] => None
  end.

Fixpoint value (fuel : nat) (l : list ascii) : option (JsValue * list ascii) :=
  match fuel with
  | O => None
  | S fuel' =>
      match skipWs l with
      | [] => None
      | c :: r =>
          match code c with
          | 110 => option_map (pair VNull)
                     (stripPrefix (list_ascii_of_string "ull") r)
          | 116 => option_map (pair (VBool true))
                     (stripPrefix (list_ascii_of_string "rue") r)
          | 102 => option_map (pair (VBool false))
                     (stripPrefix (list_ascii_of_string "alse") r)
          | 34 => match stringBody r [] with
                  | Some (s, r') => Some (VStr s, r')
                  | None => None
                  end
          | 91 =>
              match skipWs r with
              | d :: r' =>
                  if (code d =? 93)%nat then Some (VArr [], r')
                  else match elements fuel' r [] with
                       | Some (items, r'') => Some (VArr items, r'')
                       | None => None
                       end
              | [] => None
              end
          | 123 =>
              match skipWs r with
              | d :: r' =>
                  if (code d =? 125)%nat then Some (VObj [], r')
                  else match members fuel' r [] with
                       | Some (props, r'') => Some (VObj props, r'')
                       | None => None
                       end
              | [] => None
              end
          | _ => number (c :: r)
          end
      end
  end

with elements (fuel : nat) (l : list ascii) (acc : list JsValue)
  : option (list JsValue * list ascii) :=
  match fuel with
  | O => None
  | S fuel' =>
      match value fuel' l with
      | Some (v, r) =>
          match skipWs r with
          | d :: r' =>
              if (code d =? 44)%nat then elements fuel' r' (acc ++ [v])
              else if (code d =? 93)%nat then Some (acc ++ [v], r')
              else None
          | [] => None
          end
      | None => None
      end
  end

with members (fuel : nat) (l : list ascii) (acc : JsObject)
  : option (JsObject * list ascii) :=
  match fuel with
  | O => None
  | S fuel' =>
      match skipWs l with
      | q :: r =>
          if (code q =? 34)%nat then
            match stringBody r [] with
            | Some (k, r1) =>
                match skipWs r1 with
                | colon :: r2 =>
                    if (code colon =? 58)%nat then
                      match value fuel' r2 with
                      | Some (v, r3) =>
                          match skipWs r3 with
                          | d :: r4 =>
                              if (code d =? 44)%nat
                              then members fuel' r4 (set acc k v)
                              else if (code d =? 125)%nat
                              then Some (set acc k v, r4)
                              else None
                          | [] => None
                          end
                      | None => None
                      end
                    else None
                | [] => None
                end
            | None => None
            end
          else None
      | [] => None
      end
  end.

Definition parse (text : string) : option JsValue :=
  let l := list_ascii_of_string text in
  match value (2 * List.length l + 2) l with
  | Some (v, r) => match skipWs r with [] => Some v | _ :: _ => None end
  | None => None
  end.

End Json.

(** net-snmp's [ObjectType] enumeration. *)
Definition snmpObjectType (type : Z) : option string :=
  match type with
  | 1 => Some "Boolean"
  | 2 => Some "Integer"
  | 3 => Some "BitString"
  | 4 => Some "OctetString"
  | 5 => Some "Null"
  | 6 => Some "OID"
  | 64 => Some "IpAddress"
  | 65 => Some "Counter"
  | 66 => Some "Gauge"
  | 67 => Some "TimeTicks"
  | 68 => Some "Opaque"
  | 70 => Some "Counter64"
  | 128 => Some "NoSuchObject"
  | 129 => Some "NoSuchInstance"
  | 130 => Some "EndOfMibView"
  | _ => None
  end%Z.

(** The runtime used in the examples: the JSON reader above, bytes read as
    the string they encode, and no array-to-buffer conversion. *)
Definition exampleRuntime : Runtime :=
  mkRuntime Json.parse string_of_list_ascii (fun _ => None) snmpObjectType.

(* ================================================================== *)
(** ** Vocabulary of the specification *)
(* ================================================================== *)

(** [k] names [base] directly, in scalar form ([base.0]) or in indexed form
    ([base.<n>] or [base.<n>.0] for a decimal index [n]). *)
Definition oidForm (base k : string) : Prop :=
  k = base
  \/ k = (base ++ ".0")%string
  \/ exists n, JsString.re_digits n = true
               /\ (k = (base ++ "." ++ n)%string
                   \/ k = (base ++ "." ++ n ++ ".0")%string).

(** The raw map holds a number under some form of [base]. *)
Definition yieldsNumeric (d : JsObject) (base : string) : Prop :=
  exists k v, oidForm base k /\ In (k, VNum v) d.

(** A well-formed object has one value per property name. *)
Definition wellFormed (d : JsObject) : Prop := NoDup (keys d).

(** Whether the coming round-trip, and the [n]-th after it, throws. *)
Definition nextFault (w : World) : bool := hd false (faults w).

Definition nthFault (n : nat) (w : World) : bool := nth n (faults w) false.

(** The world after one round-trip for [q]. *)
Definition afterRoundtrip (w : World) (q : Query) : World :=
  withFaults w (tl (faults w)) (if nextFault w then Threw q else Answered q).

(** The stored transmitter with a given id, and the stored site. *)
Definition lookupTransmitter (w : World) (id : string) : option Transmitter.t :=
  find (fun tx => String.eqb (Transmitter.id tx) id) (transmitters w).

Definition lookupSite (w : World) (id : string) : option Site.t :=
  find (fun s => String.eqb (Site.id s) id) (sites w).

(** The site read through [getSiteById] reports [isActive === false]. *)
Definition siteInactive (rt : Runtime) (w : World) (siteId : string) : bool :=
  match option_map (normalizeSite rt) (lookupSite w siteId) with
  | Some s => match Site.isActive s with Some false => true | _ => false end
  | None => false
  end.

(** The listing that [getAllTransmitters] returns. *)
Definition listing (w : World) : list Transmitter.t :=
  sortBy displayOrderLe (transmitters w).

Definition hostIs (h : string) (tx : Transmitter.t) : bool :=
  String.eqb (Transmitter.snmpHost tx) h.

(** The identifiers that [attribute] finds for a source host. *)
Definition attributionOf (w : World) (h : string)
  : option string * option string :=
  if nextFault w then (None, None)
  else match find (hostIs h) (listing w) with
       | Some matched =>
           (Some (Transmitter.id matched), Some (Transmitter.siteId matched))
       | None => (None, None)
       end.

(** The [n] rows that [ORDER BY created_at DESC LIMIT n] selects. *)
Definition newestTraps (n : nat) (w : World) : list TrapRow.t :=
  firstn n (sortBy createdAtDesc (snmpTraps w)).

(** [a] was created no earlier than [b]. *)
Definition notOlder (a b : TrapRow.t) : Prop :=
  (TrapRow.createdAt b <= TrapRow.createdAt a)%Z.

(** [a] is at least as recent as [b]. *)
Definition newer (a b : DeviceResult) : Prop := (timestamp b <= timestamp a)%Z.

(* ================================================================== *)
(** ** States used in the examples *)
(* ================================================================== *)

Module Examples.

Definition siteOff : Site.t :=
  Site.mk "site-1" "Bukit Lanjan" (VStr "alice@example.com") (Some false).

Definition siteOn : Site.t :=
  Site.mk "site-2" "Gunung Ulu Kali" VNull (Some true).

Definition txA : Transmitter.t :=
  Transmitter.mk "tx-a" "site-1" "Hot FM" (Some 0%Z) "10.0.0.5" (Some true).

Definition txB : Transmitter.t :=
  Transmitter.mk "tx-b" "site-2" "Sinar FM" (Some 1%Z) "10.0.0.5" (Some true).

Definition deviceA : SNMPDevice :=
  mkSNMPDevice "tx-a" "10.0.0.5" 161 "public" 1
               ["1.3.6.1.4.1.31946.4.2.6.10.1"] 10000 true.

(** One transmitter on an inactive site; the storage answers. *)
Definition gatedWorld : World := mkWorld [txA] [siteOff] [] [] 0 [] [].

(** The same tables, but the next round-trip throws. *)
Definition faultyWorld : World := mkWorld [txA] [siteOff] [] [] 0 [true] [].

(** Two transmitters configured with the same SNMP host. *)
Definition sharedHostWorld : World :=
  mkWorld [txA; txB] [siteOff; siteOn] [] [] 0 [] [].

(** A v2c notification received from 10.0.0.5. *)
Definition trapFromA : Notification :=
  mkNotification (Some (mkRInfo (Some "10.0.0.5") None (Some 40000%Z)))
                 None (Some (mkPdu (Some []) (Some "public"))) None None None
                 None (Some 1%Z).

(** A failed poll of [tx-a] as [recordResult] builds it. *)
Definition failedPoll : DeviceResult :=
  mkDeviceResult "tx-a" 1000 false None (Some "Request timed out").

Definition hostTrap (host : string) (createdAt : Z) : TrapRow.t :=
  TrapRow.mk (Trap.mk None None host 162 None 1 None None []) createdAt.

(** An older trap from 10.0.0.5 and a newer one from 10.0.0.9. *)
Definition twoTraps : World :=
  mkWorld [] [] [] [hostTrap "10.0.0.5" 1; hostTrap "10.0.0.9" 2] 3 [] [].

End Examples.

(* ================================================================== *)
(** ** Further code of the services *)
(* ================================================================== *)

(** A round-trip for a statement that [Query] does not name (the selects on
    [transmitter_metrics] and the ranged select on [snmp_traps]): it takes
    the next outcome like [roundtrip] and leaves the journal alone. *)
Definition exchange : Io unit :=
  fun w =>
    match faults w with
    | true :: fs =>
        (Thrown "storage error",
         mkWorld (transmitters w) (sites w) (transmitterMetrics w)
                 (snmpTraps w) (now w) fs (journal w))
    | false :: fs =>
        (Ok tt,
         mkWorld (transmitters w) (sites w) (transmitterMetrics w)
                 (snmpTraps w) (now w) fs (journal w))
    | [] => (Ok tt, w)
    end.

Module MetricQueries.

(** [ORDER BY timestamp DESC] *)
Definition timestampDesc (a b : MetricRow.t) : bool :=
  (MetricRow.timestamp b <=? MetricRow.timestamp a)%Z.

Definition ofTransmitter (transmitterId : string) (r : MetricRow.t) : bool :=
  String.eqb (MetricRow.transmitterId r) transmitterId.

(** [getLatestMetrics(transmitterId)]: [rows[0] || null] of the select
    ordered by descending timestamp with [limit(1)]. *)
Definition getLatestMetrics (transmitterId : string)
  : Io (option MetricRow.t) :=
  rethrow
    (exchange ;;;
     w <- getWorld ;;
     let rows :=
       firstn 1 (sortBy timestampDesc
                   (filter (ofTransmitter transmitterId)
                           (transmitterMetrics w))) in
     ret (hd_error rows)).

(** [and(eq(transmitterId), gte(timestamp, startTime),
         lte(timestamp, endTime))] *)
Definition inRange (transmitterId : string) (startTime endTime : Z)
  (r : MetricRow.t) : bool :=
  ofTransmitter transmitterId r
  && (startTime <=? MetricRow.timestamp r)%Z
  && (MetricRow.timestamp r <=? endTime)%Z.

(** [getMetricsRange(transmitterId, startTime, endTime, limit)]; [limit] is a
    row count (the route leaves it at its default, 1000). *)
Definition getMetricsRange (transmitterId : string) (startTime endTime : Z)
  (limit : nat) : Io (list MetricRow.t) :=
  rethrow
    (exchange ;;;
     w <- getWorld ;;
     ret (firstn limit
            (sortBy timestampDesc
               (filter (inRange transmitterId startTime endTime)
                       (transmitterMetrics w))))).

End MetricQueries.

Module TrapQueries.

(** The [params] of [getTrapsRange]. *)
Record RangeParams : Type := mkRangeParams {
  r_startTime : Z;
  r_endTime : Z;
  r_transmitterId : option string;
  r_siteId : option string;
  r_limit : option Z
}.

(** [params.limit && params.limit > 0 ? params.limit : 1000] *)
Definition rangeLimit (params : RangeParams) : Z :=
  match r_limit params with
  | Some l => if (0 <? l)%Z then l else 1000%Z
  | None => 1000%Z
  end.

(** [and(gte(createdAt, startTime), lte(createdAt, endTime))] *)
Definition createdIn (params : RangeParams) (r : TrapRow.t) : bool :=
  (r_startTime params <=? TrapRow.createdAt r)%Z
  && (TrapRow.createdAt r <=? r_endTime params)%Z.

(** The predicate of [rows.filter] in [getTrapsRange]. *)
Definition rangeMatches (params : RangeParams) (r : TrapRow.t) : bool :=
  (negb (truthyStr (r_transmitterId params))
   || match r_transmitterId params with
      | Some x => strictEqOpt (TrapRow.transmitterId r) x
      | None => false
      end)
  && (negb (truthyStr (r_siteId params))
      || match r_siteId params with
         | Some x => strictEqOpt (TrapRow.siteId r) x
         | None => false
         end).

(** [getTrapsRange(params)]: the time range is part of the select, the
    transmitter and site filters run on the rows it returned. *)
Definition getTrapsRange (params : RangeParams) : Io (list TrapRow.t) :=
  rethrow
    (let limit := rangeLimit params in
     exchange ;;;
     w <- getWorld ;;
     let rows :=
       firstn (Z.to_nat limit)
              (sortBy createdAtDesc
                 (filter (createdIn params) (snmpTraps w))) in
     ret (filter (rangeMatches params) rows)).

End TrapQueries.

Module PollData.

Section Build.

(** [snmp.isVarbindError(vb)] of net-snmp. *)
Variable isVarbindError : RawVarbind -> bool.

(** [data[baseOid] === undefined] *)
Definition isUndefined (v : option JsValue) : bool :=
  match v with
  | None | Some VUndefined => true
  | Some _ => false
  end.

(** Body of the loop of [pollDevice] over the returned varbinds; a missing
    varbind ([!vb]) and an error varbind are skipped. *)
Definition addVarbind (data : JsObject) (vb : option RawVarbind) : JsObject :=
  match vb with
  | None => data
  | Some vb =>
      if isVarbindError vb then data
      else
        let oidStr := raw_oid vb in
        let data1 := set data oidStr (raw_value vb) in
        if JsString.endsWith oidStr ".0" then
          let baseOid := JsString.slice_0_m2 oidStr in
          if isUndefined (get data1 baseOid)
          then set data1 baseOid (raw_value vb)
          else data1
        else data1
  end.

(** The [data] object that [pollDevice] records for the varbinds of a GET. *)
Definition buildData (varbinds : list (option RawVarbind)) : JsObject :=
  fold_left addVarbind varbinds [].

End Build.

End PollData.

Module DeviceLoader.

Definition sysName : string := "1.3.6.1.2.1.1.5.0".

(** [if (!ensureOids.includes(x)) ensureOids.push(x)] *)
Definition pushMissing (l : list string) (x : string) : list string :=
  if existsb (String.eqb x) l then l else l ++ [x].

(** [Array.from(new Set(arr.filter(v => !!v)))] *)
Definition dedup (arr : list string) : list string :=
  fold_left OidExpansion.setAdd
            (filter (fun v => negb (String.eqb v "")) arr) [].

(** The [finalOids] that [loadDevicesFromDatabase] gives a device, from the
    strings of [tx.oids]. *)
Definition finalOids (baseOids : list string) : list string :=
  let hasElenosBase :=
    existsb (fun o => JsString.startsWith o OidExpansion.elenosPrefix)
            baseOids in
  let ensureOids :=
    if hasElenosBase
    then fold_left pushMissing
           [ "1.3.6.1.4.1.31946.4.2.6.10.1";
             "1.3.6.1.4.1.31946.4.2.6.10.2";
             "1.3.6.1.4.1.31946.4.2.6.10.14";
             "1.3.6.1.4.1.31946.4.2.6.10.12" ] baseOids
    else baseOids in
  dedup (pushMissing ensureOids sysName).

End DeviceLoader.

Module DeviceStatus.

(** The answer of [getDeviceStatus]. *)
Record t : Type := mk {
  isOnline : bool;
  lastSeen : option Z;
  errorCount : nat
}.

(** [this.devices.get(deviceId)] on the device map, in insertion order. *)
Definition getDevice (devices : list (string * SNMPDevice)) (deviceId : string)
  : option SNMPDevice :=
  option_map snd (find (fun e => String.eqb (fst e) deviceId) devices).

(** [getDeviceStatus(deviceId)]; it reads the ring through [getResults]. *)
Definition getDeviceStatus (devices : list (string * SNMPDevice))
  (deviceId : string) (p : Poller.t) : t * Poller.t :=
  match getDevice devices deviceId with
  | None => (mk false None 0, p)
  | Some _ =>
      let (recentResults, p') := Poller.getResults (Some deviceId) 10 p in
      let errorCount :=
        List.length (filter (fun r => negb (success r)) recentResults) in
      let lastSuccessful := find (fun r => success r) recentResults in
      (mk ((errorCount <? 5)%nat
           && match lastSuccessful with Some _ => true | None => false end)
          (option_map timestamp lastSuccessful)
          errorCount,
       p')
  end.

(** The [results] of an [update] event of [GET /api/snmp/events]:
    [snmpPoller.getResults().slice(-10)]. *)
Definition updateResults (p : Poller.t) : list DeviceResult * Poller.t :=
  let (results, p') := Poller.getResults None 100 p in
  (Poller.sliceLast 10 results, p').

End DeviceStatus.

(* ================================================================== *)
(** ** Further vocabulary *)
(* ================================================================== *)

(** [seg] holds no dot: it is one component of an OID. *)
Fixpoint dotFree (seg : string) : bool :=
  match seg with
  | EmptyString => true
  | String c seg' => negb (Ascii.eqb c ".") && dotFree seg'
  end.

(** [oid] is [base], [base.0], [base.<seg>] or [base.<seg>.0] for one
    component [seg]. *)
Definition metricForm (base oid : string) : Prop :=
  oid = base
  \/ oid = (base ++ ".0")%string
  \/ exists seg, dotFree seg = true
                 /\ (oid = (base ++ "." ++ seg)%string
                     \/ oid = (base ++ "." ++ seg ++ ".0")%string).

(** The field of the parsed record that holds a metric. *)
Definition metricField (name : MetricParser.MetricName)
  (m : MetricParser.Metrics) : option float :=
  match name with
  | MetricParser.ForwardPower => MetricParser.forwardPower m
  | MetricParser.ReflectedPower => MetricParser.reflectedPower m
  | MetricParser.Frequency => MetricParser.frequency m
  | MetricParser.PowerOutput => MetricParser.powerOutput m
  end.

(** The value a raw number stands for: the frequency OID counts tens of
    kHz. *)
Definition scaled (name : MetricParser.MetricName) (v : float) : float :=
  match name with
  | MetricParser.Frequency => (v / 100)%float
  | _ => v
  end.

(** What the loop over the entries of a poll leaves in the field of
    [name], given the entries [d] in order: the scaled value of the last
    numeric entry whose key resolves to [name], and nothing when there is
    none. *)
Definition lastReading (name : MetricParser.MetricName) (d : JsObject)
  (field : option float) : Prop :=
  match field with
  | Some x =>
      exists d1 oid v d2,
        d = d1 ++ (oid, VNum v) :: d2
        /\ MetricParser.resolveMetricName oid = Some name
        /\ x = scaled name v
        /\ forall oid' v', In (oid', VNum v') d2 ->
                           MetricParser.resolveMetricName oid' <> Some name
  | None =>
      forall oid v, In (oid, VNum v) d ->
                    MetricParser.resolveMetricName oid <> Some name
  end.

(** A transmitter but for its name. *)
Definition unnamed (tx : Transmitter.t) : Transmitter.t :=
  Transmitter.withName tx "".

(** The tables and the clock of [w'] are those of [w]. *)
Definition sameTables (w w' : World) : Prop :=
  transmitters w' = transmitters w
  /\ sites w' = sites w
  /\ transmitterMetrics w' = transmitterMetrics w
  /\ snmpTraps w' = snmpTraps w
  /\ now w' = now w.

(** From [w] to [w'] at most names of transmitters changed. *)
Definition renamedOnly (w w' : World) : Prop :=
  map unnamed (transmitters w') = map unnamed (transmitters w)
  /\ sites w' = sites w
  /\ transmitterMetrics w' = transmitterMetrics w
  /\ snmpTraps w' = snmpTraps w
  /\ now w' = now w.

(** What [storeTransmitterMetrics] with the row [row] may do to the world:
    rename transmitters and append [row] to the metrics, under a key that
    was free. *)
Definition metricsStoreStep (row : MetricRow.t) (w w' : World) : Prop :=
  map unnamed (transmitters w') = map unnamed (transmitters w)
  /\ sites w' = sites w
  /\ snmpTraps w' = snmpTraps w
  /\ now w' = now w
  /\ (transmitterMetrics w' = transmitterMetrics w
      \/ (transmitterMetrics w' = transmitterMetrics w ++ [row]
          /\ existsb (samePrimaryKey row) (transmitterMetrics w) = false)).

(** [UPDATE transmitters SET name = ... WHERE id = ...] on the table. *)
Definition renamed (id name : string) (l : list Transmitter.t)
  : list Transmitter.t :=
  map (fun t => if String.eqb (Transmitter.id t) id
                then Transmitter.withName t name else t) l.

(** [rows] are the [n] newest of [l] by [key]: newest first, at most [n],
    and with the rows left out, none of them newer than a row kept, they
    make up [l]. *)
Definition newestOf {A : Type} (key : A -> Z) (n : nat) (l rows : list A)
  : Prop :=
  StronglySorted (fun a b => (key b <= key a)%Z) rows
  /\ List.length rows = Nat.min n (List.length l)
  /\ exists rest,
       Permutation (rows ++ rest) l
       /\ forall a b, In a rows -> In b rest -> (key b <= key a)%Z.

Module MoreExamples.

(** A successful poll of [tx-a] at time [t] that reports the radio name and
    a forward power. *)
Definition goodPoll (t : Z) (fwd : float) : DeviceResult :=
  mkDeviceResult "tx-a" t true
    (Some [("1.3.6.1.4.1.31946.3.1.7.0", VStr " Era FM ");
           ("1.3.6.1.4.1.31946.4.2.6.10.1.0", VNum fwd)])
    None.

(** The tables of [Examples.gatedWorld] with two metric rows of [tx-a] and
    one of another transmitter. *)
Definition metricsWorld : World :=
  mkWorld [Examples.txA] [Examples.siteOff]
          [ metricValues "tx-a" (goodPoll 2000 950);
            metricValues "tx-b" (goodPoll 2500 10);
            metricValues "tx-a" (goodPoll 1000 900) ]
          [] 3000 [] [].

End MoreExamples.

Module TrapExamples.

(** A stored trap attributed to transmitter [txId]. *)
Definition txTrap (txId : string) (createdAt : Z) : TrapRow.t :=
  TrapRow.mk (Trap.mk (Some txId) (Some "site-1") "10.0.0.5" 162 None 1
                      None None [])
             createdAt.

(** Four traps, of two transmitters. *)
Definition fourTraps : World :=
  mkWorld [] [] []
          [txTrap "tx-a" 10; txTrap "tx-b" 20; txTrap "tx-a" 30;
           txTrap "tx-b" 40]
          50 [] [].

(** Traps of [tx-a] created from 5 to 35, at most two rows selected. *)
Definition rangeOfA : TrapQueries.RangeParams :=
  TrapQueries.mkRangeParams 5 35 (Some "tx-a") None (Some 2%Z).

End TrapExamples.

(** What every trap stored for a notification satisfies: the version is 0
    or 1, host and community are not empty strings, transmitter and site are
    set together, the varbinds are those received, in order, and a trap OID
    is the string value of the first [snmpTrapOID.0] varbind. *)
Definition storedFor (data : Notification) (fallbackPort : Z) (t : Trap.t)
  : Prop :=
  (Trap.version t = 0 \/ Trap.version t = 1)%Z
  /\ (n_version data = Some 0%Z <-> Trap.version t = 0%Z)
  /\ Trap.sourceHost t <> ""
  /\ Trap.community t <> Some ""
  /\ (Trap.transmitterId t = None <-> Trap.siteId t = None)
  /\ map vb_oid (Trap.varbinds t) = map raw_oid (varbindsRawOf data)
  /\ map vb_value (Trap.varbinds t) = map raw_value (varbindsRawOf data)
  /\ (forall s, Trap.trapOid t = Some s ->
        exists pre vb post,
          Trap.varbinds t = pre ++ vb :: post
          /\ vb_oid vb = "1.3.6.1.6.3.1.1.4.1.0"
          /\ vb_value vb = VStr s
          /\ forall v, In v pre -> vb_oid v <> "1.3.6.1.6.3.1.1.4.1.0")
  /\ (ri_port (rinfoOf data) = None -> n_port data = None ->
      Trap.sourcePort t = fallbackPort).

(** The results that a run of the poller records, in order. *)
Definition recorded (ops : list Poller.Op) : list DeviceResult :=
  flat_map (fun op => match op with
                      | Poller.Record now d s dat e =>
                          [mkDeviceResult d now s dat e]
                      | Poller.Query _ _ => []
                      end) ops.

(** Every query of the run names a device. *)
Definition filteredOnly (ops : list Poller.Op) : bool :=
  forallb (fun op => match op with
                     | Poller.Record _ _ _ _ _ => true
                     | Poller.Query d _ => truthyStr d
                     end) ops.

(** The results a query for [d] selects: those of the device, or all of
    them when no device is named. *)
Definition ofDevice (d : option string) (r : DeviceResult) : bool :=
  match d with
  | Some d' => if String.eqb d' "" then true else String.eqb (deviceId r) d'
  | None => true
  end.

Module RingExamples.

Definition okAt (d : string) (t : Z) : DeviceResult :=
  mkDeviceResult d t true None None.

Definition failAt (d : string) (t : Z) : DeviceResult :=
  mkDeviceResult d t false None (Some "Request timed out").

(** Polls of two devices with a query for one of them in between. *)
Definition mixedRun : list Poller.Op :=
  [ Poller.recordOp (okAt "tx-a" 1); Poller.recordOp (failAt "tx-b" 2);
    Poller.Query (Some "tx-a") 10; Poller.recordOp (okAt "tx-a" 3);
    Poller.recordOp (failAt "tx-a" 4) ].

Definition mixedPoller : Poller.t := Poller.run mixedRun Poller.init.

Definition devices : list (string * SNMPDevice) :=
  [("tx-a", Examples.deviceA)].

End RingExamples.

(* ================================================================== *)
(** ** Facts about strings *)
(* ================================================================== *)

Module JsStringFacts.
Import JsString.
#[local] Open Scope string_scope.
#[local] Arguments isDigit : simpl never.

Lemma startsWith_append (p r : string) : startsWith (p ++ r) p = true.
Proof.
  induction p as [|c p IH]; simpl.
  - reflexivity.
  - now rewrite Ascii.eqb_refl, IH.
Qed.

Lemma drop_append (p r : string) : drop (String.length p) (p ++ r) = r.
Proof. induction p as [|c p IH]; simpl; [reflexivity | exact IH]. Qed.

Lemma startsWith_inv (p s : string) :
  startsWith s p = true -> s = p ++ drop (String.length p) s.
Proof.
  revert s; induction p as [|c p IH]; intros s H; simpl in *.
  - reflexivity.
  - destruct s as [|d s]; [discriminate|].
    apply andb_true_iff in H as [Hc Hs].
    apply Ascii.eqb_eq in Hc; subst d.
    simpl. f_equal. now apply IH.
Qed.

Lemma append_assoc (a b c : string) : (a ++ b) ++ c = a ++ (b ++ c).
Proof. induction a as [|x a IH]; simpl; [reflexivity | now rewrite IH]. Qed.

Lemma append_nil_r (a : string) : a ++ "" = a.
Proof. induction a as [|x a IH]; simpl; [reflexivity | now rewrite IH]. Qed.

Lemma length_append (a b : string) :
  String.length (a ++ b) = String.length a + String.length b.
Proof. induction a as [|x a IH]; simpl; [reflexivity | now rewrite IH]. Qed.

Lemma spanDigits_split (s : string) :
  s = fst (spanDigits s) ++ snd (spanDigits s).
Proof.
  induction s as [|c s IH]; simpl; [reflexivity|].
  destruct (isDigit c); [|reflexivity].
  destruct (spanDigits s) as [ds r]; simpl in *. now rewrite IH at 1.
Qed.

Lemma spanDigits_allDigits (s : string) : allDigits (fst (spanDigits s)) = true.
Proof.
  induction s as [|c s IH]; simpl; [reflexivity|].
  destruct (isDigit c) eqn:Hc; [|reflexivity].
  destruct (spanDigits s) as [ds r]; simpl in *. now rewrite Hc.
Qed.

(** The digits of [n], followed by something that does not start with a
    digit, are found again by the scan. *)
Lemma spanDigits_append (n r : string) :
  allDigits n = true ->
  (forall c r', r = String c r' -> isDigit c = false) ->
  spanDigits (n ++ r) = (n, r).
Proof.
  intros Hn Hr. induction n as [|c n IH]; simpl in *.
  - destruct r as [|c r']; [reflexivity|].
    simpl. now rewrite (Hr c r' eq_refl).
  - apply andb_true_iff in Hn as [Hc Hn]. rewrite Hc, (IH Hn). reflexivity.
Qed.

Lemma re_digits_opt_dot0_inv (s : string) :
  re_digits_opt_dot0 s = true ->
  exists n, re_digits n = true /\ (s = n \/ s = n ++ ".0").
Proof.
  unfold re_digits_opt_dot0, re_digits. intros H.
  pose proof (spanDigits_split s) as Hs.
  pose proof (spanDigits_allDigits s) as Hd.
  destruct (spanDigits s) as [ds r]; simpl in *.
  apply andb_true_iff in H as [Hne Hr].
  exists ds. split; [now rewrite Hne, Hd|].
  apply orb_true_iff in Hr as [Hr|Hr]; apply String.eqb_eq in Hr; subst r.
  - left. now rewrite append_nil_r in Hs.
  - right. exact Hs.
Qed.

Lemma re_digits_opt_dot0_plain (n : string) :
  re_digits n = true -> re_digits_opt_dot0 n = true.
Proof.
  unfold re_digits, re_digits_opt_dot0. intros H.
  apply andb_true_iff in H as [Hne Hd].
  rewrite <- (append_nil_r n) at 1.
  rewrite (spanDigits_append n "" Hd) by (intros c r' E; discriminate).
  now rewrite Hne.
Qed.

Lemma re_digits_opt_dot0_scalar (n : string) :
  re_digits n = true -> re_digits_opt_dot0 (n ++ ".0") = true.
Proof.
  unfold re_digits, re_digits_opt_dot0. intros H.
  apply andb_true_iff in H as [Hne Hd].
  rewrite (spanDigits_append n ".0" Hd).
  - now rewrite Hne.
  - intros c r' E. injection E as <- _. reflexivity.
Qed.

End JsStringFacts.

(* ================================================================== *)
(** ** Facts about objects *)
(* ================================================================== *)

Module JsFacts.

Lemma get_In (d : JsObject) (k : string) (v : JsValue) :
  get d k = Some v -> In (k, v) d.
Proof.
  induction d as [|[k' v'] d IH]; simpl; [discriminate|].
  destruct (String.eqb k' k) eqn:E.
  - apply String.eqb_eq in E; subst. intros [= ->]. now left.
  - intros H. right. now apply IH.
Qed.

Lemma In_get (d : JsObject) (k : string) (v : JsValue) :
  wellFormed d -> In (k, v) d -> get d k = Some v.
Proof.
  unfold wellFormed, keys.
  induction d as [|[k' v'] d IH]; simpl; intros Hnd Hin; [contradiction|].
  inversion Hnd as [|? ? Hnotin Hnd']; subst.
  destruct Hin as [[= -> ->]|Hin].
  - now rewrite String.eqb_refl.
  - destruct (String.eqb k' k) eqn:E.
    + apply String.eqb_eq in E; subst. exfalso. apply Hnotin.
      change k with (fst (k, v)). now apply in_map.
    + now apply IH.
Qed.

End JsFacts.

(* ================================================================== *)
(** ** Status derivation *)
(* ================================================================== *)

Module StatusDerivation.
Import MetricParser JsString JsStringFacts JsFacts.
#[local] Open Scope string_scope.

Lemma offsetTest_indexed (base n : string) :
  re_digits n = true ->
  startsWith (base ++ "." ++ n) (base ++ ".")
  && re_digits_opt_dot0 (drop (String.length base + 1) (base ++ "." ++ n))
  = true.
Proof.
  intros Hn.
  replace (base ++ "." ++ n) with ((base ++ ".") ++ n)
    by apply append_assoc.
  rewrite startsWith_append.
  replace (String.length base + 1) with (String.length (base ++ "."))
    by (rewrite length_append; reflexivity).
  rewrite drop_append. simpl. now apply re_digits_opt_dot0_plain.
Qed.

Lemma offsetTest_indexed_scalar (base n : string) :
  re_digits n = true ->
  startsWith (base ++ "." ++ n ++ ".0") (base ++ ".")
  && re_digits_opt_dot0
       (drop (String.length base + 1) (base ++ "." ++ n ++ ".0"))
  = true.
Proof.
  intros Hn.
  replace (base ++ "." ++ n ++ ".0") with ((base ++ ".") ++ n ++ ".0")
    by apply append_assoc.
  rewrite startsWith_append.
  replace (String.length base + 1) with (String.length (base ++ "."))
    by (rewrite length_append; reflexivity).
  rewrite drop_append. simpl. now apply re_digits_opt_dot0_scalar.
Qed.

Lemma findOffset_sound (base : string) (es : list (string * JsValue)) (v : float) :
  findOffset base es = Some v ->
  exists k, oidForm base k /\ In (k, VNum v) es.
Proof.
  induction es as [|[k w] es IH]; simpl; [discriminate|].
  assert (Hrest : findOffset base es = Some v ->
                  exists k0, oidForm base k0 /\ In (k0, VNum v) ((k, w) :: es)).
  { intros H. destruct (IH H) as (k0 & Hf & Hin). exists k0. simpl. auto. }
  destruct w; simpl; try exact Hrest.
  destruct (startsWith k (base ++ ".")
            && re_digits_opt_dot0 (drop (String.length base + 1) k)) eqn:E;
    [|exact Hrest].
  intros [= ->]. exists k. split; [|now left].
  apply andb_true_iff in E as [E1 E2].
  apply startsWith_inv in E1.
  rewrite length_append in E1. simpl in E1.
  destruct (re_digits_opt_dot0_inv _ E2) as (n & Hn & [Hr|Hr]);
    rewrite Hr in E1; rewrite append_assoc in E1; simpl in E1;
    right; right; exists n; split; auto.
Qed.

Lemma findOffset_complete (base : string) (es : list (string * JsValue))
  (k : string) (v : float) :
  In (k, VNum v) es ->
  startsWith k (base ++ ".")
  && re_digits_opt_dot0 (drop (String.length base + 1) k) = true ->
  exists v', findOffset base es = Some v'.
Proof.
  intros Hin Ht. induction es as [|[k0 w0] es IH]; [contradiction|].
  simpl. destruct Hin as [[= -> ->]|Hin].
  - simpl. rewrite Ht. eauto.
  - destruct (asNumber w0); [|now apply IH].
    destruct (startsWith k0 (base ++ ".")
              && re_digits_opt_dot0 (drop (String.length base + 1) k0));
      [eauto | now apply IH].
Qed.

Lemma getNumericValueForBase_sound (d : JsObject) (base : string) (v : float) :
  getNumericValueForBase d base = Some v ->
  exists k, oidForm base k /\ In (k, VNum v) d.
Proof.
  unfold getNumericValueForBase, entries.
  assert (Hscalar :
    match get d (base ++ ".0") with
    | Some (VNum scalar) => Some scalar
    | _ => findOffset base d
    end = Some v -> exists k, oidForm base k /\ In (k, VNum v) d).
  { destruct (get d (base ++ ".0")) as [w|] eqn:E2;
      [destruct w|]; try apply findOffset_sound.
    intros [= ->]. exists (base ++ ".0"). split.
    - right. now left.
    - now apply get_In. }
  destruct (get d base) as [w|] eqn:E1; [destruct w|]; try exact Hscalar.
  intros [= ->]. exists base. split; [now left | now apply get_In].
Qed.

Lemma getNumericValueForBase_complete (d : JsObject) (base : string) :
  wellFormed d -> yieldsNumeric d base ->
  exists v, getNumericValueForBase d base = Some v.
Proof.
  intros Hwf (k & v & Hform & Hin).
  unfold getNumericValueForBase, entries.
  assert (Hoff : (exists n, re_digits n = true
                   /\ (k = base ++ "." ++ n \/ k = base ++ "." ++ n ++ ".0")) ->
                 exists v', findOffset base d = Some v').
  { intros (n & Hn & [->| ->]); eapply findOffset_complete; eauto.
    - now apply offsetTest_indexed.
    - now apply offsetTest_indexed_scalar. }
  assert (Hscalar : k <> base ->
    exists v', match get d (base ++ ".0") with
               | Some (VNum scalar) => Some scalar
               | _ => findOffset base d
               end = Some v').
  { intros Hk. destruct Hform as [->|[->|Hidx]]; [congruence| |].
    - rewrite (In_get _ _ _ Hwf Hin). eauto.
    - destruct (get d (base ++ ".0")) as [w|]; [destruct w|]; eauto. }
  destruct (string_dec k base) as [->|Hk].
  - rewrite (In_get _ _ _ Hwf Hin). eauto.
  - destruct (get d base) as [w|]; [destruct w|]; eauto.
Qed.

Lemma getNumericValueForBase_none (d : JsObject) (base : string) :
  wellFormed d -> ~ yieldsNumeric d base ->
  getNumericValueForBase d base = None.
Proof.
  intros Hwf Hno.
  destruct (getNumericValueForBase d base) as [v|] eqn:E; [|reflexivity].
  exfalso. apply Hno.
  destruct (getNumericValueForBase_sound _ _ _ E) as (k & Hf & Hin).
  now exists k, v.
Qed.

Lemma status_assignEntry (m : Metrics) (e : string * JsValue) :
  status (assignEntry m e) = status m.
Proof.
  unfold assignEntry.
  destruct (resolveMetricName (fst e)) as [[]|]; destruct (snd e); reflexivity.
Qed.

Lemma status_fold (es : list (string * JsValue)) (m : Metrics) :
  status (fold_left assignEntry es m) = status m.
Proof.
  revert m; induction es as [|e es IH]; intros m; simpl; [reflexivity|].
  now rewrite IH, status_assignEntry.
Qed.

Lemma status_deriveVswr (m : Metrics) : status (deriveVswr m) = status m.
Proof.
  unfold deriveVswr.
  destruct (forwardPower m), (reflectedPower m); try reflexivity.
  destruct (_ && _); reflexivity.
Qed.

Lemma parse_status (r : DeviceResult) (d : JsObject) :
  success r = true -> data r = Some d ->
  status (parseSnmpData r) = Some (deriveStatus d).
Proof.
  intros Hs Hd. unfold parseSnmpData. rewrite Hs, Hd.
  now rewrite status_deriveVswr, status_fold.
Qed.

(** C1.  For the raw map [d] of a successful poll, the derived status is
    decided by a number found under base [...10.13] (directly, as [.0] or
    under an index): the value 1 gives "active" and the value 2 gives
    "standby" (as does every number other than 1), whatever the map holds
    under [...10.12].  Only when no number is found there does a number found
    under base [...10.12] decide: 2 gives "active", any other number
    "standby".  When neither base yields a number, the status is
    "offline". *)
Theorem status_derivation (r : DeviceResult) (d : JsObject) :
  success r = true -> data r = Some d -> wellFormed d ->
  let st := status (parseSnmpData r) in
  (yieldsNumeric d statusBase13 ->
     exists k v, oidForm statusBase13 k /\ In (k, VNum v) d
       /\ (v = 1%float -> st = Some "active")
       /\ (v = 2%float -> st = Some "standby")
       /\ (PrimFloat.eqb v 1 = false -> st = Some "standby"))
  /\ (~ yieldsNumeric d statusBase13 -> yieldsNumeric d statusBase12 ->
      exists k v, oidForm statusBase12 k /\ In (k, VNum v) d
        /\ (v = 2%float -> st = Some "active")
        /\ (PrimFloat.eqb v 2 = false -> st = Some "standby"))
  /\ (~ yieldsNumeric d statusBase13 -> ~ yieldsNumeric d statusBase12 ->
      st = Some "offline").
Proof.
  intros Hs Hd Hwf st. subst st. rewrite (parse_status r d Hs Hd).
  unfold deriveStatus. repeat split.
  - intros H13.
    destruct (getNumericValueForBase_complete d _ Hwf H13) as (v & Hv).
    destruct (getNumericValueForBase_sound d _ v Hv) as (k & Hf & Hin).
    exists k, v. rewrite Hv. repeat split; auto; intros ->; reflexivity.
  - intros H13 H12.
    rewrite (getNumericValueForBase_none d _ Hwf H13).
    destruct (getNumericValueForBase_complete d _ Hwf H12) as (v & Hv).
    destruct (getNumericValueForBase_sound d _ v Hv) as (k & Hf & Hin).
    exists k, v. rewrite Hv. repeat split; auto.
    + intros ->; reflexivity.
    + intros ->; reflexivity.
  - intros H13 H12.
    now rewrite (getNumericValueForBase_none d _ Hwf H13),
                (getNumericValueForBase_none d _ Hwf H12).
Qed.

End StatusDerivation.

(** The statement of C1 at a one-entry map: [...10.13.0] holds 1 and the
    status is "active". *)
Lemma status_derivation_witness :
  let d := [("1.3.6.1.4.1.31946.4.2.6.10.13.0", VNum 1)] in
  let r := mkDeviceResult "tx-1" 0 true (Some d) None in
  success r = true /\ data r = Some d /\ wellFormed d
  /\ MetricParser.status (MetricParser.parseSnmpData r) = Some "active".
Proof.
  intros d r.
  assert (Hwf : wellFormed d).
  { constructor; [intros [] | constructor]. }
  split; [reflexivity|]. split; [reflexivity|]. split; [exact Hwf|].
  destruct (StatusDerivation.status_derivation r d eq_refl eq_refl Hwf)
    as (H13 & _ & _).
  assert (Hy : yieldsNumeric d MetricParser.statusBase13).
  { exists "1.3.6.1.4.1.31946.4.2.6.10.13.0", 1%float. split.
    - right. now left.
    - now left. }
  destruct (H13 Hy) as (k & v & _ & Hin & Hactive & _ & _).
  apply Hactive.
  destruct Hin as [Hin|[]]. now injection Hin as _ <-.
Defined.

(* ================================================================== *)
(** ** VSWR derivation *)
(* ================================================================== *)

Module Vswr.
Import MetricParser.

Lemma vswr_assignEntry (m : Metrics) (e : string * JsValue) :
  vswr (assignEntry m e) = vswr m.
Proof.
  unfold assignEntry.
  destruct (resolveMetricName (fst e)) as [[]|]; destruct (snd e); reflexivity.
Qed.

Lemma vswr_fold (es : list (string * JsValue)) (m : Metrics) :
  vswr (fold_left assignEntry es m) = vswr m.
Proof.
  revert m; induction es as [|e es IH]; intros m; simpl; [reflexivity|].
  now rewrite IH, vswr_assignEntry.
Qed.

Lemma powers_deriveVswr (m : Metrics) :
  forwardPower (deriveVswr m) = forwardPower m
  /\ reflectedPower (deriveVswr m) = reflectedPower m.
Proof.
  unfold deriveVswr.
  destruct (forwardPower m) eqn:Ef, (reflectedPower m) eqn:Er; auto.
  destruct (_ && _); simpl; auto.
Qed.

Lemma vswr_deriveVswr (m : Metrics) :
  vswr m = None ->
  vswr (deriveVswr m)
  = match forwardPower m, reflectedPower m with
    | Some fwd, Some refl =>
        if truthy (VNum fwd) && truthy (VNum refl)
        then Some (reflectionVswr fwd refl) else None
    | _, _ => None
    end.
Proof.
  intros Hv. unfold deriveVswr.
  destruct (forwardPower m), (reflectedPower m); auto.
  rewrite Hv. simpl truthyNum. rewrite andb_true_r.
  destruct (_ && _); auto.
Qed.

(** C2, as the code has it.  The parsed record carries a VSWR exactly when
    forward and reflected power are both present and truthy (neither zero nor
    NaN), and the value is then the binary64 result of (1+G)/(1-G) with
    G = sqrt(reflected/forward); nothing tests that result.  (No OID maps to
    VSWR, so it is never "directly reported".) *)
Theorem vswr_derivation (r : DeviceResult) :
  let m := parseSnmpData r in
  vswr m
  = match forwardPower m, reflectedPower m with
    | Some fwd, Some refl =>
        if truthy (VNum fwd) && truthy (VNum refl)
        then Some ((1 + PrimFloat.sqrt (refl / fwd))
                   / (1 - PrimFloat.sqrt (refl / fwd)))%float
        else None
    | _, _ => None
    end.
Proof.
  unfold parseSnmpData.
  destruct (success r); [|reflexivity].
  destruct (data r) as [d|]; [|reflexivity].
  cbv zeta.
  set (m1 := fold_left assignEntry (entries d) _).
  destruct (powers_deriveVswr m1) as [-> ->].
  apply vswr_deriveVswr. unfold m1. now rewrite vswr_fold.
Qed.

(** C2 as stated fails.  Forward 100 and reflected 100: the VSWR field is
    emitted and is [+infinity]; forward 100 and reflected 0 (present): no
    VSWR is computed. *)
Lemma vswr_finite_guard_counterexample :
  let fwdOid := "1.3.6.1.4.1.31946.4.2.6.10.1.0" in
  let reflOid := "1.3.6.1.4.1.31946.4.2.6.10.2.0" in
  let equal := mkDeviceResult "tx-1" 0 true
                 (Some [(fwdOid, VNum 100); (reflOid, VNum 100)]) None in
  let matchedLoad := mkDeviceResult "tx-1" 0 true
                       (Some [(fwdOid, VNum 100); (reflOid, VNum 0)]) None in
  (vswr (parseSnmpData equal) = Some infinity
   /\ PrimFloat.is_finite infinity = false)
  /\ (reflectedPower (parseSnmpData matchedLoad) = Some 0%float
      /\ vswr (parseSnmpData matchedLoad) = None).
Proof. vm_compute. repeat split. Qed.

End Vswr.

(* ================================================================== *)
(** ** OID expansion *)
(* ================================================================== *)

Module OidExpansionFacts.
Import OidExpansion.
#[local] Open Scope string_scope.

Lemma existsb_eqb_In (x : string) (l : list string) :
  existsb (String.eqb x) l = true <-> In x l.
Proof.
  rewrite existsb_exists. split.
  - intros (y & Hin & E). apply String.eqb_eq in E. now subst.
  - intros Hin. exists x. split; [exact Hin | apply String.eqb_refl].
Qed.

Lemma setAdd_In (s : list string) (x y : string) :
  In y (setAdd s x) <-> In y s \/ y = x.
Proof.
  unfold setAdd. destruct (existsb (String.eqb x) s) eqn:E.
  - apply existsb_eqb_In in E. split; [auto|]. intros [H| ->]; auto.
  - rewrite in_app_iff. simpl. intuition.
Qed.









(** C3, evaluated.  For the configured OID [...10.1], which does not end in
    [.0], the OIDs sent with the GET are [...10.1] and [...10.0]: the base
    loses its last arc before [.0] is appended, and [...10.1.0] is not
    requested. *)
Theorem expansion_omits_scalar_of_base_oid :
  let configured := ["1.3.6.1.4.1.31946.4.2.6.10.1"] in
  JsString.endsWith "1.3.6.1.4.1.31946.4.2.6.10.1" ".0" = false
  /\ expandedOids configured
     = ["1.3.6.1.4.1.31946.4.2.6.10.1"; "1.3.6.1.4.1.31946.4.2.6.10.0"]
  /\ ~ In "1.3.6.1.4.1.31946.4.2.6.10.1.0" (expandedOids configured).
Proof.
  cbv zeta. split; [reflexivity|]. split; [vm_compute; reflexivity|].
  intros H. apply (proj2 (existsb_eqb_In _ _)) in H.
  vm_compute in H. discriminate.
Qed.

(** C4, evaluated.  Expanding the expansion of [...10.1.4] adds [...10.0],
    which the first expansion does not contain: the core base [...10.1] that
    the first pass adds is stripped to [...10] by the second. *)
Theorem expansion_not_idempotent :
  let x := ["1.3.6.1.4.1.31946.4.2.6.10.1.4"] in
  In "1.3.6.1.4.1.31946.4.2.6.10.0" (expandedOids (expandedOids x))
  /\ ~ In "1.3.6.1.4.1.31946.4.2.6.10.0" (expandedOids x)
  /\ ~ sameSet (expandedOids (expandedOids x)) (expandedOids x).
Proof.
  cbv zeta.
  assert (H2 : In "1.3.6.1.4.1.31946.4.2.6.10.0"
                  (expandedOids
                     (expandedOids ["1.3.6.1.4.1.31946.4.2.6.10.1.4"]))).
  { refine (proj1 (existsb_eqb_In _ _) _). vm_compute. reflexivity. }
  assert (H1 : ~ In "1.3.6.1.4.1.31946.4.2.6.10.0"
                    (expandedOids ["1.3.6.1.4.1.31946.4.2.6.10.1.4"])).
  { intros H. apply (proj2 (existsb_eqb_In _ _)) in H.
    vm_compute in H. discriminate. }
  split; [exact H2|]. split; [exact H1|].
  intros Hsame. exact (H1 (proj1 (Hsame _) H2)).
Qed.

End OidExpansionFacts.

(* ================================================================== *)
(** ** Sorting *)
(* ================================================================== *)

Module SortFacts.

Lemma insertBy_perm {A : Type} (le : A -> A -> bool) (x : A) (l : list A) :
  Permutation (insertBy le x l) (x :: l).
Proof.
  induction l as [|y l IH]; simpl; [reflexivity|].
  destruct (le x y); [reflexivity|].
  rewrite IH. apply perm_swap.
Qed.

Lemma sortBy_perm {A : Type} (le : A -> A -> bool) (l : list A) :
  Permutation (sortBy le l) l.
Proof.
  induction l as [|x l IH]; simpl; [reflexivity|].
  rewrite insertBy_perm. now constructor.
Qed.

Lemma sortBy_In {A : Type} (le : A -> A -> bool) (l : list A) (x : A) :
  In x (sortBy le l) <-> In x l.
Proof.
  split; apply Permutation_in;
    [apply sortBy_perm | symmetry; apply sortBy_perm].
Qed.

Lemma In_firstn {A : Type} (n : nat) (l : list A) (x : A) :
  In x (firstn n l) -> In x l.
Proof.
  intros H. rewrite <- (firstn_skipn n l). apply in_or_app. now left.
Qed.

(** Sorting by a numeric key, largest first. *)
Section ByKey.

Context {A : Type} (key : A -> Z).

Let le (a b : A) : bool := (key b <=? key a)%Z.
Let R (a b : A) : Prop := (key b <= key a)%Z.

Lemma insertBy_key_sorted (x : A) (l : list A) :
  StronglySorted R l -> StronglySorted R (insertBy le x l).
Proof.
  induction 1 as [|y l Hs IH Hall]; simpl.
  - constructor; constructor.
  - unfold le at 1. destruct (Z.leb_spec (key y) (key x)).
    + constructor; [now constructor|].
      constructor; [exact H|].
      eapply Forall_impl; [|exact Hall]. unfold R. intros; lia.
    + constructor; [exact IH|].
      eapply Permutation_Forall.
      * symmetry. apply insertBy_perm.
      * constructor; [unfold R; lia | exact Hall].
Qed.

Lemma sortBy_key_sorted (l : list A) : StronglySorted R (sortBy le l).
Proof.
  induction l as [|x l IH]; simpl; [constructor|].
  now apply insertBy_key_sorted.
Qed.

Lemma sorted_app_cross (l1 l2 : list A) :
  StronglySorted R (l1 ++ l2) ->
  forall a b, In a l1 -> In b l2 -> R a b.
Proof.
  induction l1 as [|x l1 IH]; simpl; intros Hs a b Ha Hb; [contradiction|].
  inversion Hs as [|? ? Hs' Hall]; subst.
  destruct Ha as [->|Ha].
  - rewrite Forall_forall in Hall. apply Hall, in_or_app. now right.
  - now apply IH.
Qed.

Lemma sorted_app_l (l1 l2 : list A) :
  StronglySorted R (l1 ++ l2) -> StronglySorted R l1.
Proof.
  induction l1 as [|x l1 IH]; simpl; intros Hs; [constructor|].
  inversion Hs as [|? ? Hs' Hall]; subst. constructor; [now apply IH|].
  rewrite Forall_forall in *. intros y Hy. apply Hall, in_or_app. now left.
Qed.

Lemma firstn_key_sorted (n : nat) (l : list A) :
  StronglySorted R l -> StronglySorted R (firstn n l).
Proof.
  intros H. rewrite <- (firstn_skipn n l) in H. now apply sorted_app_l in H.
Qed.

End ByKey.

End SortFacts.

(* ================================================================== *)
(** ** The bounded result ring *)
(* ================================================================== *)

Module RingFacts.
Import Poller.
Import SortFacts.

Lemma sliceLast_length {A : Type} (n : nat) (l : list A) :
  List.length (sliceLast n l) = Nat.min n (List.length l).
Proof. unfold sliceLast. rewrite length_skipn. lia. Qed.

Lemma sliceLast_all {A : Type} (n : nat) (l : list A) :
  List.length l <= n -> sliceLast n l = l.
Proof.
  intros H. unfold sliceLast.
  replace (List.length l - n) with 0 by lia. reflexivity.
Qed.

Lemma sliceLast_app {A : Type} (n : nat) (a b : list A) :
  sliceLast n (sliceLast n a ++ b) = sliceLast n (a ++ b).
Proof.
  destruct (Nat.le_gt_cases (List.length a) n) as [Hle|Hgt].
  - now rewrite (sliceLast_all n a Hle).
  - unfold sliceLast. rewrite !length_app, length_skipn.
    set (k := List.length a - n).
    replace (List.length a - k + List.length b - n) with (List.length b)
      by (unfold k; lia).
    replace (List.length a + List.length b - n) with (List.length b + k)
      by (unfold k; lia).
    rewrite <- skipn_skipn. f_equal.
    rewrite skipn_app.
    replace (k - List.length a) with 0 by (unfold k; lia). reflexivity.
Qed.

(** One recording: the list is extended and cut to its last [maxResults]. *)
Lemma recordResult_results (now : Z) (d : string) (s : bool)
  (dat : option JsObject) (e : option string) (p : t) :
  results (recordResult now d s dat e p)
  = sliceLast (maxResults p) (results p ++ [mkDeviceResult d now s dat e])
  /\ maxResults (recordResult now d s dat e p) = maxResults p.
Proof.
  unfold recordResult.
  destruct (maxResults p <? _)%nat eqn:E; simpl; split; try reflexivity.
  apply Nat.ltb_ge in E. symmetry. now apply sliceLast_all.
Qed.

(** Recordings alone: the ring holds the last [maxResults] results, oldest
    first. *)
Lemma run_records (rs : list DeviceResult) (p : t) :
  List.length (results p) <= maxResults p ->
  results (run (map recordOp rs) p) = sliceLast (maxResults p) (results p ++ rs)
  /\ maxResults (run (map recordOp rs) p) = maxResults p.
Proof.
  revert p. induction rs as [|r rs IH]; intros p Hinv.
  - simpl. rewrite app_nil_r. split; [|reflexivity].
    symmetry. now apply sliceLast_all.
  - cbn [map run fold_left step recordOp].
    destruct (recordResult_results (timestamp r) (deviceId r) (success r)
                (data r) (error r) p) as [Hres Hmax].
    replace (mkDeviceResult (deviceId r) (timestamp r) (success r)
               (data r) (error r)) with r in Hres by now destruct r.
    set (p' := recordResult _ _ _ _ _ p) in *.
    assert (Hinv' : List.length (results p') <= maxResults p').
    { rewrite Hres, Hmax, sliceLast_length. lia. }
    destruct (IH p' Hinv') as [IH1 IH2]. fold (run (map recordOp rs) p').
    rewrite IH1, IH2, Hmax, Hres. split; [|reflexivity].
    rewrite sliceLast_app, <- app_assoc. reflexivity.
Qed.

(** With nothing but recordings, more than a thousand of them leave exactly
    the thousand most recent in the ring. *)
Lemma ring_without_queries (rs : list DeviceResult) :
  1000 < List.length rs ->
  let p := run (map recordOp rs) init in
  List.length (results p) = 1000
  /\ results p = skipn (List.length rs - 1000) rs.
Proof.
  intros Hn p.
  destruct (run_records rs init) as [Hres _]; [simpl; lia|].
  subst p. rewrite Hres. simpl results. simpl maxResults. simpl app.
  split; [rewrite sliceLast_length; lia | reflexivity].
Qed.

Lemma firstn_sorted (n : nat) (l : list DeviceResult) :
  StronglySorted newer l -> StronglySorted newer (firstn n l).
Proof. apply (firstn_key_sorted timestamp). Qed.

Lemma sortBy_newestFirst (l : list DeviceResult) :
  StronglySorted newer (sortBy newestFirst l).
Proof. apply (sortBy_key_sorted timestamp). Qed.

Lemma slice0_sorted (limit : Z) (l : list DeviceResult) :
  StronglySorted newer l -> StronglySorted newer (slice0 limit l).
Proof.
  intros H. unfold slice0. destruct (limit <? 0)%Z; now apply firstn_sorted.
Qed.

(** A query answers newest first. *)
Lemma getResults_newest_first (d : option string) (limit : Z) (p : t) :
  StronglySorted newer (fst (getResults d limit p)).
Proof.
  unfold getResults. destruct (truthyStr d); simpl;
    apply slice0_sorted, sortBy_newestFirst.
Qed.

(** A query keeps the entries of the ring; without a device id it reorders
    them, newest first. *)
Lemma getResults_ring (d : option string) (limit : Z) (p : t) :
  Permutation (results (snd (getResults d limit p))) (results p)
  /\ (truthyStr d = false ->
      results (snd (getResults d limit p)) = sortBy newestFirst (results p))
  /\ (truthyStr d = true -> snd (getResults d limit p) = p).
Proof.
  unfold getResults. destruct (truthyStr d); simpl.
  - repeat split; auto. discriminate.
  - repeat split; auto; try discriminate. apply sortBy_perm.
Qed.

(** Whatever is recorded and queried, the ring never holds more than
    [maxResults] entries, and it is full once that many results have been
    recorded since it was empty. *)
Lemma run_length (ops : list Op) (p : t) :
  List.length (results p) <= maxResults p ->
  List.length (results (run ops p))
  = Nat.min (maxResults p) (List.length (results p) + recordings ops)
  /\ maxResults (run ops p) = maxResults p.
Proof.
  revert p. induction ops as [|op ops IH]; intros p Hinv.
  - unfold recordings. simpl. split; [lia | reflexivity].
  - assert (Hstep : List.length (results (step p op))
                    = Nat.min (maxResults p)
                        (List.length (results p)
                         + recordings [op])
                    /\ maxResults (step p op) = maxResults p).
    { destruct op as [now d sc dat e | d l]; simpl step.
      - destruct (recordResult_results now d sc dat e p) as [-> ->].
        rewrite sliceLast_length, length_app. unfold recordings. simpl.
        split; [lia | reflexivity].
      - destruct (getResults_ring d l p) as (Hperm & _ & _).
        rewrite (Permutation_length Hperm). unfold recordings. simpl.
        split; [lia|].
        unfold getResults. now destruct (truthyStr d). }
    destruct Hstep as [Hlen Hmax].
    assert (Hinv' : List.length (results (step p op)) <= maxResults (step p op))
      by (rewrite Hlen, Hmax; lia).
    destruct (IH (step p op) Hinv') as [IH1 IH2].
    change (run (op :: ops) p) with (run ops (step p op)).
    rewrite IH1, IH2, Hmax, Hlen. split; [|reflexivity].
    unfold recordings in *. simpl filter.
    destruct op; simpl List.length; lia.
Qed.

(** C7, evaluated.  Results are recorded at times 1..1000, [getResults()] is
    called once without a device id, and a result is recorded at time 1001.
    The ring then holds 1000 entries, namely those of times 999 down to 1
    followed by 1001: the result of time 1000, second most recent, is gone,
    and the oldest one, of time 1, is still there. *)
Theorem ring_after_unfiltered_query :
  let p := run pollsAroundQuery init in
  List.length (results p) = 1000
  /\ map timestamp (results p)
     = map Z.of_nat (rev (seq 1 999)) ++ [1001%Z]
  /\ existsb (fun r => (timestamp r =? 1000)%Z) (results p) = false
  /\ existsb (fun r => (timestamp r =? 1)%Z) (results p) = true.
Proof.
  cbv zeta.
  split; [vm_compute; reflexivity|].
  split; [vm_compute; reflexivity|].
  split; vm_compute; reflexivity.
Qed.

End RingFacts.

(* ================================================================== *)
(** ** Storage round-trips *)
(* ================================================================== *)

Module IoFacts.

(** One step of symbolic execution of a service. *)
Ltac io_step :=
  cbv beta iota
      delta [bind getWorld ret tryCatch rethrow throw setTransmitters
             setTransmitterMetrics setSnmpTraps putWorld].

Lemma roundtrip_run (q : Query) (w : World) :
  roundtrip q w
  = (if nextFault w then Thrown "storage error" else Ok tt, afterRoundtrip w q).
Proof.
  unfold roundtrip, afterRoundtrip, nextFault.
  destruct (faults w) as [|[|] fs]; reflexivity.
Qed.

Lemma nextFault_afterRoundtrip (w : World) (q : Query) :
  nextFault (afterRoundtrip w q) = nthFault 1 w.
Proof.
  unfold nextFault, afterRoundtrip, nthFault. simpl.
  destruct (faults w) as [|a [|b fs]]; reflexivity.
Qed.

Lemma journal_afterRoundtrip (w : World) (q : Query) :
  journal (afterRoundtrip w q)
  = journal w ++ [if nextFault w then Threw q else Answered q].
Proof. reflexivity. Qed.

Lemma healthy_next (w : World) : faults w = [] -> nextFault w = false.
Proof. unfold nextFault. now intros ->. Qed.

Lemma healthy_after (w : World) (q : Query) :
  faults w = [] -> faults (afterRoundtrip w q) = [].
Proof. unfold afterRoundtrip. simpl. now intros ->. Qed.

Lemma getTransmitterById_run (id : string) (w : World) :
  getTransmitterById id w
  = (if nextFault w then Thrown "storage error"
     else Ok (lookupTransmitter w id),
     afterRoundtrip w (SelectTransmitter id)).
Proof.
  unfold getTransmitterById, rethrow, tryCatch, bind.
  rewrite roundtrip_run. destruct (nextFault w); reflexivity.
Qed.

Lemma getSiteById_run (rt : Runtime) (id : string) (w : World) :
  getSiteById rt id w
  = (if nextFault w then Thrown "storage error"
     else Ok (option_map (normalizeSite rt) (lookupSite w id)),
     afterRoundtrip w (SelectSite id)).
Proof.
  unfold getSiteById, rethrow, tryCatch, bind.
  rewrite roundtrip_run. destruct (nextFault w); reflexivity.
Qed.

Lemma getAllTransmitters_run (w : World) :
  getAllTransmitters w
  = (if nextFault w then Thrown "storage error" else Ok (listing w),
     afterRoundtrip w SelectAllTransmitters).
Proof.
  unfold getAllTransmitters, rethrow, tryCatch, bind.
  rewrite roundtrip_run. destruct (nextFault w); reflexivity.
Qed.

Lemma storeSnmpTrap_run (trap : Trap.t) (w : World) :
  storeSnmpTrap trap w
  = if nextFault w
    then (Thrown "storage error", afterRoundtrip w InsertTrap)
    else (Ok tt,
          mkWorld (transmitters w) (sites w) (transmitterMetrics w)
                  (snmpTraps w ++ [TrapRow.mk trap (now w)]) (now w)
                  (tl (faults w)) (journal w ++ [Answered InsertTrap])).
Proof.
  unfold storeSnmpTrap, rethrow, tryCatch, bind.
  rewrite roundtrip_run. unfold afterRoundtrip.
  destruct (nextFault w); reflexivity.
Qed.

End IoFacts.

(* ================================================================== *)
(** ** Gating *)
(* ================================================================== *)

Module GatingFacts.
Import IoFacts.

(** The gate, run on a world. *)
Lemma shouldPollDevice_run (rt : Runtime) (device : SNMPDevice) (w : World) :
  let w1 := afterRoundtrip w (SelectTransmitter (dev_id device)) in
  shouldPollDevice rt device w
  = if negb (dev_isActive device) then (Ok false, w)
    else if nextFault w then (Ok true, w1)
    else match lookupTransmitter w (dev_id device) with
         | None => (Ok true, w1)
         | Some tx =>
             match Transmitter.isActive tx with
             | Some false => (Ok false, w1)
             | _ =>
                 if String.eqb (Transmitter.siteId tx) "" then (Ok true, w1)
                 else
                   let w2 :=
                     afterRoundtrip w1 (SelectSite (Transmitter.siteId tx)) in
                   if nextFault w1 then (Ok true, w2)
                   else (Ok (negb (siteInactive rt w (Transmitter.siteId tx))),
                         w2)
             end
         end.
Proof.
  cbv zeta. unfold shouldPollDevice.
  destruct (dev_isActive device); [|reflexivity].
  change (negb true) with false. cbv beta iota.
  unfold tryCatch at 1. unfold bind at 1. cbv beta.
  rewrite getTransmitterById_run.
  set (w1 := afterRoundtrip w (SelectTransmitter (dev_id device))).
  destruct (nextFault w); [reflexivity|].
  destruct (lookupTransmitter w (dev_id device)) as [tx|]; [|reflexivity].
  assert (Hsite :
    (if negb (String.eqb (Transmitter.siteId tx) "")
     then site <- getSiteById rt (Transmitter.siteId tx) ;;
          match site with
          | Some s => match Site.isActive s with
                      | Some false => ret false
                      | _ => ret true
                      end
          | None => ret true
          end
     else ret true) w1
    = if String.eqb (Transmitter.siteId tx) ""
      then (Ok true, w1)
      else if nextFault w1
           then (Thrown "storage error",
                 afterRoundtrip w1 (SelectSite (Transmitter.siteId tx)))
           else (Ok (negb (siteInactive rt w (Transmitter.siteId tx))),
                 afterRoundtrip w1 (SelectSite (Transmitter.siteId tx)))).
  { destruct (String.eqb (Transmitter.siteId tx) ""); [reflexivity|].
    change (negb false) with true. cbv beta iota.
    unfold bind. rewrite getSiteById_run.
    destruct (nextFault w1); [reflexivity|].
    unfold siteInactive.
    change (lookupSite w1 (Transmitter.siteId tx))
      with (lookupSite w (Transmitter.siteId tx)).
    destruct (option_map _ _) as [s|]; [|reflexivity].
    destruct (Site.isActive s) as [[|]|]; reflexivity. }
  destruct (Transmitter.isActive tx) as [[|]|]; try reflexivity;
    rewrite Hsite; destruct (String.eqb (Transmitter.siteId tx) "");
    try reflexivity; destruct (nextFault w1); reflexivity.
Qed.

(** C6.  The gate answers "skip" ([false]) when the stored transmitter is
    read and its [isActive] is false, and when the transmitter and its owning
    site are read and the site's [isActive] is false.  Whenever one of the
    gate's storage lookups throws, the gate answers "allow" ([true]). *)
Theorem gating (rt : Runtime) (device : SNMPDevice) (w : World) :
  let out := shouldPollDevice rt device w in
  (forall tx,
      nextFault w = false ->
      lookupTransmitter w (dev_id device) = Some tx ->
      Transmitter.isActive tx = Some false ->
      fst out = Ok false)
  /\ (forall tx site,
        nextFault w = false -> nthFault 1 w = false ->
        lookupTransmitter w (dev_id device) = Some tx ->
        Transmitter.siteId tx <> "" ->
        lookupSite w (Transmitter.siteId tx) = Some site ->
        Site.isActive site = Some false ->
        fst out = Ok false)
  /\ (exists evs,
        journal (snd out) = journal w ++ evs
        /\ ((exists q, In (Threw q) evs) -> fst out = Ok true)).
Proof.
  cbv zeta. rewrite shouldPollDevice_run. cbv zeta.
  set (w1 := afterRoundtrip w (SelectTransmitter (dev_id device))).
  destruct (dev_isActive device); simpl negb; cbv iota.
  2:{ repeat split; auto. exists []. rewrite app_nil_r. split; auto.
      intros (q & []). }
  split; [|split].
  - intros tx Hf Htx Ha. rewrite Hf, Htx, Ha. reflexivity.
  - intros tx site Hf1 Hf2 Htx Hs Hsite Hia.
    rewrite <- (nextFault_afterRoundtrip w (SelectTransmitter (dev_id device)))
      in Hf2. fold w1 in Hf2.
    rewrite Hf1, Htx.
    destruct (Transmitter.isActive tx) as [[|]|]; try reflexivity;
      apply String.eqb_neq in Hs; rewrite Hs, Hf2;
      unfold siteInactive; rewrite Hsite; simpl; rewrite Hia; reflexivity.
  - destruct (nextFault w) eqn:Hf.
    { exists [Threw (SelectTransmitter (dev_id device))]. cbn [fst snd].
      split; [|reflexivity].
      unfold w1. rewrite journal_afterRoundtrip, Hf. reflexivity. }
    assert (J1 : journal w1
                 = journal w ++ [Answered (SelectTransmitter (dev_id device))]).
    { unfold w1. rewrite journal_afterRoundtrip, Hf. reflexivity. }
    assert (Hno : forall (b : bool),
               exists evs, journal w1 = journal w ++ evs
                 /\ ((exists q, In (Threw q) evs) -> @Ok bool b = Ok true)).
    { intros b. exists [Answered (SelectTransmitter (dev_id device))].
      split; [exact J1|]. intros (q & [H|[]]). discriminate. }
    destruct (lookupTransmitter w (dev_id device)) as [tx|]; [|apply Hno].
    set (w2 := afterRoundtrip w1 (SelectSite (Transmitter.siteId tx))).
    assert (Hsite :
      exists evs,
        journal (snd (if String.eqb (Transmitter.siteId tx) ""
                      then (Ok true, w1)
                      else if nextFault w1 then (Ok true, w2)
                           else (Ok (negb (siteInactive rt w
                                             (Transmitter.siteId tx))), w2)))
        = journal w ++ evs
        /\ ((exists q, In (Threw q) evs) ->
            fst (if String.eqb (Transmitter.siteId tx) ""
                 then (Ok true, w1)
                 else if nextFault w1 then (Ok true, w2)
                      else (Ok (negb (siteInactive rt w
                                        (Transmitter.siteId tx))), w2))
            = Ok true)).
    { destruct (String.eqb (Transmitter.siteId tx) ""); [apply Hno|].
      destruct (nextFault w1) eqn:Hf2; cbn [fst snd].
      - exists [Answered (SelectTransmitter (dev_id device));
                Threw (SelectSite (Transmitter.siteId tx))].
        split; [|reflexivity]. unfold w2.
        rewrite journal_afterRoundtrip, Hf2, J1, <- app_assoc. reflexivity.
      - exists [Answered (SelectTransmitter (dev_id device));
                Answered (SelectSite (Transmitter.siteId tx))].
        split.
        + unfold w2.
          rewrite journal_afterRoundtrip, Hf2, J1, <- app_assoc. reflexivity.
        + intros (q & [H|[H|[]]]); discriminate. }
    destruct (Transmitter.isActive tx) as [[|]|]; try exact Hsite. apply Hno.
Qed.

(** C6 on two states: an active transmitter on an inactive site is skipped,
    and when the transmitter lookup throws the poll is allowed. *)
Lemma gating_witness :
  (nextFault Examples.gatedWorld = false
   /\ nthFault 1 Examples.gatedWorld = false
   /\ lookupTransmitter Examples.gatedWorld "tx-a" = Some Examples.txA
   /\ Transmitter.siteId Examples.txA <> ""
   /\ lookupSite Examples.gatedWorld "site-1" = Some Examples.siteOff
   /\ Site.isActive Examples.siteOff = Some false
   /\ fst (shouldPollDevice exampleRuntime Examples.deviceA
                            Examples.gatedWorld) = Ok false)
  /\ (journal (snd (shouldPollDevice exampleRuntime Examples.deviceA
                                     Examples.faultyWorld))
      = [Threw (SelectTransmitter "tx-a")]
      /\ fst (shouldPollDevice exampleRuntime Examples.deviceA
                               Examples.faultyWorld) = Ok true).
Proof.
  split.
  - destruct (gating exampleRuntime Examples.deviceA Examples.gatedWorld)
      as (_ & Hsite & _).
    repeat (split; [first [reflexivity | discriminate]|]).
    apply (Hsite Examples.txA Examples.siteOff);
      first [reflexivity | discriminate].
  - destruct (gating exampleRuntime Examples.deviceA Examples.faultyWorld)
      as (_ & _ & (evs & Hj & Hthrow)).
    split; [reflexivity|].
    apply Hthrow. exists (SelectTransmitter "tx-a").
    vm_compute in Hj. subst evs. now left.
Defined.

End GatingFacts.

(* ================================================================== *)
(** ** Trap attribution *)
(* ================================================================== *)

Module TrapFacts.
Import IoFacts SortFacts.

Lemma attribute_run (h : string) (w : World) :
  attribute h w
  = (Ok (attributionOf w h), afterRoundtrip w SelectAllTransmitters).
Proof.
  unfold attribute, tryCatch, bind, attributionOf.
  rewrite getAllTransmitters_run.
  destruct (nextFault w); [reflexivity|].
  unfold hostIs. destruct (find _ (listing w)); reflexivity.
Qed.

(** A notification whose insert is answered is stored, with the identifiers
    that the lookup found. *)
Lemma handleNotification_run (rt : Runtime) (data : Notification) (port : Z)
  (w : World) :
  nthFault 1 w = false ->
  exists t,
    fst (handleNotification rt data port w) = Ok tt
    /\ snmpTraps (snd (handleNotification rt data port w))
       = snmpTraps w ++ [TrapRow.mk t (now w)]
    /\ Trap.sourceHost t = sourceHostOf data
    /\ (Trap.transmitterId t, Trap.siteId t)
       = attributionOf w (sourceHostOf data).
Proof.
  intros Hf. unfold handleNotification.
  destruct (extractTrapOids _) as [trapOid enterpriseOid].
  unfold bind. rewrite attribute_run, storeSnmpTrap_run.
  rewrite nextFault_afterRoundtrip, Hf.
  eexists. cbn [fst snd snmpTraps afterRoundtrip withFaults now].
  split; [reflexivity|]. split; [reflexivity|]. split; [reflexivity|].
  cbn [Trap.transmitterId Trap.siteId]. now destruct (attributionOf _ _).
Qed.

Lemma find_unique (h : string) (l : list Transmitter.t) (T : Transmitter.t) :
  In T l -> hostIs h T = true ->
  (forall T', In T' l -> hostIs h T' = true -> T' = T) ->
  find (hostIs h) l = Some T.
Proof.
  intros Hin Hh Huniq.
  destruct (find (hostIs h) l) as [T'|] eqn:E.
  - apply find_some in E as [Hin' Hh']. f_equal. now apply Huniq.
  - exfalso. pose proof (find_none _ _ E T Hin) as Hn. congruence.
Qed.

(** C5, as the code has it.  A trap received from host [H] whose insert is
    answered is stored.  When the transmitter listing cannot be read it is
    stored without attribution.  Otherwise it carries the id and site id of
    the first transmitter of the listing (in display order) whose [snmpHost]
    is [H], if there is one, and no attribution if there is none; so when
    exactly one transmitter has host [H] the trap is attributed to it. *)
Theorem trap_attribution (rt : Runtime) (data : Notification) (port : Z)
  (w : World) :
  let H := sourceHostOf data in
  let out := handleNotification rt data port w in
  nthFault 1 w = false ->
  exists t,
    fst out = Ok tt
    /\ snmpTraps (snd out) = snmpTraps w ++ [TrapRow.mk t (now w)]
    /\ Trap.sourceHost t = H
    /\ (nextFault w = true ->
        Trap.transmitterId t = None /\ Trap.siteId t = None)
    /\ (nextFault w = false ->
        ((forall T, In T (transmitters w) -> Transmitter.snmpHost T <> H) ->
         Trap.transmitterId t = None /\ Trap.siteId t = None)
        /\ (forall T, find (hostIs H) (listing w) = Some T ->
            Trap.transmitterId t = Some (Transmitter.id T)
            /\ Trap.siteId t = Some (Transmitter.siteId T))
        /\ (forall T, In T (transmitters w) -> Transmitter.snmpHost T = H ->
            (forall T', In T' (transmitters w) ->
                        Transmitter.snmpHost T' = H -> T' = T) ->
            Trap.transmitterId t = Some (Transmitter.id T)
            /\ Trap.siteId t = Some (Transmitter.siteId T))).
Proof.
  intros H out Hf. subst out.
  destruct (handleNotification_run rt data port w Hf)
    as (t & Hok & Hst & Hh & Hat).
  exists t. split; [exact Hok|]. split; [exact Hst|]. split; [exact Hh|].
  fold H in Hat. unfold attributionOf in Hat.
  assert (Hfirst : forall T, nextFault w = false ->
            find (hostIs H) (listing w) = Some T ->
            Trap.transmitterId t = Some (Transmitter.id T)
            /\ Trap.siteId t = Some (Transmitter.siteId T)).
  { intros T Hn HT. rewrite Hn, HT in Hat. now injection Hat as -> ->. }
  split; [|intros Hn; split; [|split]].
  - intros Hn. rewrite Hn in Hat. now injection Hat as -> ->.
  - intros Hnone. rewrite Hn in Hat.
    destruct (find (hostIs H) (listing w)) as [T|] eqn:E.
    + exfalso. apply find_some in E as [Hin Hh'].
      apply sortBy_In in Hin. apply (Hnone T Hin).
      now apply String.eqb_eq.
    + now injection Hat as -> ->.
  - intros T. now apply Hfirst.
  - intros T Hin Hhost Huniq. apply (Hfirst T Hn).
    apply find_unique.
    + now apply sortBy_In.
    + unfold hostIs. now apply String.eqb_eq.
    + intros T' Hin' Hh'. apply Huniq.
      * now apply sortBy_In in Hin'.
      * now apply String.eqb_eq.
Qed.

(** C5 as stated fails.  Two transmitters are configured with host 10.0.0.5
    and a trap arrives from that host: it is stored attributed to the first
    of them, [tx-a] on [site-1]. *)
Lemma trap_shared_host_counterexample :
  map (fun tx => Transmitter.snmpHost tx)
      (transmitters Examples.sharedHostWorld)
  = ["10.0.0.5"; "10.0.0.5"]
  /\ sourceHostOf Examples.trapFromA = "10.0.0.5"
  /\ map (fun r => (TrapRow.transmitterId r, TrapRow.siteId r))
         (snmpTraps (snd (handleNotification exampleRuntime Examples.trapFromA
                            162 Examples.sharedHostWorld)))
     = [(Some "tx-a", Some "site-1")].
Proof. vm_compute. repeat split. Qed.

(** C5 on a state with one transmitter for the host: the trap is stored and
    attributed to it. *)
Lemma trap_attribution_witness :
  nthFault 1 Examples.gatedWorld = false
  /\ exists t,
       snmpTraps (snd (handleNotification exampleRuntime Examples.trapFromA
                         162 Examples.gatedWorld))
       = [TrapRow.mk t 0]
       /\ Trap.transmitterId t = Some "tx-a"
       /\ Trap.siteId t = Some "site-1".
Proof.
  split; [reflexivity|].
  destruct (trap_attribution exampleRuntime Examples.trapFromA 162
              Examples.gatedWorld eq_refl)
    as (t & _ & Hst & _ & _ & Hok).
  exists t. split; [exact Hst|].
  destruct (Hok eq_refl) as (_ & _ & Huniq).
  apply (Huniq Examples.txA).
  - now left.
  - reflexivity.
  - intros T' [<-|[]] _. reflexivity.
Defined.

End TrapFacts.

(* ================================================================== *)
(** ** Metric rows *)
(* ================================================================== *)

Module StoreFacts.
Import IoFacts.

Lemma upsertTransmitterName_run (id name : string) (w : World)
  (tx : Transmitter.t) :
  faults w = [] -> id <> "" -> lookupTransmitter w id = Some tx ->
  exists w',
    upsertTransmitterName id name w = (Ok (Transmitter.withName tx name), w')
    /\ faults w' = []
    /\ transmitterMetrics w' = transmitterMetrics w.
Proof.
  intros Hf Hid Htx.
  unfold upsertTransmitterName.
  apply String.eqb_neq in Hid. rewrite Hid. change (negb false) with true.
  io_step. rewrite roundtrip_run, (healthy_next w Hf). io_step.
  change (transmitters (afterRoundtrip w (SelectTransmitter id)))
    with (transmitters w).
  fold (lookupTransmitter w id). rewrite Htx. io_step.
  rewrite roundtrip_run, (healthy_next _ (healthy_after w _ Hf)). io_step.
  eexists. split; [reflexivity|].
  cbn [faults transmitterMetrics afterRoundtrip withFaults].
  rewrite Hf. split; reflexivity.
Qed.

Lemma insertMetric_run (row : MetricRow.t) (w : World) :
  faults w = [] ->
  existsb (samePrimaryKey row) (transmitterMetrics w) = false ->
  exists w',
    insertMetric row w = (Ok tt, w')
    /\ transmitterMetrics w' = transmitterMetrics w ++ [row].
Proof.
  intros Hf Hpk. unfold insertMetric. io_step.
  rewrite roundtrip_run, (healthy_next w Hf). io_step.
  change (transmitterMetrics (afterRoundtrip w _)) with (transmitterMetrics w).
  rewrite Hpk. eexists. split; reflexivity.
Qed.

Lemma deriveStatus_cases (d : JsObject) :
  MetricParser.deriveStatus d = "active"
  \/ MetricParser.deriveStatus d = "standby"
  \/ MetricParser.deriveStatus d = "offline".
Proof.
  unfold MetricParser.deriveStatus.
  destruct (MetricParser.getNumericValueForBase d MetricParser.statusBase13)
    as [v|].
  - destruct (PrimFloat.eqb v 1%float); auto.
  - destruct (MetricParser.getNumericValueForBase d MetricParser.statusBase12)
      as [v|]; auto.
    destruct (PrimFloat.eqb v 2%float); auto.
Qed.

Lemma metricValues_status (deviceId : string) (result : DeviceResult) :
  let s := MetricRow.status (metricValues deviceId result) in
  s = "active" \/ s = "standby" \/ s = "offline".
Proof.
  unfold metricValues. cbn [MetricRow.status].
  destruct (success result) eqn:Hs, (data result) as [d|] eqn:Hd.
  - rewrite (StatusDerivation.parse_status result d Hs Hd).
    apply deriveStatus_cases.
  - unfold MetricParser.parseSnmpData. rewrite Hs, Hd. auto.
  - unfold MetricParser.parseSnmpData. rewrite Hs. auto.
  - unfold MetricParser.parseSnmpData. rewrite Hs. auto.
Qed.

Lemma parse_failure (result : DeviceResult) :
  success result = false \/ data result = None ->
  MetricParser.parseSnmpData result = MetricParser.emptyMetrics.
Proof.
  unfold MetricParser.parseSnmpData.
  intros [-> | ->]; [reflexivity|]. now destruct (success result).
Qed.

(** C9.  A poll result is handed to [storeTransmitterMetrics] for a device
    whose transmitter exists, the storage answers and no row has the same
    (transmitter, timestamp) key.  Then exactly one row is appended, whatever
    the result; its status is "active", "standby" or "offline"; and when the
    result has [success = false] or carries no data, the row has status
    "offline", none of the metric fields, and the result's error message. *)
Theorem failed_poll_row (rt : Runtime) (deviceId : string)
  (result : DeviceResult) (w : World) (tx : Transmitter.t) :
  faults w = [] ->
  deviceId <> "" ->
  lookupTransmitter w deviceId = Some tx ->
  existsb (samePrimaryKey (metricValues deviceId result))
          (transmitterMetrics w) = false ->
  let out := storeTransmitterMetrics rt deviceId result w in
  let row := metricValues deviceId result in
  fst out = Ok tt
  /\ transmitterMetrics (snd out) = transmitterMetrics w ++ [row]
  /\ (MetricRow.status row = "active" \/ MetricRow.status row = "standby"
      \/ MetricRow.status row = "offline")
  /\ (success result = false \/ data result = None ->
      MetricRow.status row = "offline"
      /\ MetricRow.powerOutput row = None
      /\ MetricRow.frequency row = None
      /\ MetricRow.vswr row = None
      /\ MetricRow.temperature row = None
      /\ MetricRow.forwardPower row = None
      /\ MetricRow.reflectedPower row = None
      /\ MetricRow.errorMessage row = error result).
Proof.
  intros Hf Hid Htx Hpk out row.
  assert (Hrun : exists w',
             storeTransmitterMetrics rt deviceId result w = (Ok tt, w')
             /\ transmitterMetrics w' = transmitterMetrics w ++ [row]).
  { unfold storeTransmitterMetrics, rethrow, tryCatch.
    unfold bind at 1. rewrite roundtrip_run, (healthy_next w Hf).
    unfold bind at 1. unfold getWorld at 1. cbv beta iota.
    set (w1 := afterRoundtrip w (SelectTransmitter deviceId)).
    assert (Hf1 : faults w1 = []) by now apply healthy_after.
    change (transmitters w1) with (transmitters w).
    fold (lookupTransmitter w deviceId). rewrite Htx.
    assert (Hpre : exists w2,
      (match radioName rt result with
       | Some rn =>
           if negb (String.eqb rn "")
              && negb (String.eqb (Transmitter.name tx) rn)
           then upsertTransmitterName deviceId rn ;;; ret tt
           else ret tt
       | None => ret tt
       end) w1 = (Ok tt, w2)
      /\ faults w2 = [] /\ transmitterMetrics w2 = transmitterMetrics w).
    { destruct (radioName rt result) as [rn|]; [|now exists w1].
      destruct (_ && _); [|now exists w1].
      destruct (upsertTransmitterName_run deviceId rn w1 tx Hf1 Hid Htx)
        as (w2 & Hu & Hf2 & Hm2).
      exists w2. unfold bind. rewrite Hu. now split. }
    destruct Hpre as (w2 & Hpre & Hf2 & Hm2).
    unfold bind at 1. rewrite Hpre.
    rewrite <- Hm2 in Hpk.
    destruct (insertMetric_run _ w2 Hf2 Hpk) as (w3 & Hi & Hm3).
    fold row in Hi. fold row. rewrite Hi. exists w3. split; [reflexivity|].
    now rewrite Hm3, Hm2. }
  destruct Hrun as (w' & Hrun & Hm). subst out. rewrite Hrun.
  split; [reflexivity|]. split; [exact Hm|].
  split; [apply metricValues_status|].
  intros Hfail. subst row. unfold metricValues.
  rewrite (parse_failure result Hfail). repeat split.
Qed.

(** C9 on a timed-out poll of [tx-a]: one row, "offline", with the error. *)
Lemma failed_poll_row_witness :
  faults Examples.gatedWorld = []
  /\ "tx-a" <> ""
  /\ lookupTransmitter Examples.gatedWorld "tx-a" = Some Examples.txA
  /\ existsb (samePrimaryKey (metricValues "tx-a" Examples.failedPoll))
             (transmitterMetrics Examples.gatedWorld) = false
  /\ exists row,
       transmitterMetrics
         (snd (storeTransmitterMetrics exampleRuntime "tx-a"
                 Examples.failedPoll Examples.gatedWorld)) = [row]
       /\ MetricRow.status row = "offline"
       /\ MetricRow.forwardPower row = None
       /\ MetricRow.errorMessage row = Some "Request timed out".
Proof.
  assert (Hid : "tx-a" <> "") by discriminate.
  repeat (split; [first [reflexivity | exact Hid]|]).
  destruct (failed_poll_row exampleRuntime "tx-a" Examples.failedPoll
              Examples.gatedWorld Examples.txA eq_refl Hid eq_refl eq_refl)
    as (_ & Hrow & _ & Hfail).
  exists (metricValues "tx-a" Examples.failedPoll).
  split; [exact Hrow|].
  destruct (Hfail (or_introl eq_refl)) as (Hs & _ & _ & _ & _ & Hfw & _ & He).
  repeat split; assumption.
Defined.

End StoreFacts.

(* ================================================================== *)
(** ** The latest-traps query *)
(* ================================================================== *)

Module TrapQueryFacts.
Import IoFacts SortFacts.

Lemma getLatestTraps_run (params : TrapParams) (w : World) :
  nextFault w = false ->
  fst (getLatestTraps params w)
  = Ok (filter (trapMatches params)
               (newestTraps (Z.to_nat (effectiveLimit params)) w)).
Proof.
  intros Hf. unfold getLatestTraps, rethrow, tryCatch, bind.
  rewrite roundtrip_run, Hf. reflexivity.
Qed.

(** The rows selected by the limit are the newest ones: they are as many as
    the limit allows, in descending order, and none of the rows left out is
    newer than one of them. *)
Lemma newestTraps_spec (n : nat) (w : World) :
  exists older,
    Permutation (newestTraps n w ++ older) (snmpTraps w)
    /\ List.length (newestTraps n w) = Nat.min n (List.length (snmpTraps w))
    /\ StronglySorted notOlder (newestTraps n w)
    /\ (forall a b, In a (newestTraps n w) -> In b older -> notOlder a b).
Proof.
  unfold newestTraps.
  set (sorted := sortBy createdAtDesc (snmpTraps w)).
  assert (Hs : StronglySorted notOlder sorted)
    by apply (sortBy_key_sorted TrapRow.createdAt).
  exists (skipn n sorted). repeat split.
  - rewrite firstn_skipn. apply sortBy_perm.
  - rewrite length_firstn. unfold sorted.
    now rewrite (Permutation_length (sortBy_perm createdAtDesc (snmpTraps w))).
  - now apply (firstn_key_sorted TrapRow.createdAt).
  - apply (sorted_app_cross TrapRow.createdAt).
    now rewrite firstn_skipn.
Qed.

(** C10.  [getLatestTraps] first takes the newest [limit] rows by
    [created_at], where a missing or non-positive limit counts as 100, and
    only then keeps the rows that match the transmitter, site and source-host
    filters.  So there is a table and a filtered query that returns fewer
    than [limit] rows although an older matching trap is stored. *)
Theorem latest_traps_filter_after_limit :
  (forall params w,
      nextFault w = false ->
      exists rows newest older,
        fst (getLatestTraps params w) = Ok rows
        /\ rows = filter (trapMatches params) newest
        /\ Permutation (newest ++ older) (snmpTraps w)
        /\ List.length newest
           = Nat.min (Z.to_nat (effectiveLimit params))
                     (List.length (snmpTraps w))
        /\ StronglySorted notOlder newest
        /\ (forall a b, In a newest -> In b older -> notOlder a b))
  /\ (forall params,
        match p_limit params with
        | Some l => if (0 <? l)%Z then effectiveLimit params = l
                    else effectiveLimit params = 100%Z
        | None => effectiveLimit params = 100%Z
        end)
  /\ (exists params w rows older,
        nextFault w = false
        /\ fst (getLatestTraps params w) = Ok rows
        /\ (Z.of_nat (List.length rows) < effectiveLimit params)%Z
        /\ In older (snmpTraps w)
        /\ trapMatches params older = true
        /\ ~ In older rows).
Proof.
  split; [|split].
  - intros params w Hf.
    destruct (newestTraps_spec (Z.to_nat (effectiveLimit params)) w)
      as (older & Hp & Hl & Hs & Hc).
    exists (filter (trapMatches params)
              (newestTraps (Z.to_nat (effectiveLimit params)) w)),
           (newestTraps (Z.to_nat (effectiveLimit params)) w), older.
    split; [now apply getLatestTraps_run|]. repeat split; auto.
  - intros params. unfold effectiveLimit.
    destruct (p_limit params) as [l|]; [|reflexivity].
    destruct (0 <? l)%Z; reflexivity.
  - exists (mkTrapParams (Some 1%Z) None None (Some "10.0.0.5")),
           Examples.twoTraps, [], (Examples.hostTrap "10.0.0.5" 1).
    split; [reflexivity|]. split; [reflexivity|]. split; [reflexivity|].
    split; [now left|]. split; [reflexivity|]. intros [].
Qed.

(** C10 on two stored traps: with limit 1 and a filter on host 10.0.0.5 the
    newest row is the one from 10.0.0.9, and the answer is empty. *)
Lemma latest_traps_witness :
  let params := mkTrapParams (Some 1%Z) None None (Some "10.0.0.5") in
  nextFault Examples.twoTraps = false
  /\ fst (getLatestTraps params Examples.twoTraps) = Ok []
  /\ In (Examples.hostTrap "10.0.0.5" 1) (snmpTraps Examples.twoTraps).
Proof.
  intros params. split; [reflexivity|].
  destruct latest_traps_filter_after_limit as (Hrun & _ & _).
  destruct (Hrun params Examples.twoTraps eq_refl)
    as (rows & newest & older & Hok & _).
  split; [|now left].
  rewrite Hok. f_equal.
  assert (E : fst (getLatestTraps params Examples.twoTraps) = Ok [])
    by reflexivity.
  rewrite Hok in E. now injection E.
Defined.

End TrapQueryFacts.

(* ================================================================== *)
(** ** Contact information *)
(* ================================================================== *)

Module ContactFacts.

(** C8, as the code has it.  For a stored [contactInfo] that is a non-empty
    string: when [JSON.parse] of the trimmed string gives a non-null value
    of type object (an object or an array), that value is the contact; when
    it gives anything else or throws, the contact is
    [{technician: "", phone: "", email: <the original string>}].  The empty
    string gives [null], and so does every other falsy value (a stored
    [null], [undefined], [false], [0], [NaN]).  An object is left unchanged,
    as is every other truthy value that is not a string.  In particular the
    legacy string "alice@example.com", which is not JSON, becomes
    [{technician: "", phone: "", email: "alice@example.com"}]. *)
Theorem contact_normalization (rt : Runtime) (row : Site.t) :
  let c := Site.contactInfo row in
  let c' := Site.contactInfo (normalizeSite rt row) in
  (forall s, c = VStr s -> s <> "" ->
     (forall v, JSON_parse rt (JsString.trim s) = Some v ->
                truthy v && typeofObject v = true -> c' = v)
     /\ (forall v, JSON_parse rt (JsString.trim s) = Some v ->
                   truthy v && typeofObject v = false ->
                   c' = legacyContact (VStr s))
     /\ (JSON_parse rt (JsString.trim s) = None ->
         c' = legacyContact (VStr s)))
  /\ (c = VStr "" -> c' = VNull)
  /\ (truthy c = false -> c' = VNull)
  /\ (c = VNull -> c' = VNull)
  /\ (forall props, c = VObj props -> c' = VObj props)
  /\ (truthy c = true -> (forall s, c <> VStr s) -> c' = c)
  /\ (c = VStr "alice@example.com" ->
      JSON_parse rt "alice@example.com" = None ->
      c' = VObj [("technician", VStr ""); ("phone", VStr "");
                 ("email", VStr "alice@example.com")]).
Proof.
  cbv zeta. unfold normalizeSite. cbn [Site.contactInfo].
  split; [|split; [|split; [|split; [|split; [|split]]]]].
  - intros s -> Hs. unfold normalizeContact. cbn [truthy].
    apply String.eqb_neq in Hs. rewrite Hs. cbn [negb].
    repeat split.
    + intros v -> ->. reflexivity.
    + intros v -> ->. reflexivity.
    + intros ->. reflexivity.
  - intros ->. reflexivity.
  - intros Hc. unfold normalizeContact. now rewrite Hc.
  - intros ->. reflexivity.
  - intros props ->. reflexivity.
  - intros Hc Hs. unfold normalizeContact. rewrite Hc.
    destruct (Site.contactInfo row); try reflexivity. now elim (Hs s).
  - intros -> Hp. unfold normalizeContact. cbn [truthy String.eqb negb].
    replace (JsString.trim "alice@example.com") with "alice@example.com"
      by (vm_compute; reflexivity).
    rewrite Hp. reflexivity.
Qed.

(** C8 as stated fails.  The empty string is a string and is not valid JSON,
    yet the normalized contact is [null], not the synthesized object. *)
Lemma contact_empty_string_counterexample :
  let row := Site.mk "site-1" "Bukit Lanjan" (VStr "") (Some true) in
  Json.parse "" = None
  /\ Site.contactInfo (normalizeSite exampleRuntime row) = VNull
  /\ Site.contactInfo (normalizeSite exampleRuntime row)
     <> VObj [("technician", VStr ""); ("phone", VStr ""); ("email", VStr "")].
Proof.
  cbv zeta. split; [reflexivity|]. split; [reflexivity|].
  vm_compute. discriminate.
Qed.

(** C8 on the legacy string of the specification. *)
Lemma contact_normalization_witness :
  let row := Site.mk "site-1" "Bukit Lanjan" (VStr "alice@example.com")
                     (Some true) in
  Site.contactInfo row = VStr "alice@example.com"
  /\ JSON_parse exampleRuntime "alice@example.com" = None
  /\ Site.contactInfo (normalizeSite exampleRuntime row)
     = VObj [("technician", VStr ""); ("phone", VStr "");
             ("email", VStr "alice@example.com")].
Proof.
  intros row. split; [reflexivity|]. split; [reflexivity|].
  destruct (contact_normalization exampleRuntime row)
    as (_ & _ & _ & _ & _ & _ & H).
  apply H; reflexivity.
Defined.

End ContactFacts.

(* ================================================================== *)
(** ** OID resolution of the metric parser *)
(* ================================================================== *)

(* ================================================================== *)
(** ** OID resolution and the metric loop *)
(* ================================================================== *)

Module ResolveFacts.
Import JsString JsStringFacts MetricParser.
#[local] Open Scope string_scope.

Lemma take_append (p r : string) : take (String.length p) (p ++ r) = p.
Proof. induction p as [|c p IH]; simpl; [now destruct r | now rewrite IH]. Qed.

Lemma take_drop (n : nat) (s : string) : take n s ++ drop n s = s.
Proof.
  revert s; induction n as [|n IH]; intros s; simpl; [reflexivity|].
  destruct s as [|c s]; simpl; [reflexivity | now rewrite IH].
Qed.

Lemma endsWith_append (s t : string) : endsWith (s ++ t) t = true.
Proof.
  unfold endsWith. rewrite length_append.
  replace (String.length s + String.length t - String.length t)
    with (String.length s) by lia.
  rewrite drop_append, String.eqb_refl.
  replace (String.length t <=? String.length s + String.length t)%nat
    with true by (symmetry; apply Nat.leb_le; lia).
  reflexivity.
Qed.

Lemma endsWith_inv (s t : string) :
  endsWith s t = true ->
  s = take (String.length s - String.length t) s ++ t.
Proof.
  unfold endsWith. intros H. apply andb_true_iff in H as [_ H].
  apply String.eqb_eq in H.
  set (n := String.length s - String.length t) in *.
  rewrite <- H. symmetry. apply take_drop.
Qed.

Lemma slice_append_dot0 (s : string) : slice_0_m2 (s ++ ".0") = s.
Proof.
  unfold slice_0_m2. rewrite length_append. simpl.
  replace (String.length s + 2 - 2) with (String.length s) by lia.
  apply take_append.
Qed.

Lemma slice_dot0 (s : string) :
  endsWith s ".0" = true -> s = slice_0_m2 s ++ ".0".
Proof. intros H. now apply endsWith_inv in H. Qed.

Lemma lastIndexOfDot_dotFree (seg : string) :
  dotFree seg = true -> lastIndexOfDot seg = None.
Proof.
  induction seg as [|c seg IH]; simpl; [reflexivity|].
  intros H. apply andb_true_iff in H as [Hc Hs].
  rewrite (IH Hs). now destruct (Ascii.eqb c ".").
Qed.

Lemma lastIndexOfDot_append (b seg : string) :
  dotFree seg = true ->
  lastIndexOfDot (b ++ "." ++ seg) = Some (String.length b).
Proof.
  intros Hs. induction b as [|c b IH]; simpl in *.
  - now rewrite (lastIndexOfDot_dotFree seg Hs).
  - now rewrite IH.
Qed.

Lemma lastIndexOfDot_inv (s : string) (i : nat) :
  lastIndexOfDot s = Some i ->
  exists seg, dotFree seg = true /\ s = take i s ++ "." ++ seg.
Proof.
  revert i; induction s as [|c s IH]; intros i; simpl; [discriminate|].
  destruct (lastIndexOfDot s) as [j|] eqn:E.
  - intros [= <-]. destruct (IH j eq_refl) as (seg & Hd & Hs).
    exists seg. split; [exact Hd|]. simpl. f_equal. exact Hs.
  - destruct (Ascii.eqb c ".") eqn:Ec; [|discriminate].
    intros [= <-]. apply Ascii.eqb_eq in Ec. subst c.
    exists s. split; [|reflexivity].
    clear IH. induction s as [|d s IHs]; simpl in *; [reflexivity|].
    destruct (lastIndexOfDot s); [discriminate|].
    destruct (Ascii.eqb d "."); [discriminate|]. now rewrite IHs.
Qed.

Lemma parentOf_append (b seg : string) :
  dotFree seg = true -> parentOf (b ++ "." ++ seg) = Some b.
Proof.
  intros Hs. unfold parentOf. rewrite (lastIndexOfDot_append b seg Hs).
  now rewrite take_append.
Qed.

Lemma parentOf_inv (s parent : string) :
  parentOf s = Some parent ->
  exists seg, dotFree seg = true /\ s = parent ++ "." ++ seg.
Proof.
  unfold parentOf. destruct (lastIndexOfDot s) as [i|] eqn:E; [|discriminate].
  intros [= <-]. now apply lastIndexOfDot_inv.
Qed.

(** A string that ends in a dot-free component ends in [.0] only when that
    component is [0]. *)
Lemma endsWith_dot0_component (b seg : string) :
  dotFree seg = true ->
  endsWith (b ++ "." ++ seg) ".0" = true -> seg = "0".
Proof.
  intros Hs He.
  assert (Hp : exists p, b ++ "." ++ seg = p ++ "." ++ "0").
  { eexists. apply endsWith_inv in He. exact He. }
  destruct Hp as (p & Hp).
  assert (Hb : Some b = Some p).
  { rewrite <- (parentOf_append b seg Hs), Hp.
    now apply parentOf_append. }
  injection Hb as <-.
  clear -Hp. induction b as [|c b IH]; simpl in Hp.
  - now injection Hp.
  - injection Hp as Hp. now apply IH.
Qed.

Lemma oidBaseMappings_inv (base : string) (m : MetricName) :
  oidBaseMappings base = Some m ->
  (base = "1.3.6.1.4.1.31946.4.2.6.10.1" /\ m = ForwardPower)
  \/ (base = "1.3.6.1.4.1.31946.4.2.6.10.2" /\ m = ReflectedPower)
  \/ (base = "1.3.6.1.4.1.31946.4.2.6.10.14" /\ m = Frequency).
Proof.
  unfold oidBaseMappings.
  destruct (String.eqb base "1.3.6.1.4.1.31946.4.2.6.10.1") eqn:E1.
  { apply String.eqb_eq in E1. intros [= <-]. auto. }
  destruct (String.eqb base "1.3.6.1.4.1.31946.4.2.6.10.2") eqn:E2.
  { apply String.eqb_eq in E2. intros [= <-]. auto. }
  destruct (String.eqb base "1.3.6.1.4.1.31946.4.2.6.10.14") eqn:E3.
  { apply String.eqb_eq in E3. intros [= <-]. auto. }
  discriminate.
Qed.

(** No mapped base is another mapped base followed by a dot, and none is the
    sysUpTime OID. *)
Lemma base_extension_unmapped (base : string) (m : MetricName) (rest : string) :
  oidBaseMappings base = Some m ->
  oidBaseMappings (base ++ "." ++ rest) = None
  /\ directOidMappings (base ++ "." ++ rest) = None
  /\ directOidMappings base = None.
Proof.
  intros H.
  destruct (oidBaseMappings_inv base m H) as [[-> _]|[[-> _]|[-> _]]];
    repeat split; reflexivity.
Qed.

Lemma resolve_steps (oid : string) :
  resolveMetricName oid
  = match directOidMappings oid with
    | Some n => Some n
    | None =>
        match oidBaseMappings oid with
        | Some n => Some n
        | None =>
            let withoutZero :=
              if endsWith oid ".0" then slice_0_m2 oid else oid in
            match oidBaseMappings withoutZero with
            | Some n => Some n
            | None =>
                match parentOf withoutZero with
                | Some parent =>
                    match oidBaseMappings parent with
                    | Some n => Some n
                    | None =>
                        if endsWith oid ".0"
                        then match parentOf (slice_0_m2 oid) with
                             | Some parent2 => oidBaseMappings parent2
                             | None => None
                             end
                        else None
                    end
                | None =>
                    if endsWith oid ".0"
                    then match parentOf (slice_0_m2 oid) with
                         | Some parent2 => oidBaseMappings parent2
                         | None => None
                         end
                    else None
                end
            end
        end
    end.
Proof.
  unfold resolveMetricName, orElse. cbv zeta.
  destruct (directOidMappings oid); [reflexivity|].
  destruct (oidBaseMappings oid); [reflexivity|].
  destruct (oidBaseMappings (if endsWith oid ".0" then slice_0_m2 oid else oid));
    [reflexivity|].
  destruct (parentOf (if endsWith oid ".0" then slice_0_m2 oid else oid))
    as [parent|]; [|reflexivity].
  destruct (oidBaseMappings parent); reflexivity.
Qed.

(** X1.  An OID that names a mapped base directly, as [base.0], under one
    further component [base.<seg>], or as [base.<seg>.0], resolves to the
    metric of that base. *)
Theorem resolve_known_forms (base oid : string) (m : MetricName) :
  oidBaseMappings base = Some m -> metricForm base oid ->
  resolveMetricName oid = Some m.
Proof.
  intros Hb Hform. rewrite resolve_steps. cbv zeta.
  destruct Hform as [->|[->|(seg & Hs & [->| ->])]].
  - destruct (base_extension_unmapped base m "" Hb) as (_ & _ & ->).
    now rewrite Hb.
  - destruct (base_extension_unmapped base m "0" Hb) as (H1 & H2 & _).
    change (base ++ ".0") with (base ++ "." ++ "0").
    rewrite H2, H1.
    change (base ++ "." ++ "0") with (base ++ ".0").
    now rewrite endsWith_append, slice_append_dot0, Hb.
  - destruct (base_extension_unmapped base m seg Hb) as (H1 & H2 & _).
    rewrite H2, H1.
    destruct (endsWith (base ++ "." ++ seg) ".0") eqn:He.
    + rewrite (endsWith_dot0_component base seg Hs He).
      change (base ++ "." ++ "0") with (base ++ ".0").
      now rewrite slice_append_dot0, Hb.
    + now rewrite H1, (parentOf_append base seg Hs), Hb.
  - destruct (base_extension_unmapped base m (seg ++ ".0") Hb)
      as (H1 & H2 & _).
    destruct (base_extension_unmapped base m seg Hb) as (H3 & _ & _).
    rewrite H2, H1.
    replace (base ++ "." ++ seg ++ ".0") with ((base ++ "." ++ seg) ++ ".0")
      by (now rewrite !append_assoc).
    now rewrite endsWith_append, slice_append_dot0, H3,
                (parentOf_append base seg Hs), Hb.
Qed.

(** X2.  Nothing else resolves: an OID with a metric is the sysUpTime OID
    (power output) or one of the four forms of a mapped base. *)
Theorem resolve_sound (oid : string) (m : MetricName) :
  resolveMetricName oid = Some m ->
  (oid = "1.3.6.1.2.1.1.3.0" /\ m = PowerOutput)
  \/ exists base, oidBaseMappings base = Some m /\ metricForm base oid.
Proof.
  rewrite resolve_steps. cbv zeta.
  destruct (directOidMappings oid) as [n|] eqn:Ed.
  { intros [= <-]. left. unfold directOidMappings in Ed.
    destruct (String.eqb oid "1.3.6.1.2.1.1.3.0") eqn:E; [|discriminate].
    apply String.eqb_eq in E. injection Ed as <-. now split. }
  destruct (oidBaseMappings oid) as [n|] eqn:Eb.
  { intros [= <-]. right. exists oid. split; [exact Eb | now left]. }
  assert (Hparent : forall wz,
            (oid = wz \/ oid = wz ++ ".0") ->
            match parentOf wz with
            | Some parent => oidBaseMappings parent
            | None => None
            end = Some m ->
            exists base, oidBaseMappings base = Some m /\ metricForm base oid).
  { intros wz Hwz Hp.
    destruct (parentOf wz) as [parent|] eqn:Ep; [|discriminate].
    destruct (parentOf_inv wz parent Ep) as (seg & Hs & ->).
    exists parent. split; [exact Hp|]. right. right. exists seg.
    split; [exact Hs|].
    destruct Hwz as [->| ->]; [now left | right].
    now rewrite !append_assoc. }
  destruct (endsWith oid ".0") eqn:He.
  - pose proof (slice_dot0 oid He) as Hoid.
    destruct (oidBaseMappings (slice_0_m2 oid)) as [n|] eqn:Ez.
    { intros [= <-]. right. exists (slice_0_m2 oid).
      split; [exact Ez|]. right. now left. }
    destruct (parentOf (slice_0_m2 oid)) as [parent|] eqn:Ep.
    + destruct (oidBaseMappings parent) as [n|] eqn:En.
      * intros [= <-]. right. apply (Hparent (slice_0_m2 oid)); [now right|].
        now rewrite Ep.
      * intros H. right. apply (Hparent (slice_0_m2 oid)); [now right|].
        now rewrite Ep.
    + discriminate.
  - rewrite Eb.
    destruct (parentOf oid) as [parent|] eqn:Ep; [|discriminate].
    destruct (oidBaseMappings parent) as [n|] eqn:En; [|discriminate].
    intros [= <-]. right. apply (Hparent oid); [now left|]. now rewrite Ep.
Qed.

Lemma resolve_known_forms_witness :
  oidBaseMappings "1.3.6.1.4.1.31946.4.2.6.10.14" = Some Frequency
  /\ metricForm "1.3.6.1.4.1.31946.4.2.6.10.14"
                "1.3.6.1.4.1.31946.4.2.6.10.14.4.0"
  /\ resolveMetricName "1.3.6.1.4.1.31946.4.2.6.10.14.4.0" = Some Frequency.
Proof.
  assert (Hform : metricForm "1.3.6.1.4.1.31946.4.2.6.10.14"
                             "1.3.6.1.4.1.31946.4.2.6.10.14.4.0").
  { right. right. exists "4". split; [reflexivity|]. right. reflexivity. }
  split; [reflexivity|]. split; [exact Hform|].
  exact (resolve_known_forms "1.3.6.1.4.1.31946.4.2.6.10.14"
           "1.3.6.1.4.1.31946.4.2.6.10.14.4.0" Frequency eq_refl Hform).
Defined.

Lemma resolve_sound_witness :
  resolveMetricName "1.3.6.1.4.1.31946.4.2.6.10.2.7" = Some ReflectedPower
  /\ (("1.3.6.1.4.1.31946.4.2.6.10.2.7" = "1.3.6.1.2.1.1.3.0"
       /\ ReflectedPower = PowerOutput)
      \/ exists base,
           oidBaseMappings base = Some ReflectedPower
           /\ metricForm base "1.3.6.1.4.1.31946.4.2.6.10.2.7").
Proof.
  split; [reflexivity|].
  exact (resolve_sound "1.3.6.1.4.1.31946.4.2.6.10.2.7" ReflectedPower
           eq_refl).
Defined.

End ResolveFacts.

(* ================================================================== *)
(** ** The metric loop of the parser *)
(* ================================================================== *)

Module ParserFacts.

Import MetricParser.

Lemma assignEntry_hit (m : Metrics) (oid : string) (v : float)
  (name : MetricName) :
  resolveMetricName oid = Some name ->
  metricField name (assignEntry m (oid, VNum v)) = Some (scaled name v).
Proof.
  intros H. unfold assignEntry. cbn [fst snd]. rewrite H.
  destruct name; reflexivity.
Qed.

Lemma assignEntry_miss (m : Metrics) (oid : string) (val : JsValue)
  (name : MetricName) :
  (forall v, val = VNum v -> resolveMetricName oid <> Some name) ->
  metricField name (assignEntry m (oid, val)) = metricField name m.
Proof.
  intros H. unfold assignEntry. cbn [fst snd].
  destruct (resolveMetricName oid) as [n|]; [|reflexivity].
  destruct val; try (destruct n; reflexivity).
  destruct n, name; try reflexivity; exfalso; eapply H; reflexivity.
Qed.

Lemma assignEntry_other_fields (m : Metrics) (e : string * JsValue) :
  temperature (assignEntry m e) = temperature m
  /\ vswr (assignEntry m e) = vswr m
  /\ status (assignEntry m e) = status m.
Proof.
  unfold assignEntry.
  destruct (resolveMetricName (fst e)) as [n|]; [|now repeat split].
  destruct (snd e); destruct n; now repeat split.
Qed.

Lemma fold_other_fields (es : list (string * JsValue)) (m : Metrics) :
  temperature (fold_left assignEntry es m) = temperature m
  /\ vswr (fold_left assignEntry es m) = vswr m
  /\ status (fold_left assignEntry es m) = status m.
Proof.
  revert m. induction es as [|e es IH]; intros m; [now repeat split|].
  cbn [fold_left]. destruct (IH (assignEntry m e)) as (-> & -> & ->).
  apply assignEntry_other_fields.
Qed.

Lemma fold_lastReading (name : MetricName) (es : list (string * JsValue))
  (m0 : Metrics) :
  metricField name m0 = None ->
  lastReading name es (metricField name (fold_left assignEntry es m0)).
Proof.
  intros H0. induction es as [|[oid val] es IH] using rev_ind.
  - cbn [fold_left]. rewrite H0. intros oid v [].
  - rewrite fold_left_app. cbn [fold_left].
    assert (Hdec : (exists v, val = VNum v
                              /\ resolveMetricName oid = Some name)
                   \/ (forall v, val = VNum v ->
                                 resolveMetricName oid <> Some name)).
    { destruct val; try solve [right; intros v [=]].
      destruct (resolveMetricName oid) as [n|];
        [|right; intros v _ [=]].
      destruct n, name;
        try solve [left; eexists; split; reflexivity];
        right; intros v _ [=]. }
    destruct Hdec as [(v & -> & Hr)|Hmiss].
    + rewrite (assignEntry_hit _ oid v name Hr).
      exists es, oid, v, []. repeat split; try assumption.
      intros oid' v' [].
    + rewrite (assignEntry_miss _ oid val name Hmiss).
      destruct (metricField name (fold_left assignEntry es m0)) as [x|].
      * destruct IH as (d1 & oid1 & v1 & d2 & -> & Hr & -> & Hlater).
        exists d1, oid1, v1, (d2 ++ [(oid, val)]).
        split; [now rewrite <- app_assoc|].
        split; [assumption|]. split; [reflexivity|].
        intros oid' v' Hin. apply in_app_or in Hin.
        destruct Hin as [Hin|[[= -> ->]|[]]];
          [now apply (Hlater oid' v') | now apply (Hmiss v')].
      * intros oid' v' Hin. apply in_app_or in Hin.
        destruct Hin as [Hin|[[= -> ->]|[]]];
          [now apply (IH oid' v') | now apply (Hmiss v')].
Qed.

Lemma deriveVswr_field (name : MetricName) (m : Metrics) :
  metricField name (deriveVswr m) = metricField name m.
Proof.
  unfold deriveVswr.
  destruct (forwardPower m) eqn:Ef, (reflectedPower m) eqn:Er;
    try reflexivity.
  destruct (_ && _); [|reflexivity].
  destruct name; cbn; congruence.
Qed.

(** X3.  For a successful poll with data [d], each of the four mapped
    metrics of the parsed record holds the value of the last numeric entry
    of [d] whose OID resolves to that metric (divided by 100 for the
    frequency), and is absent exactly when [d] has no such entry. *)
Theorem parsed_metric_is_last_reading (r : DeviceResult) (d : JsObject)
  (name : MetricName) :
  success r = true -> data r = Some d ->
  lastReading name d (metricField name (parseSnmpData r)).
Proof.
  intros Hs Hd. unfold parseSnmpData. rewrite Hs, Hd. cbv zeta.
  rewrite deriveVswr_field. unfold entries.
  apply fold_lastReading. destruct name; reflexivity.
Qed.

(** X4.  The parser never reports a temperature, whatever the poll
    returned, and a failed or empty poll yields no metric at all. *)
Theorem parser_never_sets_temperature (r : DeviceResult) :
  temperature (parseSnmpData r) = None
  /\ ((success r = false \/ data r = None) ->
      forall name, metricField name (parseSnmpData r) = None).
Proof.
  unfold parseSnmpData. split.
  - destruct (success r); [|reflexivity].
    destruct (data r) as [d|]; [|reflexivity]. cbv zeta.
    transitivity
      (temperature
         (fold_left assignEntry (entries d)
                    (withStatus emptyMetrics (deriveStatus d)))).
    + generalize (fold_left assignEntry (entries d)
                    (withStatus emptyMetrics (deriveStatus d))).
      intros m. unfold deriveVswr.
      destruct (forwardPower m), (reflectedPower m); try reflexivity.
      destruct (_ && _); reflexivity.
    + now destruct (fold_other_fields (entries d)
                      (withStatus emptyMetrics (deriveStatus d))) as (-> & _).
  - intros [H|H] name; rewrite H.
    + destruct name; reflexivity.
    + destruct (success r); destruct name; reflexivity.
Qed.

Lemma parsed_metric_is_last_reading_witness :
  lastReading Frequency
    [("1.3.6.1.4.1.31946.4.2.6.10.14.4", VNum 9870);
     ("1.3.6.1.4.1.31946.4.2.6.10.14.0", VNum 10110)]
    (metricField Frequency
       (parseSnmpData
          (mkDeviceResult "tx" 0 true
             (Some [("1.3.6.1.4.1.31946.4.2.6.10.14.4", VNum 9870);
                    ("1.3.6.1.4.1.31946.4.2.6.10.14.0", VNum 10110)])
             None))).
Proof.
  apply (parsed_metric_is_last_reading
           (mkDeviceResult "tx" 0 true
             (Some [("1.3.6.1.4.1.31946.4.2.6.10.14.4", VNum 9870);
                    ("1.3.6.1.4.1.31946.4.2.6.10.14.0", VNum 10110)])
             None)); reflexivity.
Defined.

End ParserFacts.

(* ================================================================== *)
(** ** Site normalization, again *)
(* ================================================================== *)

Module SiteFacts.

Section WithRuntime.

Variable rt : Runtime.

Lemma normalizeContact_settled (c : JsValue) :
  normalizeContact rt c = VNull
  \/ (truthy (normalizeContact rt c) = true
      /\ forall s, normalizeContact rt c <> VStr s).
Proof.
  unfold normalizeContact.
  destruct (truthy c) eqn:Ht; [|now left].
  destruct c; try (right; split; [exact Ht | intros s; discriminate]).
  destruct (JSON_parse rt (JsString.trim s)) as [parsed|];
    [|right; split; [reflexivity | intros s'; discriminate]].
  destruct (truthy parsed && typeofObject parsed) eqn:Hp;
    [|right; split; [reflexivity | intros s'; discriminate]].
  apply andb_prop in Hp. destruct Hp as [Hp1 Hp2].
  right. split; [exact Hp1|]. intros s' ->. discriminate.
Qed.

Lemma normalizeContact_fixed (c : JsValue) :
  normalizeContact rt (normalizeContact rt c) = normalizeContact rt c.
Proof.
  destruct (normalizeContact_settled c) as [->|[Ht Hs]]; [reflexivity|].
  revert Ht Hs. generalize (normalizeContact rt c). intros v Ht Hs.
  unfold normalizeContact. rewrite Ht.
  destruct v; try reflexivity. now elim (Hs s).
Qed.

(** X5.  Site normalization is idempotent, whatever [JSON.parse] answers:
    a normalized row is left as it is by a further normalization, and its
    contact is never a string (it is null or an object, array or the like). *)
Theorem normalizeSite_idempotent (row : Site.t) :
  normalizeSite rt (normalizeSite rt row) = normalizeSite rt row
  /\ (forall s, Site.contactInfo (normalizeSite rt row) <> VStr s)
  /\ Site.id (normalizeSite rt row) = Site.id row
  /\ Site.name (normalizeSite rt row) = Site.name row
  /\ Site.isActive (normalizeSite rt row) = Site.isActive row.
Proof.
  unfold normalizeSite. cbn [Site.id Site.name Site.contactInfo Site.isActive].
  rewrite normalizeContact_fixed. split; [reflexivity|].
  split; [|now repeat split].
  intros s. destruct (normalizeContact_settled (Site.contactInfo row))
    as [->|[_ H]]; [discriminate | apply H].
Qed.

End WithRuntime.

End SiteFacts.

(* ================================================================== *)
(** ** What storing metrics may change *)
(* ================================================================== *)

Module StoreFrame.
Import IoFacts.

Lemma sameTables_refl (w : World) : sameTables w w.
Proof. now repeat split. Qed.

Lemma sameTables_afterRoundtrip (w : World) (q : Query) :
  sameTables w (afterRoundtrip w q).
Proof. now repeat split. Qed.

Lemma sameTables_renamedOnly (w w' : World) :
  sameTables w w' -> renamedOnly w w'.
Proof. intros (H1 & H2 & H3 & H4 & H5). unfold renamedOnly. now rewrite H1. Qed.

Lemma map_unnamed_rename (id name : string) (l : list Transmitter.t) :
  map unnamed
      (map (fun t => if String.eqb (Transmitter.id t) id
                     then Transmitter.withName t name else t) l)
  = map unnamed l.
Proof.
  rewrite map_map. apply map_ext. intros t.
  now destruct (String.eqb (Transmitter.id t) id).
Qed.

Lemma upsertTransmitterName_frame (id name : string) (w : World) :
  renamedOnly w (snd (upsertTransmitterName id name w)).
Proof.
  unfold upsertTransmitterName.
  destruct (negb (String.eqb id "")).
  - io_step. rewrite roundtrip_run.
    destruct (nextFault w); [now repeat split|]. io_step.
    destruct (find _ _) as [tx|].
    + io_step. rewrite roundtrip_run.
      destruct (nextFault _); [now repeat split|]. io_step.
      unfold renamedOnly. cbn [snd transmitters sites transmitterMetrics
                               snmpTraps now afterRoundtrip withFaults].
      rewrite map_unnamed_rename. now repeat split.
    + io_step. rewrite roundtrip_run.
      destruct (nextFault _); now repeat split.
  - io_step. rewrite roundtrip_run.
    destruct (nextFault _); now repeat split.
Qed.

Lemma insertMetric_frame (row : MetricRow.t) (w : World) :
  metricsStoreStep row w (snd (insertMetric row w)).
Proof.
  unfold insertMetric. io_step. rewrite roundtrip_run.
  destruct (nextFault w); [unfold metricsStoreStep; now auto 6|].
  change (transmitterMetrics (afterRoundtrip w _))
    with (transmitterMetrics w).
  destruct (existsb _ _) eqn:Hpk; unfold metricsStoreStep; cbn; auto 7.
Qed.

Lemma renamedOnly_then_insert (row : MetricRow.t) (w w1 w2 : World) :
  renamedOnly w w1 -> metricsStoreStep row w1 w2 -> metricsStoreStep row w w2.
Proof.
  intros (H1 & H2 & H3 & H4 & H5) (G1 & G2 & G3 & G4 & G5).
  unfold metricsStoreStep. rewrite G1, G2, G3, G4, H1, H2, H4, H5.
  rewrite H3 in G5. now repeat split.
Qed.

(** X6.  Whatever the storage does (any round-trip may throw),
    [storeTransmitterMetrics] leaves sites, traps and the clock alone, changes
    at most names of transmitters, and appends at most the one metric row of
    the result, under a primary key that was free; when the device has no
    transmitter row it changes nothing at all. *)
Theorem store_metrics_frame (rt : Runtime) (deviceId : string)
  (result : DeviceResult) (w : World) :
  let w' := snd (storeTransmitterMetrics rt deviceId result w) in
  metricsStoreStep (metricValues deviceId result) w w'
  /\ (lookupTransmitter w deviceId = None -> sameTables w w').
Proof.
  cbv zeta. pattern (snd (storeTransmitterMetrics rt deviceId result w)).
  match goal with |- ?P _ => set (Q := P) end.
  unfold storeTransmitterMetrics, rethrow, tryCatch.
  unfold bind at 1. rewrite roundtrip_run.
  destruct (nextFault w).
  { subst Q. split; [|intros _; apply sameTables_afterRoundtrip].
    unfold metricsStoreStep; now auto 6. }
  unfold bind at 1. unfold getWorld at 1. cbv beta iota.
  set (w1 := afterRoundtrip w (SelectTransmitter deviceId)).
  change (transmitters w1) with (transmitters w).
  fold (lookupTransmitter w deviceId).
  destruct (lookupTransmitter w deviceId) as [tx0|].
  2:{ subst Q. split; [|intros _; apply sameTables_afterRoundtrip].
      unfold metricsStoreStep; now auto 6. }
  subst Q. cbv beta. split; [|discriminate].
  set (pre := match radioName rt result with
              | Some rn =>
                  if negb (String.eqb rn "")
                     && negb (String.eqb (Transmitter.name tx0) rn)
                  then upsertTransmitterName deviceId rn ;;; ret tt
                  else ret tt
              | None => ret tt
              end).
  assert (Hpre : renamedOnly w (snd (pre w1))).
  { subst pre. destruct (radioName rt result) as [rn|];
      [|now apply sameTables_renamedOnly, sameTables_afterRoundtrip].
    destruct (_ && _);
      [|now apply sameTables_renamedOnly, sameTables_afterRoundtrip].
    pose proof (upsertTransmitterName_frame deviceId rn w1) as H.
    unfold bind. destruct (upsertTransmitterName deviceId rn w1) as [[a|e] w2];
      exact H. }
  unfold bind. destruct (pre w1) as [[[]|e] w2]; cbn [snd] in Hpre.
  - pose proof (insertMetric_frame (metricValues deviceId result) w2) as Hi.
    destruct (insertMetric (metricValues deviceId result) w2) as [[a|e] w3];
      cbn [snd] in *; exact (renamedOnly_then_insert _ _ _ _ Hpre Hi).
  - cbn [snd]. destruct Hpre as (H1 & H2 & H3 & H4 & H5).
    unfold metricsStoreStep. now auto 6.
Qed.

End StoreFrame.

(* ================================================================== *)
(** ** The newest rows of a table *)
(* ================================================================== *)

Module TopFacts.
Import SortFacts.

Lemma find_split {A : Type} (f : A -> bool) (l : list A) (x : A) :
  find f l = Some x ->
  exists pre post, l = pre ++ x :: post /\ f x = true
                   /\ forall y, In y pre -> f y = false.
Proof.
  induction l as [|y l IH]; [discriminate|]. cbn [find].
  destruct (f y) eqn:E.
  - intros [= ->]. exists [], l. repeat split; [exact E|]. intros z [].
  - intros H. destruct (IH H) as (pre & post & -> & Hx & Hpre).
    exists (y :: pre), post. repeat split; [exact Hx|].
    intros z [<-|Hz]; [exact E | now apply Hpre].
Qed.

Section ByKey.

Context {A : Type} (key : A -> Z).

Lemma newestOf_firstn_sortBy (n : nat) (l : list A) :
  newestOf key n l
    (firstn n (sortBy (fun a b => (key b <=? key a)%Z) l)).
Proof.
  set (s := sortBy (fun a b => (key b <=? key a)%Z) l).
  assert (Hs : StronglySorted (fun a b => (key b <= key a)%Z) s)
    by apply (sortBy_key_sorted key).
  assert (Hp : Permutation s l) by apply sortBy_perm.
  split; [now apply (firstn_key_sorted key)|].
  split; [now rewrite length_firstn, (Permutation_length Hp)|].
  exists (skipn n s). rewrite firstn_skipn. split; [exact Hp|].
  rewrite <- (firstn_skipn n s) in Hs.
  apply (sorted_app_cross key _ _ Hs).
Qed.

Lemma newestOf_all (n : nat) (l rows : list A) :
  newestOf key n l rows -> List.length l <= n -> Permutation rows l.
Proof.
  intros (_ & Hlen & rest & Hp & _) Hn.
  pose proof (Permutation_length Hp) as Hl. rewrite length_app in Hl.
  assert (rest = []) by (destruct rest; [reflexivity | simpl in Hl; lia]).
  subst rest. now rewrite app_nil_r in Hp.
Qed.

Lemma newestOf_In (n : nat) (l rows : list A) (x : A) :
  newestOf key n l rows -> In x rows -> In x l.
Proof.
  intros (_ & _ & rest & Hp & _) Hx.
  eapply Permutation_in; [exact Hp|]. apply in_or_app. now left.
Qed.

Lemma head_sortBy_newest (l : list A) (x : A) :
  (forall y, In y l -> (key y < key x)%Z) ->
  exists t, sortBy (fun a b => (key b <=? key a)%Z) (l ++ [x]) = x :: t.
Proof.
  induction l as [|y l IH]; intros H; [now exists []|].
  destruct IH as [t Ht]; [intros z Hz; apply H; now right|].
  cbn [app sortBy fold_right]. fold (sortBy (fun a b => (key b <=? key a)%Z)
                                        (l ++ [x])).
  rewrite Ht. cbn [insertBy].
  assert (Hy : (key y < key x)%Z) by (apply H; now left).
  destruct (Z.leb_spec (key x) (key y)); [lia|]. eauto.
Qed.

End ByKey.

End TopFacts.

Module MetricQueryFacts.
Import IoFacts SortFacts TopFacts MetricQueries.

Lemma exchange_run (w : World) :
  fst (exchange w) = (if nextFault w then Thrown "storage error" else Ok tt)
  /\ sameTables w (snd (exchange w))
  /\ (faults w = [] -> snd (exchange w) = w)
  /\ journal (snd (exchange w)) = journal w.
Proof.
  unfold exchange, nextFault.
  destruct (faults w) as [|[|] fs]; cbn; repeat split; try discriminate.
Qed.

Lemma getLatestMetrics_run (transmitterId : string) (w : World) :
  fst (getLatestMetrics transmitterId w)
  = (if nextFault w then Thrown "storage error"
     else Ok (hd_error (sortBy timestampDesc
                          (filter (ofTransmitter transmitterId)
                                  (transmitterMetrics w)))))
  /\ sameTables w (snd (getLatestMetrics transmitterId w)).
Proof.
  unfold getLatestMetrics. io_step.
  destruct (exchange_run w) as (Hf & Hs & _).
  destruct (exchange w) as [[[]|e] w1]; cbn [fst snd] in *.
  - destruct (nextFault w); [discriminate|].
    split; [|exact Hs].
    destruct Hs as (_ & _ & -> & _).
    f_equal. now destruct (sortBy _ _).
  - destruct (nextFault w); [|discriminate]. split; [|exact Hs].
    now injection Hf as ->.
Qed.

(** X8.  When the storage answers, [getLatestMetrics] returns a stored row
    of the transmitter whose timestamp no other row of that transmitter
    exceeds, and [null] exactly when the transmitter has no row; the tables
    are left as they were. *)
Theorem latest_metrics_is_newest (transmitterId : string) (w : World) :
  nextFault w = false ->
  sameTables w (snd (getLatestMetrics transmitterId w))
  /\ match fst (getLatestMetrics transmitterId w) with
     | Ok (Some r) =>
         In r (transmitterMetrics w)
         /\ MetricRow.transmitterId r = transmitterId
         /\ forall r', In r' (transmitterMetrics w) ->
                       MetricRow.transmitterId r' = transmitterId ->
                       (MetricRow.timestamp r' <= MetricRow.timestamp r)%Z
     | Ok None =>
         forall r', In r' (transmitterMetrics w) ->
                    MetricRow.transmitterId r' <> transmitterId
     | Thrown _ => False
     end.
Proof.
  intros Hf. destruct (getLatestMetrics_run transmitterId w) as [Hr Hs].
  split; [exact Hs|]. rewrite Hr, Hf.
  set (l := filter (ofTransmitter transmitterId) (transmitterMetrics w)).
  assert (Hsorted := sortBy_key_sorted MetricRow.timestamp l).
  assert (Hin : forall r, In r (sortBy timestampDesc l) <->
                          In r (transmitterMetrics w)
                          /\ MetricRow.transmitterId r = transmitterId).
  { intros r. rewrite sortBy_In. unfold l. rewrite filter_In.
    unfold ofTransmitter. now rewrite String.eqb_eq. }
  change (fun a b : MetricRow.t =>
            (MetricRow.timestamp b <=? MetricRow.timestamp a)%Z)
    with timestampDesc in Hsorted.
  destruct (sortBy timestampDesc l) as [|r rest]; cbn [hd_error].
  - intros r' Hr' Hid. now apply (proj2 (Hin r')).
  - destruct (proj1 (Hin r) (or_introl eq_refl)) as [H1 H2].
    split; [exact H1|]. split; [exact H2|].
    intros r' Hr' Hid.
    destruct (proj2 (Hin r') (conj Hr' Hid)) as [<-|Hrest]; [lia|].
    inversion Hsorted as [|? ? _ Hall]; subst.
    rewrite Forall_forall in Hall. now apply Hall.
Qed.

Lemma latest_metrics_is_newest_witness :
  nextFault MoreExamples.metricsWorld = false
  /\ sameTables MoreExamples.metricsWorld
       (snd (getLatestMetrics "tx-a" MoreExamples.metricsWorld))
  /\ match fst (getLatestMetrics "tx-a" MoreExamples.metricsWorld) with
     | Ok (Some r) =>
         In r (transmitterMetrics MoreExamples.metricsWorld)
         /\ MetricRow.transmitterId r = "tx-a"
         /\ forall r', In r' (transmitterMetrics MoreExamples.metricsWorld) ->
                       MetricRow.transmitterId r' = "tx-a" ->
                       (MetricRow.timestamp r' <= MetricRow.timestamp r)%Z
     | Ok None =>
         forall r', In r' (transmitterMetrics MoreExamples.metricsWorld) ->
                    MetricRow.transmitterId r' <> "tx-a"
     | Thrown _ => False
     end.
Proof.
  split; [reflexivity|].
  apply (latest_metrics_is_newest "tx-a" MoreExamples.metricsWorld).
  reflexivity.
Defined.

End MetricQueryFacts.

(* ================================================================== *)
(** ** Storing metrics when the storage answers *)
(* ================================================================== *)

Module StoreRun.
Import IoFacts SortFacts TopFacts MetricQueries MetricQueryFacts.

Lemma upsertTransmitterName_healthy (id name : string) (w : World)
  (tx : Transmitter.t) :
  faults w = [] -> id <> "" -> lookupTransmitter w id = Some tx ->
  exists w',
    upsertTransmitterName id name w = (Ok (Transmitter.withName tx name), w')
    /\ faults w' = []
    /\ transmitters w' = renamed id name (transmitters w)
    /\ transmitterMetrics w' = transmitterMetrics w.
Proof.
  intros Hf Hid Htx.
  unfold upsertTransmitterName.
  apply String.eqb_neq in Hid. rewrite Hid. change (negb false) with true.
  io_step. rewrite roundtrip_run, (healthy_next w Hf). io_step.
  change (transmitters (afterRoundtrip w (SelectTransmitter id)))
    with (transmitters w).
  fold (lookupTransmitter w id). rewrite Htx. io_step.
  rewrite roundtrip_run, (healthy_next _ (healthy_after w _ Hf)). io_step.
  eexists. split; [reflexivity|].
  cbn [faults transmitters transmitterMetrics afterRoundtrip withFaults].
  rewrite Hf. repeat split.
Qed.

Lemma insertMetric_transmitters (row : MetricRow.t) (w : World) :
  transmitters (snd (insertMetric row w)) = transmitters w.
Proof.
  unfold insertMetric. io_step. rewrite roundtrip_run.
  destruct (nextFault w); [reflexivity|].
  now destruct (existsb _ _).
Qed.


(** The name a poll result makes [storeTransmitterMetrics] write. *)
Lemma store_prefix (rt : Runtime) (deviceId : string) (result : DeviceResult)
  (w : World) (tx : Transmitter.t) :
  faults w = [] -> deviceId <> "" ->
  lookupTransmitter w deviceId = Some tx ->
  exists w2,
    storeTransmitterMetrics rt deviceId result w
    = rethrow (insertMetric (metricValues deviceId result)) w2
    /\ faults w2 = []
    /\ transmitterMetrics w2 = transmitterMetrics w
    /\ transmitters w2
       = match radioName rt result with
         | Some rn =>
             if negb (String.eqb rn "")
                && negb (String.eqb (Transmitter.name tx) rn)
             then renamed deviceId rn (transmitters w)
             else transmitters w
         | None => transmitters w
         end.
Proof.
  intros Hf Hid Htx.
  unfold storeTransmitterMetrics, rethrow, tryCatch.
  unfold bind at 1. rewrite roundtrip_run, (healthy_next w Hf).
  unfold bind at 1. unfold getWorld at 1. cbv beta iota.
  set (w1 := afterRoundtrip w (SelectTransmitter deviceId)).
  assert (Hf1 : faults w1 = []) by now apply healthy_after.
  change (transmitters w1) with (transmitters w).
  fold (lookupTransmitter w deviceId). rewrite Htx.
  destruct (radioName rt result) as [rn|];
    [|exists w1; now repeat split].
  destruct (_ && _); [|exists w1; now repeat split].
  destruct (upsertTransmitterName_healthy deviceId rn w1 tx Hf1 Hid Htx)
    as (w2 & Hu & Hf2 & Ht2 & Hm2).
  exists w2. unfold bind at 1. unfold bind at 1. rewrite Hu.
  now repeat split.
Qed.

Lemma rethrow_snd {A : Type} (m : Io A) (w : World) :
  snd (rethrow m w) = snd (m w) /\ fst (rethrow m w) = fst (m w).
Proof.
  unfold rethrow, tryCatch, throw. now destruct (m w) as [[a|e] w'].
Qed.

Lemma lookup_renamed_same (id name : string) (l : list Transmitter.t) :
  find (fun tx => String.eqb (Transmitter.id tx) id) (renamed id name l)
  = option_map (fun t => Transmitter.withName t name)
      (find (fun tx => String.eqb (Transmitter.id tx) id) l).
Proof.
  induction l as [|t l IH]; [reflexivity|]. cbn [renamed map find].
  destruct (String.eqb (Transmitter.id t) id) eqn:E.
  - cbn [Transmitter.id Transmitter.withName]. now rewrite E.
  - rewrite E. exact IH.
Qed.

Lemma lookup_renamed_other (id other name : string)
  (l : list Transmitter.t) :
  other <> id ->
  find (fun tx => String.eqb (Transmitter.id tx) other) (renamed id name l)
  = find (fun tx => String.eqb (Transmitter.id tx) other) l.
Proof.
  intros Hne. induction l as [|t l IH]; [reflexivity|].
  cbn [renamed map find].
  destruct (String.eqb (Transmitter.id t) id) eqn:E.
  - cbn [Transmitter.id Transmitter.withName].
    apply String.eqb_eq in E.
    assert (String.eqb (Transmitter.id t) other = false) as ->
      by (apply String.eqb_neq; congruence).
    exact IH.
  - destruct (String.eqb (Transmitter.id t) other); [reflexivity | exact IH].
Qed.

Lemma withName_same (tx : Transmitter.t) :
  Transmitter.withName tx (Transmitter.name tx) = tx.
Proof. now destruct tx. Qed.

(** X7.  When the storage answers and the device has a transmitter row, a
    poll result that carries a non-empty radio name leaves that name on the
    transmitter (the row is otherwise unchanged), whether or not the metric
    row can be inserted afterwards; no other transmitter is touched. *)
Theorem radio_name_sync (rt : Runtime) (deviceId : string)
  (result : DeviceResult) (w : World) (tx : Transmitter.t) (rn : string) :
  faults w = [] -> deviceId <> "" ->
  lookupTransmitter w deviceId = Some tx ->
  radioName rt result = Some rn -> rn <> "" ->
  let w' := snd (storeTransmitterMetrics rt deviceId result w) in
  lookupTransmitter w' deviceId = Some (Transmitter.withName tx rn)
  /\ forall other, other <> deviceId ->
                   lookupTransmitter w' other = lookupTransmitter w other.
Proof.
  intros Hf Hid Htx Hrn Hne w'.
  destruct (store_prefix rt deviceId result w tx Hf Hid Htx)
    as (w2 & Hrun & _ & _ & Ht2).
  assert (Hw' : transmitters w' = transmitters w2).
  { subst w'. rewrite Hrun.
    rewrite (proj1 (rethrow_snd _ w2)). apply insertMetric_transmitters. }
  unfold lookupTransmitter. rewrite Hw', Ht2, Hrn.
  apply String.eqb_neq in Hne. rewrite Hne. cbn [negb andb].
  destruct (String.eqb (Transmitter.name tx) rn) eqn:E; cbn [negb].
  - apply String.eqb_eq in E. subst rn. rewrite withName_same.
    split; [exact Htx | reflexivity].
  - split.
    + rewrite lookup_renamed_same. fold (lookupTransmitter w deviceId).
      now rewrite Htx.
    + intros other Ho. now apply lookup_renamed_other.
Qed.

Lemma radio_name_sync_witness :
  faults Examples.gatedWorld = []
  /\ lookupTransmitter Examples.gatedWorld "tx-a" = Some Examples.txA
  /\ radioName exampleRuntime (MoreExamples.goodPoll 1000 900)
     = Some "Era FM"
  /\ lookupTransmitter
       (snd (storeTransmitterMetrics exampleRuntime "tx-a"
               (MoreExamples.goodPoll 1000 900) Examples.gatedWorld)) "tx-a"
     = Some (Transmitter.withName Examples.txA "Era FM").
Proof.
  split; [reflexivity|]. split; [reflexivity|]. split; [reflexivity|].
  apply (radio_name_sync exampleRuntime "tx-a" (MoreExamples.goodPoll 1000 900)
           Examples.gatedWorld Examples.txA "Era FM");
    first [reflexivity | discriminate].
Defined.



End StoreRun.

(* ================================================================== *)
(** ** Range queries *)
(* ================================================================== *)

Module RangeFacts.
Import IoFacts SortFacts TopFacts MetricQueries MetricQueryFacts TrapQueries.

Lemma filter_sorted {A : Type} (R : A -> A -> Prop) (f : A -> bool)
  (l : list A) :
  StronglySorted R l -> StronglySorted R (filter f l).
Proof.
  induction 1 as [|x l Hs IH Hall]; cbn [filter]; [constructor|].
  destruct (f x); [|exact IH]. constructor; [exact IH|].
  rewrite Forall_forall in *. intros y Hy. apply filter_In in Hy.
  now apply Hall.
Qed.

Lemma filter_perm {A : Type} (f : A -> bool) (l l' : list A) :
  Permutation l l' -> Permutation (filter f l) (filter f l').
Proof.
  induction 1 as [|x l l' Hp IH|x y l|l l' l'' Hp1 IH1 Hp2 IH2];
    cbn [filter].
  - apply perm_nil.
  - destruct (f x); [now apply perm_skip | assumption].
  - destruct (f y), (f x); try reflexivity. apply perm_swap.
  - exact (Permutation_trans IH1 IH2).
Qed.

Lemma after_exchange {A : Type} (k : World -> A) (w : World) :
  nextFault w = false ->
  (forall w1, sameTables w w1 -> k w1 = k w) ->
  fst (rethrow (exchange ;;; w1 <- getWorld ;; ret (k w1)) w) = Ok (k w)
  /\ sameTables w (snd (rethrow (exchange ;;; w1 <- getWorld ;; ret (k w1)) w)).
Proof.
  intros Hf Hk. io_step.
  destruct (exchange_run w) as (He & Hs & _). rewrite Hf in He.
  destruct (exchange w) as [[[]|e] w1]; cbn [fst snd] in *; [|discriminate].
  split; [now rewrite (Hk w1 Hs) | exact Hs].
Qed.

(** X10.  When the storage answers, [getMetricsRange] returns the [limit]
    newest rows of the transmitter whose timestamp lies in the closed range:
    newest first, at most [limit], each one stored, of that transmitter and
    in range, and every in-range row left out is no newer than the rows
    returned (so nothing is left out when at most [limit] rows are in
    range).  The tables are left as they were. *)
Theorem metrics_range_answer (transmitterId : string) (startTime endTime : Z)
  (limit : nat) (w : World) :
  nextFault w = false ->
  exists rows,
    fst (getMetricsRange transmitterId startTime endTime limit w) = Ok rows
    /\ newestOf MetricRow.timestamp limit
         (filter (inRange transmitterId startTime endTime)
                 (transmitterMetrics w)) rows
    /\ (forall r, In r rows ->
          In r (transmitterMetrics w)
          /\ MetricRow.transmitterId r = transmitterId
          /\ (startTime <= MetricRow.timestamp r <= endTime)%Z)
    /\ sameTables w
         (snd (getMetricsRange transmitterId startTime endTime limit w)).
Proof.
  intros Hf. unfold getMetricsRange.
  destruct (after_exchange
              (fun w1 => firstn limit
                 (sortBy timestampDesc
                    (filter (inRange transmitterId startTime endTime)
                            (transmitterMetrics w1)))) w Hf) as [Hr Hs].
  { intros w1 (_ & _ & -> & _). reflexivity. }
  eexists. split; [exact Hr|].
  pose proof (newestOf_firstn_sortBy MetricRow.timestamp limit
                (filter (inRange transmitterId startTime endTime)
                        (transmitterMetrics w))) as Hn.
  split; [exact Hn|]. split; [|exact Hs].
  intros r Hin. apply (newestOf_In _ _ _ _ _ Hn) in Hin.
  apply filter_In in Hin. destruct Hin as [Hin Hr'].
  unfold inRange, ofTransmitter in Hr'.
  apply andb_prop in Hr'. destruct Hr' as [Hr' H3].
  apply andb_prop in Hr'. destruct Hr' as [H1 H2].
  apply String.eqb_eq in H1. apply Z.leb_le in H2, H3. auto.
Qed.

Lemma metrics_range_answer_witness :
  nextFault MoreExamples.metricsWorld = false
  /\ exists rows,
       fst (getMetricsRange "tx-a" 500 2500 1 MoreExamples.metricsWorld)
       = Ok rows
       /\ newestOf MetricRow.timestamp 1
            (filter (inRange "tx-a" 500 2500)
                    (transmitterMetrics MoreExamples.metricsWorld)) rows
       /\ (forall r, In r rows ->
             In r (transmitterMetrics MoreExamples.metricsWorld)
             /\ MetricRow.transmitterId r = "tx-a"
             /\ (500 <= MetricRow.timestamp r <= 2500)%Z)
       /\ sameTables MoreExamples.metricsWorld
            (snd (getMetricsRange "tx-a" 500 2500 1
                    MoreExamples.metricsWorld)).
Proof.
  split; [reflexivity|].
  apply (metrics_range_answer "tx-a" 500 2500 1 MoreExamples.metricsWorld).
  reflexivity.
Defined.

Lemma rangeLimit_positive (params : RangeParams) :
  (0 < rangeLimit params)%Z.
Proof.
  unfold rangeLimit. destruct (r_limit params) as [l|]; [|lia].
  destruct (Z.ltb_spec 0 l); lia.
Qed.

(** X11.  When the storage answers, [getTrapsRange] selects the newest
    traps created in the closed range, at most [limit] of them (1000 when
    the limit is missing or not positive), and only then drops those that
    do not match the transmitter and site filters.  The answer is newest
    first and every row of it is stored, in range and matching; when the
    range holds no more traps than the limit, the answer is exactly the
    matching traps of the range.  The tables are left as they were. *)
Theorem traps_range_answer (params : RangeParams) (w : World) :
  nextFault w = false ->
  exists rows,
    fst (getTrapsRange params w) = Ok (filter (rangeMatches params) rows)
    /\ newestOf TrapRow.createdAt (Z.to_nat (rangeLimit params))
         (filter (createdIn params) (snmpTraps w)) rows
    /\ StronglySorted notOlder (filter (rangeMatches params) rows)
    /\ (forall r, In r (filter (rangeMatches params) rows) ->
          In r (snmpTraps w)
          /\ (r_startTime params <= TrapRow.createdAt r
              <= r_endTime params)%Z
          /\ rangeMatches params r = true)
    /\ ((List.length (filter (createdIn params) (snmpTraps w))
         <= Z.to_nat (rangeLimit params))%nat ->
        Permutation (filter (rangeMatches params) rows)
          (filter (rangeMatches params)
             (filter (createdIn params) (snmpTraps w))))
    /\ sameTables w (snd (getTrapsRange params w)).
Proof.
  intros Hf. unfold getTrapsRange. cbv zeta.
  destruct (after_exchange
              (fun w1 => filter (rangeMatches params)
                 (firstn (Z.to_nat (rangeLimit params))
                    (sortBy createdAtDesc
                       (filter (createdIn params) (snmpTraps w1))))) w Hf)
    as [Hr Hs].
  { intros w1 (_ & _ & _ & -> & _). reflexivity. }
  eexists. split; [exact Hr|].
  pose proof (newestOf_firstn_sortBy TrapRow.createdAt
                (Z.to_nat (rangeLimit params))
                (filter (createdIn params) (snmpTraps w))) as Hn.
  split; [exact Hn|].
  split; [apply filter_sorted; exact (proj1 Hn)|].
  split; [|split; [|exact Hs]].
  - intros r Hin. apply filter_In in Hin. destruct Hin as [Hin Hm].
    apply (newestOf_In _ _ _ _ _ Hn) in Hin.
    apply filter_In in Hin. destruct Hin as [Hin Hc].
    unfold createdIn in Hc. apply andb_prop in Hc. destruct Hc as [H1 H2].
    apply Z.leb_le in H1, H2. auto.
  - intros Hlen. pose proof (newestOf_all _ _ _ _ Hn Hlen) as Hp.
    now apply filter_perm.
Qed.

Lemma traps_range_answer_witness :
  nextFault TrapExamples.fourTraps = false
  /\ exists rows,
       fst (getTrapsRange TrapExamples.rangeOfA TrapExamples.fourTraps)
       = Ok (filter (rangeMatches TrapExamples.rangeOfA) rows)
       /\ filter (rangeMatches TrapExamples.rangeOfA) rows
          = [TrapExamples.txTrap "tx-a" 30].
Proof.
  split; [reflexivity|].
  destruct (traps_range_answer TrapExamples.rangeOfA TrapExamples.fourTraps
              eq_refl) as (rows & Hr & _).
  exists rows. split; [exact Hr|].
  assert (H : Ok (filter (rangeMatches TrapExamples.rangeOfA) rows)
              = Ok [TrapExamples.txTrap "tx-a" 30])
    by (rewrite <- Hr; reflexivity).
  now injection H.
Defined.

End RangeFacts.

(* ================================================================== *)
(** ** Stored traps *)
(* ================================================================== *)

Module TrapStoreFacts.
Import IoFacts SortFacts TopFacts TrapFacts TrapQueryFacts.

Lemma orStr_not_empty (a b : option string) :
  truthyStr (orStr a b) = true -> orStr a b <> Some "".
Proof.
  destruct (orStr a b) as [s|]; [|discriminate]. cbn.
  intros H [= ->]. discriminate.
Qed.

Lemma communityOf_not_empty (data : Notification) :
  communityOf data <> Some "".
Proof.
  unfold communityOf.
  destruct (truthyStr (orStr _ _)) eqn:E; [|discriminate].
  now apply orStr_not_empty.
Qed.

Lemma sourceHostOf_not_empty (data : Notification) :
  sourceHostOf data <> "".
Proof.
  unfold sourceHostOf.
  destruct (orStr _ _) as [h|]; [|discriminate].
  destruct (String.eqb h "") eqn:E; cbn [negb]; [discriminate|].
  now apply String.eqb_neq.
Qed.

Lemma attributionOf_together (w : World) (h : string) :
  fst (attributionOf w h) = None <-> snd (attributionOf w h) = None.
Proof.
  unfold attributionOf. destruct (nextFault w); [now split|].
  destruct (find _ _); now split.
Qed.

Lemma stored_trap_form (rt : Runtime) (data : Notification) (port : Z)
  (w : World) :
  let varbinds := normalizeVarbinds rt (varbindsRawOf data) in
  storedFor data port
    (Trap.mk (fst (attributionOf w (sourceHostOf data)))
             (snd (attributionOf w (sourceHostOf data)))
             (sourceHostOf data) (sourcePortOf data port)
             (communityOf data) (versionNumOf data)
             (fst (extractTrapOids varbinds))
             (snd (extractTrapOids varbinds)) varbinds).
Proof.
  intros varbinds. unfold storedFor.
  cbn [Trap.version Trap.sourceHost Trap.community Trap.transmitterId
       Trap.siteId Trap.varbinds Trap.trapOid Trap.sourcePort].
  split; [|split; [|split; [|split; [|split; [|split; [|split;
    [|split]]]]]]].
  - unfold versionNumOf. destruct (n_version data) as [v|]; [|now right].
    destruct (v =? Version1)%Z; auto.
  - unfold versionNumOf, Version1.
    destruct (n_version data) as [v|]; [|split; discriminate].
    destruct (Z.eqb_spec v 0) as [->|Hne]; split; intros H;
      first [reflexivity | discriminate | congruence].
  - apply sourceHostOf_not_empty.
  - apply communityOf_not_empty.
  - apply attributionOf_together.
  - unfold varbinds, normalizeVarbinds. now rewrite map_map.
  - unfold varbinds, normalizeVarbinds. now rewrite map_map.
  - intros s. unfold extractTrapOids. cbn [fst]. unfold stringValue.
    destruct (find _ varbinds) as [vb|] eqn:E; [|discriminate].
    destruct (vb_value vb) eqn:Ev; try discriminate. intros [= ->].
    destruct (find_split _ _ _ E) as (pre & post & Hl & Hx & Hpre).
    exists pre, vb, post. split; [exact Hl|].
    split; [now apply String.eqb_eq|]. split; [exact Ev|].
    intros v Hv. apply String.eqb_neq. now apply Hpre.
  - unfold sourcePortOf. now intros -> ->.
Qed.

(** A notification whose insert is answered is stored in the form that
    [storedFor] describes. *)
Lemma handleNotification_stored (rt : Runtime) (data : Notification)
  (port : Z) (w : World) :
  nthFault 1 w = false ->
  exists t,
    fst (handleNotification rt data port w) = Ok tt
    /\ snmpTraps (snd (handleNotification rt data port w))
       = snmpTraps w ++ [TrapRow.mk t (now w)]
    /\ Trap.sourceHost t = sourceHostOf data
    /\ storedFor data port t.
Proof.
  intros Hf. pose proof (stored_trap_form rt data port w) as Hform.
  cbv zeta in Hform. unfold handleNotification.
  destruct (extractTrapOids _) as [trapOid enterpriseOid].
  cbn [fst snd] in Hform.
  unfold bind. rewrite attribute_run, storeSnmpTrap_run.
  rewrite nextFault_afterRoundtrip, Hf.
  eexists. cbn [fst snd snmpTraps afterRoundtrip withFaults now].
  split; [reflexivity|]. split; [reflexivity|]. split; [reflexivity|].
  exact Hform.
Qed.


Lemma effectiveLimit_positive (params : TrapParams) :
  (0 < effectiveLimit params)%Z.
Proof.
  unfold effectiveLimit. destruct (p_limit params) as [l|]; [|lia].
  destruct (Z.ltb_spec 0 l); lia.
Qed.

Lemma handleNotification_healthy (rt : Runtime) (data : Notification)
  (port : Z) (w : World) :
  faults w = [] -> faults (snd (handleNotification rt data port w)) = [].
Proof.
  intros Hf. unfold handleNotification.
  destruct (extractTrapOids _) as [trapOid enterpriseOid].
  unfold bind. rewrite attribute_run, storeSnmpTrap_run.
  rewrite nextFault_afterRoundtrip. unfold nthFault. rewrite Hf.
  cbn. now rewrite Hf.
Qed.

(** X13.  Receive, then read: when the storage answers and every stored
    trap is older than the clock, a notification that has been handled is
    the first row that [getLatestTraps] returns for the sending host,
    whatever the limit. *)
Theorem trap_then_latest (rt : Runtime) (data : Notification) (port : Z)
  (w : World) (limit : option Z) :
  faults w = [] ->
  (forall r, In r (snmpTraps w) -> (TrapRow.createdAt r < now w)%Z) ->
  let w' := snd (handleNotification rt data port w) in
  let params := mkTrapParams limit None None (Some (sourceHostOf data)) in
  exists t rest,
    fst (getLatestTraps params w') = Ok (TrapRow.mk t (now w) :: rest)
    /\ Trap.sourceHost t = sourceHostOf data
    /\ storedFor data port t.
Proof.
  intros Hf Hold w' params.
  assert (Hf1 : nthFault 1 w = false) by (unfold nthFault; now rewrite Hf).
  destruct (handleNotification_stored rt data port w Hf1)
    as (t & _ & Hst & Hh & Hform).
  fold w' in Hst.
  assert (Hn : nextFault w' = false)
    by (apply healthy_next, handleNotification_healthy, Hf).
  exists t. rewrite (getLatestTraps_run params w' Hn).
  unfold newestTraps. rewrite Hst.
  destruct (head_sortBy_newest TrapRow.createdAt (snmpTraps w)
              (TrapRow.mk t (now w)) Hold) as [tl Htl].
  unfold createdAtDesc. rewrite Htl.
  pose proof (effectiveLimit_positive params) as Hpos.
  destruct (Z.to_nat (effectiveLimit params)) as [|k] eqn:Ek; [lia|].
  cbn [firstn filter].
  assert (Hm : trapMatches params (TrapRow.mk t (now w)) = true).
  { unfold trapMatches, params. cbn [p_transmitterId p_siteId p_sourceHost
                                      truthyStr negb orb andb].
    unfold TrapRow.sourceHost. cbn [TrapRow.trap]. rewrite Hh.
    rewrite String.eqb_refl. now rewrite orb_true_r. }
  rewrite Hm. eexists. split; [reflexivity|]. now split.
Qed.

Lemma trap_then_latest_witness :
  faults Examples.twoTraps = []
  /\ exists t rest,
       fst (getLatestTraps
              (mkTrapParams (Some 1%Z) None None
                            (Some (sourceHostOf Examples.trapFromA)))
              (snd (handleNotification exampleRuntime Examples.trapFromA 162
                      Examples.twoTraps)))
       = Ok (TrapRow.mk t (now Examples.twoTraps) :: rest)
       /\ Trap.sourceHost t = sourceHostOf Examples.trapFromA
       /\ storedFor Examples.trapFromA 162 t.
Proof.
  split; [reflexivity|].
  apply (trap_then_latest exampleRuntime Examples.trapFromA 162
           Examples.twoTraps (Some 1%Z)); [reflexivity|].
  intros r [<-|[<-|[]]]; cbn; lia.
Defined.

End TrapStoreFacts.

(* ================================================================== *)
(** ** The data object of a poll *)
(* ================================================================== *)

Module PollDataFacts.
Import PollData.

Lemma keys_set (d : JsObject) (k : string) (v : JsValue) :
  keys (Js.set d k v)
  = if existsb (String.eqb k) (keys d) then keys d else keys d ++ [k].
Proof.
  induction d as [|[k' v'] d IH]; [reflexivity|].
  cbn [Js.set keys map fst existsb]. fold (keys d).
  rewrite (String.eqb_sym k k').
  destruct (String.eqb k' k) eqn:E; [reflexivity|].
  cbn [orb map fst]. fold (keys (Js.set d k v)). rewrite IH.
  now destruct (existsb _ _).
Qed.

Lemma set_wellFormed (d : JsObject) (k : string) (v : JsValue) :
  wellFormed d -> wellFormed (Js.set d k v).
Proof.
  unfold wellFormed. intros H. rewrite keys_set.
  destruct (existsb (String.eqb k) (keys d)) eqn:E; [exact H|].
  apply NoDup_app; [exact H | repeat constructor; intros [] |].
  intros x Hx [Hk|[]]. subst x.
  assert (existsb (String.eqb k) (keys d) = true); [|congruence].
  apply existsb_exists. exists k. split; [exact Hx | apply String.eqb_refl].
Qed.

Lemma set_In (d : JsObject) (k : string) (v : JsValue) (k' : string)
  (v' : JsValue) :
  In (k', v') (Js.set d k v) -> In (k', v') d \/ (k' = k /\ v' = v).
Proof.
  induction d as [|[k0 v0] d IH]; cbn [Js.set].
  - intros [[= <- <-]|[]]. now right.
  - destruct (String.eqb k0 k) eqn:E.
    + apply String.eqb_eq in E. subst k0.
      intros [[= <- <-]|H]; [now right | left; now right].
    + intros [H|H]; [left; now left|].
      destruct (IH H) as [H'|H']; [left; now right | now right].
Qed.

Lemma set_key (d : JsObject) (k : string) (v : JsValue) :
  In k (keys (Js.set d k v)).
Proof.
  rewrite keys_set. destruct (existsb (String.eqb k) (keys d)) eqn:E.
  - apply existsb_exists in E. destruct E as (x & Hx & Hk).
    apply String.eqb_eq in Hk. now subst.
  - apply in_or_app. right. now left.
Qed.

Lemma set_keys_mono (d : JsObject) (k : string) (v : JsValue) (x : string) :
  In x (keys d) -> In x (keys (Js.set d k v)).
Proof.
  rewrite keys_set. destruct (existsb _ _); [auto|].
  intros H. apply in_or_app. now left.
Qed.

Lemma get_key (d : JsObject) (k : string) :
  Js.get d k <> None -> In k (keys d).
Proof.
  induction d as [|[k' v'] d IH]; cbn [Js.get keys map fst];
    [congruence|].
  destruct (String.eqb k' k) eqn:E.
  - apply String.eqb_eq in E. now left.
  - intros H. right. now apply IH.
Qed.

Section Build.

Variable isVarbindError : RawVarbind -> bool.

(** The varbind is returned, is no error varbind and accounts for the
    entry [(k, v)]: under its own OID, or under the OID without a final
    [.0]. *)
Let accounts (vbs : list (option RawVarbind)) (k : string) (v : JsValue)
  : Prop :=
  exists vb,
    In (Some vb) vbs /\ isVarbindError vb = false /\ raw_value vb = v
    /\ (k = raw_oid vb
        \/ (JsString.endsWith (raw_oid vb) ".0" = true
            /\ k = JsString.slice_0_m2 (raw_oid vb))).

Lemma addVarbind_wellFormed (data : JsObject) (vb : option RawVarbind) :
  wellFormed data -> wellFormed (addVarbind isVarbindError data vb).
Proof.
  intros H. unfold addVarbind. destruct vb as [vb|]; [|exact H].
  destruct (isVarbindError vb); [exact H|]. cbv zeta.
  destruct (JsString.endsWith _ _); [|now apply set_wellFormed].
  destruct (isUndefined _); now repeat apply set_wellFormed.
Qed.

Lemma addVarbind_In (data : JsObject) (vb : option RawVarbind)
  (k : string) (v : JsValue) :
  In (k, v) (addVarbind isVarbindError data vb) ->
  In (k, v) data \/ accounts [vb] k v.
Proof.
  unfold addVarbind. destruct vb as [vb|]; [|now left].
  destruct (isVarbindError vb) eqn:Ee; [now left|]. cbv zeta.
  assert (Hown : forall d, In (k, v) (Js.set d (raw_oid vb) (raw_value vb)) ->
                           In (k, v) d \/ accounts [Some vb] k v).
  { intros d H. apply set_In in H. destruct H as [H|[-> ->]]; [now left|].
    right. exists vb. repeat split; auto. now left. }
  destruct (JsString.endsWith (raw_oid vb) ".0") eqn:Ez; [|apply Hown].
  destruct (isUndefined _); [|apply Hown].
  intros H. apply set_In in H. destruct H as [H|[-> ->]]; [now apply Hown|].
  right. exists vb. repeat split; auto. now left.
Qed.

Lemma addVarbind_keys_mono (data : JsObject) (vb : option RawVarbind)
  (x : string) :
  In x (keys data) -> In x (keys (addVarbind isVarbindError data vb)).
Proof.
  intros H. unfold addVarbind. destruct vb as [vb|]; [|exact H].
  destruct (isVarbindError vb); [exact H|]. cbv zeta.
  destruct (JsString.endsWith _ _); [|now apply set_keys_mono].
  destruct (isUndefined _); now repeat apply set_keys_mono.
Qed.

Lemma addVarbind_keys (data : JsObject) (vb : RawVarbind) :
  isVarbindError vb = false ->
  In (raw_oid vb) (keys (addVarbind isVarbindError data (Some vb)))
  /\ (JsString.endsWith (raw_oid vb) ".0" = true ->
      In (JsString.slice_0_m2 (raw_oid vb))
         (keys (addVarbind isVarbindError data (Some vb)))).
Proof.
  intros He. unfold addVarbind. rewrite He. cbv zeta.
  destruct (JsString.endsWith (raw_oid vb) ".0") eqn:Ez.
  - destruct (isUndefined _) eqn:Eu.
    + split; [apply set_keys_mono, set_key | intros _; apply set_key].
    + split; [apply set_key|]. intros _. apply get_key.
      intros Hn. now rewrite Hn in Eu.
  - split; [apply set_key | discriminate].
Qed.

Lemma fold_addVarbind (vbs : list (option RawVarbind)) (data : JsObject) :
  wellFormed data ->
  let d := fold_left (addVarbind isVarbindError) vbs data in
  wellFormed d
  /\ (forall k v, In (k, v) d -> In (k, v) data \/ accounts vbs k v)
  /\ (forall x, In x (keys data) -> In x (keys d))
  /\ (forall vb, In (Some vb) vbs -> isVarbindError vb = false ->
        In (raw_oid vb) (keys d)
        /\ (JsString.endsWith (raw_oid vb) ".0" = true ->
            In (JsString.slice_0_m2 (raw_oid vb)) (keys d))).
Proof.
  revert data. induction vbs as [|vb vbs IH]; intros data Hwf; cbn [fold_left].
  - split; [exact Hwf|]. split; [now left|]. split; [auto|].
    intros vb [].
  - destruct (IH _ (addVarbind_wellFormed data vb Hwf))
      as (H1 & H2 & H3 & H4).
    split; [exact H1|]. split; [|split].
    + intros k v Hin. destruct (H2 k v Hin) as [H|(vb' & Hv & Hrest)].
      * destruct (addVarbind_In data vb k v H) as [H'|(vb' & [Hv|[]] & Hrest)];
          [now left|].
        right. exists vb'. split; [left; exact Hv | exact Hrest].
      * right. exists vb'. split; [now right | exact Hrest].
    + intros x Hx. now apply H3, addVarbind_keys_mono.
    + intros vb' [->|Hin] He; [|now apply H4].
      destruct (addVarbind_keys data vb' He) as [K1 K2].
      split; [now apply H3|]. intros Hz. now apply H3, K2.
Qed.

(** X14.  The data object that a poll records is well formed (one value
    per OID), whatever varbinds the agent returned; every entry of it is
    the value of a returned varbind that is no error varbind, under that
    varbind's OID or under the OID without its final [.0]; and each such
    varbind has an entry under its OID, and under the shortened OID if it
    ends in [.0]. *)
Theorem poll_data_well_formed (varbinds : list (option RawVarbind)) :
  let d := buildData isVarbindError varbinds in
  wellFormed d
  /\ (forall k v, In (k, v) d ->
        exists vb,
          In (Some vb) varbinds /\ isVarbindError vb = false
          /\ raw_value vb = v
          /\ (k = raw_oid vb
              \/ (JsString.endsWith (raw_oid vb) ".0" = true
                  /\ k = JsString.slice_0_m2 (raw_oid vb))))
  /\ (forall vb, In (Some vb) varbinds -> isVarbindError vb = false ->
        In (raw_oid vb) (keys d)
        /\ (JsString.endsWith (raw_oid vb) ".0" = true ->
            In (JsString.slice_0_m2 (raw_oid vb)) (keys d))).
Proof.
  cbv zeta. unfold buildData.
  destruct (fold_addVarbind varbinds []) as (H1 & H2 & _ & H4);
    [constructor|].
  split; [exact H1|]. split; [|exact H4].
  intros k v Hin. destruct (H2 k v Hin) as [[]|H]. exact H.
Qed.

End Build.

End PollDataFacts.

(* ================================================================== *)
(** ** OID lists as sets *)
(* ================================================================== *)

Module OidSetFacts.
Import OidExpansion OidExpansionFacts DeviceLoader JsStringFacts.

Lemma setAdd_NoDup (s : list string) (x : string) :
  NoDup s -> NoDup (setAdd s x).
Proof.
  intros H. unfold setAdd. destruct (existsb (String.eqb x) s) eqn:E;
    [exact H|].
  apply NoDup_app; [exact H | repeat constructor; intros [] |].
  intros y Hy [Hk|[]]. subst y.
  apply (proj2 (existsb_eqb_In x s)) in Hy. congruence.
Qed.

Lemma setAdd_present (s : list string) (x : string) :
  In x s -> setAdd s x = s.
Proof.
  intros H. unfold setAdd. now rewrite (proj2 (existsb_eqb_In x s) H).
Qed.

Lemma fold_setAdd_NoDup (l s : list string) :
  NoDup s -> NoDup (fold_left setAdd l s).
Proof.
  revert s. induction l as [|x l IH]; intros s H; [exact H|].
  cbn [fold_left]. now apply IH, setAdd_NoDup.
Qed.

Lemma fold_setAdd_In (l s : list string) (y : string) :
  In y (fold_left setAdd l s) <-> In y s \/ In y l.
Proof.
  revert s. induction l as [|x l IH]; intros s; cbn [fold_left In].
  - tauto.
  - rewrite IH, setAdd_In. intuition (subst; auto).
Qed.

Lemma fold_setAdd_fresh (l s : list string) :
  NoDup (s ++ l) -> fold_left setAdd l s = s ++ l.
Proof.
  revert s. induction l as [|x l IH]; intros s H; cbn [fold_left].
  - now rewrite app_nil_r.
  - assert (Hx : ~ In x s).
    { intros Hin. apply NoDup_remove_2 in H. apply H, in_or_app. now left. }
    assert (Hs : setAdd s x = s ++ [x]).
    { unfold setAdd. destruct (existsb (String.eqb x) s) eqn:E;
        [|reflexivity].
      now apply existsb_eqb_In in E. }
    rewrite Hs, IH; rewrite <- app_assoc; [reflexivity | exact H].
Qed.

Lemma dedup_In (arr : list string) (o : string) :
  In o (dedup arr) <-> In o arr /\ o <> "".
Proof.
  unfold dedup. rewrite fold_setAdd_In, filter_In.
  rewrite negb_true_iff, String.eqb_neq. cbn [In]. tauto.
Qed.

Lemma dedup_fixed (arr : list string) :
  NoDup arr -> ~ In "" arr -> dedup arr = arr.
Proof.
  intros Hn He. unfold dedup.
  assert (Hf : filter (fun v => negb (String.eqb v "")) arr = arr).
  { clear Hn. induction arr as [|x arr IH]; [reflexivity|]. cbn [filter].
    destruct (String.eqb_spec x "") as [->|Hx].
    - elim He. now left.
    - cbn [negb]. f_equal. apply IH. intros H. apply He. now right. }
  rewrite Hf. now apply (fold_setAdd_fresh arr []).
Qed.

Lemma pushMissing_setAdd (l : list string) (x : string) :
  pushMissing l x = setAdd l x.
Proof. reflexivity. Qed.

Lemma finalOids_In (baseOids : list string) (o : string) :
  In o (finalOids baseOids)
  <-> o <> ""
      /\ (In o baseOids \/ o = sysName
          \/ (existsb (fun b => JsString.startsWith b elenosPrefix) baseOids
              = true
              /\ In o coreBases)).
Proof.
  unfold finalOids. cbv zeta. rewrite dedup_In, pushMissing_setAdd, setAdd_In.
  destruct (existsb _ baseOids).
  - fold (fold_left setAdd
            ["1.3.6.1.4.1.31946.4.2.6.10.1"; "1.3.6.1.4.1.31946.4.2.6.10.2";
             "1.3.6.1.4.1.31946.4.2.6.10.14"; "1.3.6.1.4.1.31946.4.2.6.10.12"]
            baseOids).
    rewrite fold_setAdd_In. unfold coreBases. cbn [In]. intuition.
  - intuition discriminate.
Qed.

(** X15.  The OID list that [loadDevicesFromDatabase] gives a device has no
    duplicate and no empty entry; it holds exactly the non-empty configured
    OIDs, sysName (1.3.6.1.2.1.1.5.0) and, when a configured OID lies under
    the Elenos prefix, the four core bases; and building the list again from
    it changes nothing. *)
Theorem finalOids_normal_form (baseOids : list string) :
  NoDup (finalOids baseOids)
  /\ ~ In "" (finalOids baseOids)
  /\ (forall o, In o (finalOids baseOids)
        <-> o <> ""
            /\ (In o baseOids \/ o = sysName
                \/ (existsb (fun b => JsString.startsWith b elenosPrefix)
                            baseOids = true
                    /\ In o coreBases)))
  /\ finalOids (finalOids baseOids) = finalOids baseOids.
Proof.
  assert (Hnd : NoDup (finalOids baseOids)).
  { unfold finalOids, dedup. cbv zeta. apply fold_setAdd_NoDup. constructor. }
  assert (Hne : ~ In "" (finalOids baseOids)).
  { intros H. apply finalOids_In in H. now destruct H. }
  split; [exact Hnd|]. split; [exact Hne|].
  split; [apply finalOids_In|].
  set (f := finalOids baseOids) in *.
  assert (Hsys : In sysName f).
  { apply finalOids_In. split; [discriminate | auto]. }
  assert (Hcore : existsb (fun b => JsString.startsWith b elenosPrefix) f
                  = true ->
                  forall c, In c coreBases -> In c f).
  { intros He c Hc. apply finalOids_In.
    split; [unfold coreBases in Hc; cbn [In] in Hc;
            intuition (subst; discriminate)|].
    right. right. split; [|exact Hc].
    apply existsb_exists in He. destruct He as (b & Hb & Hp).
    apply finalOids_In in Hb.
    destruct Hb as (_ & [Hb|[->|[Hb _]]]); [|discriminate | exact Hb].
    apply existsb_exists. now exists b. }
  unfold finalOids at 1. cbv zeta.
  destruct (existsb _ f) eqn:He.
  - cbn [fold_left]. change pushMissing with setAdd.
    rewrite (setAdd_present f "1.3.6.1.4.1.31946.4.2.6.10.1")
      by (apply Hcore; [reflexivity | cbn; auto]).
    rewrite (setAdd_present f "1.3.6.1.4.1.31946.4.2.6.10.2")
      by (apply Hcore; [reflexivity | cbn; auto]).
    rewrite (setAdd_present f "1.3.6.1.4.1.31946.4.2.6.10.14")
      by (apply Hcore; [reflexivity | cbn; auto]).
    rewrite (setAdd_present f "1.3.6.1.4.1.31946.4.2.6.10.12")
      by (apply Hcore; [reflexivity | cbn; auto]).
    rewrite (setAdd_present f sysName Hsys). now apply dedup_fixed.
  - change pushMissing with setAdd.
    rewrite (setAdd_present f sysName Hsys). now apply dedup_fixed.
Qed.












End OidSetFacts.

(* ================================================================== *)
(** ** The poller: ring, queries and device status *)
(* ================================================================== *)

Module PollerFacts.
Import Poller SortFacts RingFacts TopFacts.

Lemma In_sliceLast {A : Type} (n : nat) (l : list A) (x : A) :
  In x (sliceLast n l) -> In x l.
Proof.
  unfold sliceLast. intros H.
  rewrite <- (firstn_skipn (List.length l - n) l). apply in_or_app.
  now right.
Qed.

Lemma run_filtered (ops : list Op) (p : t) :
  filteredOnly ops = true ->
  List.length (results p) <= maxResults p ->
  results (run ops p) = sliceLast (maxResults p) (results p ++ recorded ops)
  /\ maxResults (run ops p) = maxResults p.
Proof.
  revert p. induction ops as [|op ops IH]; intros p Hq Hinv.
  - cbn [run fold_left recorded flat_map]. rewrite app_nil_r.
    split; [|reflexivity]. symmetry. now apply sliceLast_all.
  - cbn [filteredOnly forallb] in Hq. apply andb_prop in Hq.
    destruct Hq as [Hop Hq].
    change (run (op :: ops) p) with (run ops (step p op)).
    destruct op as [now d sc dat e | d l]; cbn [step recorded flat_map].
    + destruct (recordResult_results now d sc dat e p) as [Hres Hmax].
      set (p' := recordResult now d sc dat e p) in *.
      assert (Hinv' : List.length (results p') <= maxResults p').
      { rewrite Hres, Hmax, sliceLast_length. lia. }
      destruct (IH p' Hq Hinv') as [IH1 IH2].
      rewrite IH1, IH2, Hmax, Hres. split; [|reflexivity].
      fold (recorded ops). now rewrite sliceLast_app, <- app_assoc.
    + destruct (getResults_ring d l p) as (_ & _ & Hsame).
      rewrite (Hsame Hop). cbn [app]. now apply IH.
Qed.

(** X17.  As long as every query names a device, the ring holds exactly
    the last thousand results recorded, oldest first: queries for a device
    work on a copy and never disturb it. *)
Theorem ring_with_filtered_queries (ops : list Op) :
  filteredOnly ops = true ->
  results (run ops init) = sliceLast 1000 (recorded ops).
Proof.
  intros Hq. destruct (run_filtered ops init Hq) as [H _]; [cbn; lia|].
  exact H.
Qed.

Lemma ring_with_filtered_queries_witness :
  filteredOnly RingExamples.mixedRun = true
  /\ results (run RingExamples.mixedRun init)
     = sliceLast 1000 (recorded RingExamples.mixedRun).
Proof.
  split; [reflexivity|].
  apply (ring_with_filtered_queries RingExamples.mixedRun). reflexivity.
Defined.

Lemma run_In (ops : list Op) (p : t) (r : DeviceResult) :
  In r (results (run ops p)) -> In r (results p) \/ In r (recorded ops).
Proof.
  revert p. induction ops as [|op ops IH]; intros p H; [now left|].
  change (run (op :: ops) p) with (run ops (step p op)) in H.
  destruct (IH _ H) as [H'|H']; [|right; cbn [recorded flat_map];
                                  apply in_or_app; now right].
  destruct op as [now d sc dat e | d l]; cbn [step recorded flat_map] in *.
  - destruct (recordResult_results now d sc dat e p) as [Hres _].
    rewrite Hres in H'. apply In_sliceLast in H'. apply in_app_or in H'.
    destruct H' as [H'|H']; [now left|]. right. apply in_or_app. now left.
  - destruct (getResults_ring d l p) as (Hperm & _).
    left. eapply Permutation_in; eassumption.
Qed.

(** X18.  Whatever is recorded and queried, from the start the ring holds
    as many results as were recorded, up to a thousand, and only results
    that were recorded. *)
Theorem ring_holds_recorded (ops : list Op) :
  List.length (results (run ops init)) = Nat.min 1000 (recordings ops)
  /\ forall r, In r (results (run ops init)) -> In r (recorded ops).
Proof.
  split.
  - destruct (run_length ops init) as [H _]; [cbn; lia|]. exact H.
  - intros r H. destruct (run_In ops init r H) as [[]|H']. exact H'.
Qed.

Lemma filter_all {A : Type} (l : list A) : filter (fun _ => true) l = l.
Proof. induction l as [|x l IH]; [reflexivity|]. cbn. now rewrite IH. Qed.

(** The rows of a query with a non-negative limit. *)
Lemma getResults_rows (d : option string) (limit : Z) (p : t) :
  (0 <= limit)%Z ->
  newestOf timestamp (Z.to_nat limit) (filter (ofDevice d) (results p))
           (fst (getResults d limit p))
  /\ (truthyStr d = true -> snd (getResults d limit p) = p)
  /\ (forall r, In r (fst (getResults d limit p)) ->
        In r (results p) /\ ofDevice d r = true).
Proof.
  intros Hl.
  assert (Hrows : fst (getResults d limit p)
                  = firstn (Z.to_nat limit)
                      (sortBy newestFirst (filter (ofDevice d) (results p)))).
  { unfold getResults, slice0, ofDevice.
    destruct (Z.ltb_spec limit 0); [lia|].
    destruct d as [d'|]; cbn [truthyStr].
    - destruct (String.eqb d' ""); cbn [negb fst];
        [now rewrite filter_all | reflexivity].
    - cbn [fst]. now rewrite filter_all. }
  pose proof (newestOf_firstn_sortBy timestamp (Z.to_nat limit)
                (filter (ofDevice d) (results p))) as Hn.
  fold newestFirst in Hn. rewrite <- Hrows in Hn.
  split; [exact Hn|]. split.
  - intros Ht. destruct (getResults_ring d limit p) as (_ & _ & H).
    exact (H Ht).
  - intros r Hr. apply (newestOf_In _ _ _ _ _ Hn) in Hr.
    now apply filter_In in Hr.
Qed.

(** X19.  A query with a non-negative limit answers with the [limit]
    newest of the results it selects (those of the device named, all of
    them when none is named): newest first, at most [limit], and none of
    the selected results left out is newer than one returned.  A query
    that names a device leaves the ring as it is. *)
Theorem getResults_answer (d : option string) (limit : Z) (p : t) :
  (0 <= limit)%Z ->
  newestOf timestamp (Z.to_nat limit) (filter (ofDevice d) (results p))
           (fst (getResults d limit p))
  /\ (truthyStr d = true -> snd (getResults d limit p) = p)
  /\ (forall r, In r (fst (getResults d limit p)) ->
        In r (results p) /\ ofDevice d r = true).
Proof. exact (getResults_rows d limit p). Qed.

Lemma getResults_answer_witness :
  (0 <= 2)%Z
  /\ map timestamp
       (fst (getResults (Some "tx-a") 2 RingExamples.mixedPoller))
     = [4%Z; 3%Z]
  /\ newestOf timestamp (Z.to_nat 2)
       (filter (ofDevice (Some "tx-a")) (results RingExamples.mixedPoller))
       (fst (getResults (Some "tx-a") 2 RingExamples.mixedPoller)).
Proof.
  split; [lia|]. split; [reflexivity|].
  apply (getResults_answer (Some "tx-a") 2 RingExamples.mixedPoller). lia.
Defined.

Lemma filter_length_le {A : Type} (f : A -> bool) (l : list A) :
  List.length (filter f l) <= List.length l.
Proof.
  induction l as [|x l IH]; [reflexivity|]. cbn [filter].
  destruct (f x); cbn [List.length]; lia.
Qed.

Lemma first_successful_is_newest (rows : list DeviceResult)
  (r : DeviceResult) :
  StronglySorted newer rows ->
  find (fun r => success r) rows = Some r ->
  In r rows /\ success r = true
  /\ forall r', In r' rows -> success r' = true ->
                (timestamp r' <= timestamp r)%Z.
Proof.
  intros Hs Hf.
  destruct (find_split _ _ _ Hf) as (pre & post & -> & Hr & Hpre).
  split; [apply in_or_app; right; now left|]. split; [exact Hr|].
  intros r' Hin Hok. apply in_app_or in Hin.
  destruct Hin as [Hin|[<-|Hin]].
  - rewrite (Hpre r' Hin) in Hok. discriminate.
  - lia.
  - change (pre ++ r :: post) with (pre ++ [r] ++ post) in Hs.
    rewrite app_assoc in Hs.
    apply (sorted_app_cross timestamp _ _ Hs r r');
      [apply in_or_app; right; now left | exact Hin].
Qed.

(** X20.  The status of a device.  An unknown device is offline with no
    errors.  For a device with a (non-empty) id the ring is left as it is,
    the error count is at most ten, an online device has fewer than five
    errors and a time last seen, and the time last seen is the timestamp
    of a successful result of this device in the ring that no successful
    result among the ten newest of the device exceeds. *)
Theorem device_status (devices : list (string * SNMPDevice)) (id : string)
  (p : t) :
  id <> "" ->
  let st := fst (DeviceStatus.getDeviceStatus devices id p) in
  snd (DeviceStatus.getDeviceStatus devices id p) = p
  /\ DeviceStatus.errorCount st <= 10
  /\ (DeviceStatus.getDevice devices id = None ->
      st = DeviceStatus.mk false None 0)
  /\ (DeviceStatus.isOnline st = true ->
      DeviceStatus.errorCount st < 5
      /\ exists seen, DeviceStatus.lastSeen st = Some seen)
  /\ (forall seen, DeviceStatus.lastSeen st = Some seen ->
        exists r, In r (results p) /\ deviceId r = id
                  /\ success r = true /\ timestamp r = seen
                  /\ forall r', In r' (fst (getResults (Some id) 10 p)) ->
                                success r' = true ->
                                (timestamp r' <= seen)%Z).
Proof.
  intros Hid st. subst st. unfold DeviceStatus.getDeviceStatus.
  destruct (DeviceStatus.getDevice devices id) as [dev|].
  2:{ cbn. repeat split; try lia; discriminate. }
  assert (Ht : truthyStr (Some id) = true).
  { cbn. apply String.eqb_neq in Hid. now rewrite Hid. }
  destruct (getResults_rows (Some id) 10 p) as (Hn & Hsame & Hin); [lia|].
  specialize (Hsame Ht).
  destruct (getResults (Some id) 10 p) as [rows p'].
  cbn [fst snd] in *. subst p'.
  destruct Hn as (Hsorted & Hlen & _).
  cbn [fst snd DeviceStatus.errorCount DeviceStatus.isOnline
       DeviceStatus.lastSeen].
  split; [reflexivity|]. split; [|split; [discriminate|split]].
  - pose proof (filter_length_le (fun r => negb (success r)) rows).
    change (Z.to_nat 10) with 10 in Hlen. lia.
  - intros Hon. apply andb_prop in Hon. destruct Hon as [H1 H2].
    apply Nat.ltb_lt in H1. split; [exact H1|].
    destruct (find _ rows) as [r|]; [|discriminate]. now exists (timestamp r).
  - intros seen Hseen.
    destruct (find (fun r => success r) rows) as [r|] eqn:Hf; [|discriminate].
    cbn in Hseen. injection Hseen as <-.
    destruct (first_successful_is_newest rows r Hsorted Hf)
      as (Hr & Hok & Hnewest).
    exists r. destruct (Hin r Hr) as [Hring Hdev].
    split; [exact Hring|]. split; [|split; [exact Hok|split;
      [reflexivity | exact Hnewest]]].
    unfold ofDevice in Hdev. apply String.eqb_neq in Hid. rewrite Hid in Hdev.
    now apply String.eqb_eq.
Qed.

Lemma device_status_witness :
  "tx-a" <> ""
  /\ fst (DeviceStatus.getDeviceStatus RingExamples.devices "tx-a"
            RingExamples.mixedPoller)
     = DeviceStatus.mk true (Some 3%Z) 1
  /\ snd (DeviceStatus.getDeviceStatus RingExamples.devices "tx-a"
            RingExamples.mixedPoller)
     = RingExamples.mixedPoller.
Proof.
  assert (Hid : "tx-a" <> "") by discriminate.
  split; [exact Hid|]. split; [reflexivity|].
  apply (device_status RingExamples.devices "tx-a" RingExamples.mixedPoller
           Hid).
Defined.

(** X21.  The results of an [update] event are cut from the end of the
    newest-first answer of [getResults()]: they are the ten least recent
    of the hundred newest results, newest first, and every other result of
    that answer is at least as recent as each of them. *)
Theorem update_batch (p : t) :
  let batch := fst (DeviceStatus.updateResults p) in
  exists pre,
    fst (getResults None 100 p) = pre ++ batch
    /\ List.length batch
       = Nat.min 10 (Nat.min 100 (List.length (results p)))
    /\ StronglySorted newer batch
    /\ (forall a b, In a pre -> In b batch ->
                    (timestamp b <= timestamp a)%Z)
    /\ results (snd (DeviceStatus.updateResults p))
       = sortBy newestFirst (results p).
Proof.
  cbv zeta. unfold DeviceStatus.updateResults.
  destruct (getResults_rows None 100 p) as (Hn & _ & _); [lia|].
  destruct (getResults_ring None 100 p) as (_ & Hsort & _).
  specialize (Hsort eq_refl).
  destruct (getResults None 100 p) as [rows p']. cbn [fst snd] in *.
  destruct Hn as (Hsorted & Hlen & _). rewrite filter_all in Hlen.
  exists (firstn (List.length rows - 10) rows).
  unfold sliceLast. rewrite firstn_skipn. split; [reflexivity|].
  change (Z.to_nat 100) with 100 in Hlen.
  split; [rewrite length_skipn; lia|].
  rewrite <- (firstn_skipn (List.length rows - 10) rows) in Hsorted.
  split; [|split; [|exact Hsort]].
  - clear - Hsorted. revert Hsorted.
    generalize (firstn (List.length rows - 10) rows).
    generalize (skipn (List.length rows - 10) rows).
    intros l2 l1. induction l1 as [|x l1 IH]; cbn [app]; [auto|].
    intros H. inversion H; subst. auto.
  - exact (sorted_app_cross timestamp _ _ Hsorted).
Qed.

End PollerFacts.
